(** * SAMVAD dialogue analysis: a shallow embedding of the analysis pipeline

    Source modules embedded here:
      - backend/modules/pramana_classifier.py   (PramanaClassifier)
      - backend/modules/value_extractor.py      (ValueExtractor)
      - backend/modules/tarka_engine.py         (TarkaEngine)
      - backend/modules/hidden_agreement_detector.py (HiddenAgreementDetector)
      - backend/samvad_analyzer.py              (SAMVADAnalyzer)
      - app_advanced.py                         (the route /analyze and the
                                                 narratives of /analyze-audio)

    Conventions of the embedding.
      - A Python [str] is a [string], a sequence of 8-bit characters.  The
        development covers ASCII text: [str.lower] and the regex classes
        [\w] and [\b] are the ASCII ones, and a character above 127 is
        left as it is and is no word character.
      - A Python [dict] is an association list in insertion order whose
        first binding of a key is the live one; [d[k]] is fallible.
      - A Python [float] is a binary64 [float] of the kernel, so the
        constants 0.1, 0.6, ... and the products and sums are those the
        interpreter computes.
      - A Python [set] of [str] is iterated in hash-table order, and the
        hash of a [str] is salted per interpreter process.  The order is
        therefore a parameter of a run: a [set_order].
      - Code that can raise returns a [result]. *)

From Stdlib Require Import List String Ascii Bool Arith ZArith Lia.
From Stdlib Require Import Permutation Sorted.
From Stdlib Require Import Floats.PrimFloat Floats.FloatOps Floats.SpecFloat.
From Stdlib Require Uint63.
From Stdlib Require Import DecimalString.
Import ListNotations.

Set Warnings "-inexact-float".
Local Open Scope string_scope.
Local Open Scope list_scope.
Local Open Scope nat_scope.

(* ===================================================================== *)
(** ** The Python runtime the modules rely on                            *)
(* ===================================================================== *)

Module Py.

(** Exceptions.  [KeyError], [ValueError], [ZeroDivisionError] and
    [ReError] are the ones the statements of the source can raise.
    [ValidationError] is the exception the specification names; no
    statement of the source raises it. *)
Inductive exn : Type :=
| KeyError (key : string)
| ValueError
| ZeroDivisionError
| ReError (pattern : string)
| ValidationError.

Inductive result (A : Type) : Type :=
| Ok (a : A)
| Raise (e : exn).
Arguments Ok {A} a.
Arguments Raise {A} e.

Definition bind {A B : Type} (m : result A) (f : A -> result B) : result B :=
  match m with
  | Ok a => f a
  | Raise e => Raise e
  end.

Declare Scope py_scope.
Delimit Scope py_scope with py.
Notation "x <- m ;; k" := (bind m (fun x => k))
  (at level 100, m at next level, right associativity) : py_scope.
Local Open Scope py_scope.

(** [for x in l: acc = f(acc, x)] where the body can raise. *)
Fixpoint for_each {A B : Type} (f : A -> B -> result A) (l : list B) (acc : A)
  : result A :=
  match l with
  | [] => Ok acc
  | x :: l' => acc' <- f acc x ;; for_each f l' acc'
  end.

(** *** dict *)

Definition dict (V : Type) : Type := list (string * V).

(** [d.keys()] and [d.values()]; [d.items()] is [d] itself. *)
Definition dict_keys {V : Type} (d : dict V) : list string := map fst d.
Definition dict_values {V : Type} (d : dict V) : list V := map snd d.

Fixpoint dict_get {V : Type} (d : dict V) (k : string) : option V :=
  match d with
  | [] => None
  | (k', v) :: d' => if String.eqb k' k then Some v else dict_get d' k
  end.

(** [d[k]] *)
Definition getitem {V : Type} (d : dict V) (k : string) : result V :=
  match dict_get d k with
  | Some v => Ok v
  | None => Raise (KeyError k)
  end.

(** [d.get(k, default)] *)
Definition get_default {V : Type} (d : dict V) (k : string) (default : V) : V :=
  match dict_get d k with
  | Some v => v
  | None => default
  end.

(** [d[k] = v]: an existing key keeps its place, a new one goes last. *)
Fixpoint setitem {V : Type} (d : dict V) (k : string) (v : V) : dict V :=
  match d with
  | [] => [(k, v)]
  | (k', v') :: d' =>
      if String.eqb k' k then (k', v) :: d' else (k', v') :: setitem d' k v
  end.

(** [d[k] += n] *)
Definition add_score (d : dict nat) (k : string) (n : nat) : result (dict nat) :=
  match dict_get d k with
  | Some old => Ok (setitem d k (old + n))
  | None => Raise (KeyError k)
  end.

(** *** str *)

Definition is_upper (c : ascii) : bool :=
  let n := nat_of_ascii c in (65 <=? n) && (n <=? 90).
Definition is_lower (c : ascii) : bool :=
  let n := nat_of_ascii c in (97 <=? n) && (n <=? 122).
Definition is_digit (c : ascii) : bool :=
  let n := nat_of_ascii c in (48 <=? n) && (n <=? 57).

Definition lower_char (c : ascii) : ascii :=
  if is_upper c then ascii_of_nat (nat_of_ascii c + 32) else c.

(** [s.lower()], on ASCII text.  Outside ASCII the lowering of Python
    can change the length of a text; no statement below relies on
    [lower] keeping the length. *)
Fixpoint lower (s : string) : string :=
  match s with
  | EmptyString => EmptyString
  | String c s' => String (lower_char c) (lower s')
  end.

(** [sep.join(l)] *)
Definition join (sep : string) (l : list string) : string := String.concat sep l.

(** An f-string, given by its pieces in order. *)
Definition fstr (pieces : list string) : string := String.concat "" pieces.

(** [s.replace(old, new)] for a one-character [old] and [new]. *)
Fixpoint replace_char (old new : ascii) (s : string) : string :=
  match s with
  | EmptyString => EmptyString
  | String c s' => String (if Ascii.eqb c old then new else c) (replace_char old new s')
  end.

(** [s * n] *)
Fixpoint repeat_str (s : string) (n : nat) : string :=
  match n with
  | 0 => EmptyString
  | S n' => String.append s (repeat_str s n')
  end.

(** [str(n)] for a non-negative [int]. *)
Definition str_nat (n : nat) : string := NilZero.string_of_uint (Nat.to_uint n).

(** [x in l] for a list (or set) of [str]. *)
Definition mem (x : string) (l : list string) : bool := existsb (String.eqb x) l.

(** *** float *)

(** [float(n)] for a non-negative [int]; exact below 2^53. *)
Definition float_of_nat (n : nat) : float :=
  PrimFloat.of_uint63 (Uint63.of_Z (Z.of_nat n)).

(** [a / b] on two [int]s. *)
Definition truediv (a b : nat) : result float :=
  if b =? 0 then Raise ZeroDivisionError
  else Ok (PrimFloat.div (float_of_nat a) (float_of_nat b)).

(** [min(x, y)] on floats: the first argument wins unless the second is
    strictly smaller. *)
Definition fmin (x y : float) : float := if PrimFloat.ltb y x then y else x.

(** The integer nearest to [m * 2^e], ties to even. *)
Definition round_half_even (m : positive) (e : Z) : Z :=
  if (0 <=? e)%Z then (Z.pos m * 2 ^ e)%Z
  else
    let d := (2 ^ (- e))%Z in
    let q := (Z.pos m / d)%Z in
    let r := (Z.pos m mod d)%Z in
    if (2 * r <? d)%Z then q
    else if (d <? 2 * r)%Z then (q + 1)%Z
    else if Z.even q then q else (q + 1)%Z.

(** [f"{x:.0%}"]: [x] times 100 in fixed notation with no decimals, then
    a percent sign. *)
Definition format_percent0 (x : float) : string :=
  match Prim2SF (PrimFloat.mul x 100%float) with
  | S754_zero s => fstr [if s then "-0" else "0"; "%"]
  | S754_infinity s => fstr [if s then "-inf" else "inf"; "%"]
  | S754_nan => "nan%"
  | S754_finite s m e =>
      fstr [if s then "-" else ""; str_nat (Z.to_nat (round_half_even m e)); "%"]
  end.

(** *** sorted, max, combinations *)

(** Insertion into a list that a stable sort has produced: [x] stood
    before every element of [l] in the input, so it passes exactly the
    elements that go strictly before it. *)
Fixpoint insert_by {A : Type} (before : A -> A -> bool) (x : A) (l : list A) : list A :=
  match l with
  | [] => [x]
  | y :: l' => if before y x then y :: insert_by before x l' else x :: y :: l'
  end.

(** [sorted(l, key=...)] and [l.sort(key=...)]: the stable sort, where
    [before y x] says that [y]'s key goes strictly before [x]'s. *)
Fixpoint sorted_by {A : Type} (before : A -> A -> bool) (l : list A) : list A :=
  match l with
  | [] => []
  | x :: l' => insert_by before x (sorted_by before l')
  end.

(** [max(d, key=d.get)] on a dict of counts: the first key, in iteration
    order, that carries the greatest value; [ValueError] on an empty dict. *)
Fixpoint max_from (best : string) (best_v : nat) (d : dict nat) : string :=
  match d with
  | [] => best
  | (k, v) :: d' => if best_v <? v then max_from k v d' else max_from best best_v d'
  end.

Definition max_key (d : dict nat) : result string :=
  match d with
  | [] => Raise ValueError
  | (k, v) :: d' => Ok (max_from k v d')
  end.

(** [sum(d.values())] *)
Definition sum_values (d : dict nat) : nat := fold_right Nat.add 0 (dict_values d).

(** [itertools.combinations(l, 2)] *)
Fixpoint combinations2 {A : Type} (l : list A) : list (A * A) :=
  match l with
  | [] => []
  | x :: l' => map (fun y => (x, y)) l' ++ combinations2 l'
  end.

(** *** set

    [set_iter] gives the order in which a set of [str] is iterated, the
    set being given by the elements that were put into it.  Whatever the
    hash salt of the process, the iteration visits each distinct element
    once. *)
Record set_order : Type := {
  set_iter : list string -> list string;
  set_iter_nodup : forall l, NoDup (set_iter l);
  set_iter_in : forall l x, In x (set_iter l) <-> In x l
}.

(** [a & b] *)
Definition set_and (a b : list string) : list string := filter (fun x => mem x b) a.

(** [a == b] on sets *)
Definition set_eqb (a b : list string) : bool :=
  forallb (fun x => mem x b) a && forallb (fun x => mem x a) b.

(** [len(s)] on a set *)
Definition set_len (s : list string) : nat := List.length (nodup string_dec s).

(** *** str: slices, strip, split *)

(** [s[i:j]] for [0 <= i <= j]. *)
Definition slice (s : string) (i j : nat) : string :=
  string_of_list_ascii (firstn (j - i) (skipn i (list_ascii_of_string s))).

(** The ASCII characters that [str.isspace] accepts. *)
Definition is_space (c : ascii) : bool :=
  let n := nat_of_ascii c in
  ((9 <=? n) && (n <=? 13)) || ((28 <=? n) && (n <=? 32)).

Fixpoint lstrip_list (s : list ascii) : list ascii :=
  match s with
  | [] => []
  | c :: s' => if is_space c then lstrip_list s' else s
  end.

(** [s.strip()] *)
Definition strip (s : string) : string :=
  string_of_list_ascii
    (rev (lstrip_list (rev (lstrip_list (list_ascii_of_string s))))).

(** [s.split(sep)] for a one-character [sep]: the pieces between the
    separators, one more than there are separators. *)
Fixpoint split_list (sep : ascii) (s : list ascii) : list (list ascii) :=
  match s with
  | [] => [[]]
  | c :: s' =>
      if Ascii.eqb c sep then [] :: split_list sep s'
      else
        match split_list sep s' with
        | [] => [[c]]
        | piece :: pieces => (c :: piece) :: pieces
        end
  end.

Definition split (sep : ascii) (s : string) : list string :=
  map string_of_list_ascii (split_list sep (list_ascii_of_string s)).

End Py.

Import Py.
Local Open Scope py_scope.

(* ===================================================================== *)
(** ** The [re] module: the fragment the pattern tables use              *)
(* ===================================================================== *)

Module Re.

(** Abstract syntax of a pattern.  The tables use literals, [.], [\w],
    [\b], groups with alternatives, and the greedy quantifiers [*], [+]. *)
Inductive regex : Type :=
| Chr (c : ascii)
| AnyChar
| WordChar
| WordBoundary
| Seq (r1 r2 : regex)
| Alt (r1 r2 : regex)
| Star (r : regex)
| Epsilon.

(** [\w] *)
Definition is_word (c : ascii) : bool :=
  is_lower c || is_upper c || is_digit c || Ascii.eqb c "_"%char.

Definition is_newline (c : ascii) : bool := Ascii.eqb c (ascii_of_nat 10).

(** Escapes that stand for themselves: a backslash before a character
    that is neither a letter nor a digit. *)
Definition is_alnum (c : ascii) : bool := is_lower c || is_upper c || is_digit c.

(** *** Compilation of a pattern string *)

(** One open group: the alternatives already closed (latest first) and
    the items of the alternative being read (latest first). *)
Definition frame : Type := (list regex * list regex)%type.

Definition seq_of (items : list regex) : regex :=
  fold_left (fun acc r => Seq r acc) items Epsilon.

Fixpoint alt_of (first : regex) (others : list regex) : regex :=
  match others with
  | [] => first
  | r :: others' => Alt first (alt_of r others')
  end.

Definition close_frame (f : frame) : regex :=
  match rev (seq_of (snd f) :: fst f) with
  | [] => Epsilon
  | r :: rs => alt_of r rs
  end.

Definition push_item (r : regex) (stack : list frame) : option (list frame) :=
  match stack with
  | [] => None
  | (alts, cur) :: stack' => Some ((alts, r :: cur) :: stack')
  end.

(** Syntax of [re] outside the fragment: sets, counted and optional
    repetition, anchors.  A pattern that uses it is not compiled. *)
Definition is_unsupported (c : ascii) : bool :=
  existsb (Ascii.eqb c) (list_ascii_of_string "[]{}?^$").

(** The parser reads the pattern from left to right and keeps the open
    groups on a stack; it fails on a pattern that is ill-formed or
    outside the fragment. *)
Fixpoint parse (p : list ascii) (stack : list frame) : option regex :=
  match p with
  | [] =>
      match stack with
      | [f] => Some (close_frame f)
      | _ => None
      end
  | c :: p' =>
      if Ascii.eqb c "("%char then parse p' (([], []) :: stack)
      else if Ascii.eqb c ")"%char then
        match stack with
        | f :: (alts, cur) :: stack' => parse p' ((alts, close_frame f :: cur) :: stack')
        | _ => None
        end
      else if Ascii.eqb c "|"%char then
        match stack with
        | (alts, cur) :: stack' => parse p' ((seq_of cur :: alts, []) :: stack')
        | [] => None
        end
      else if Ascii.eqb c "*"%char then
        match stack with
        | (alts, r :: cur) :: stack' => parse p' ((alts, Star r :: cur) :: stack')
        | _ => None
        end
      else if Ascii.eqb c "+"%char then
        match stack with
        | (alts, r :: cur) :: stack' => parse p' ((alts, Seq r (Star r) :: cur) :: stack')
        | _ => None
        end
      else if Ascii.eqb c "."%char then
        match push_item AnyChar stack with
        | Some stack' => parse p' stack'
        | None => None
        end
      else if Ascii.eqb c "\"%char then
        match p' with
        | [] => None
        | e :: p'' =>
            let item :=
              if Ascii.eqb e "b"%char then Some WordBoundary
              else if Ascii.eqb e "w"%char then Some WordChar
              else if is_alnum e then None
              else Some (Chr e) in
            match item with
            | Some r =>
                match push_item r stack with
                | Some stack' => parse p'' stack'
                | None => None
                end
            | None => None
            end
        end
      else if is_unsupported c then None
      else
        match push_item (Chr c) stack with
        | Some stack' => parse p' stack'
        | None => None
        end
  end.

(** [re.compile(pattern)], for the patterns of the fragment. *)
Definition compile (pattern : string) : result regex :=
  match parse (list_ascii_of_string pattern) [([], [])] with
  | Some r => Ok r
  | None => Raise (ReError pattern)
  end.

(** The characters that [re.escape] puts a backslash before. *)
Definition is_special (c : ascii) : bool :=
  existsb (Ascii.eqb c)
    (list_ascii_of_string "()[]{}?*+-|^$\.&~# "
     ++ map ascii_of_nat [9; 10; 13; 11; 12]).

(** [re.escape(s)] *)
Fixpoint escape (s : string) : string :=
  match s with
  | EmptyString => EmptyString
  | String c s' =>
      if is_special c then String "\"%char (String c (escape s'))
      else String c (escape s')
  end.

(** *** Matching

    A backtracking matcher in continuation-passing style.  The state is
    the text still to read and whether the character just read is a word
    character (none is read at the start of the text).  [k] continues the
    match after [r]; the answer is the text left after the whole match.
    Alternatives are tried left to right and [Star] takes as many rounds
    as it can before it gives one back. *)
Definition next_is_word (s : list ascii) : bool :=
  match s with
  | [] => false
  | c :: _ => is_word c
  end.

Definition chr_eqb (ignorecase : bool) (c x : ascii) : bool :=
  if ignorecase then Ascii.eqb (lower_char c) (lower_char x) else Ascii.eqb c x.

Definition kont : Type := bool -> list ascii -> option (list ascii).

Fixpoint rmatch (ic : bool) (r : regex) (prev : bool) (s : list ascii) (k : kont)
  {struct r} : option (list ascii) :=
  match r with
  | Chr c =>
      match s with
      | x :: s' => if chr_eqb ic c x then k (is_word x) s' else None
      | [] => None
      end
  | AnyChar =>
      match s with
      | x :: s' => if is_newline x then None else k (is_word x) s'
      | [] => None
      end
  | WordChar =>
      match s with
      | x :: s' => if is_word x then k true s' else None
      | [] => None
      end
  | WordBoundary => if xorb prev (next_is_word s) then k prev s else None
  | Epsilon => k prev s
  | Seq r1 r2 => rmatch ic r1 prev s (fun p s' => rmatch ic r2 p s' k)
  | Alt r1 r2 =>
      match rmatch ic r1 prev s k with
      | Some rest => Some rest
      | None => rmatch ic r2 prev s k
      end
  | Star r1 =>
      (fix rounds (n : nat) (prev : bool) (s : list ascii) {struct n}
         : option (list ascii) :=
         match n with
         | 0 => k prev s
         | S n' =>
             match rmatch ic r1 prev s
                     (fun p s' =>
                        if List.length s' <? List.length s then rounds n' p s' else None)
             with
             | Some rest => Some rest
             | None => k prev s
             end
         end) (List.length s) prev s
  end.

(** A match object: [m.start()] and [m.group()]. *)
Record match_obj : Type := {
  m_start : nat;
  m_group : string
}.

(** The scan of [finditer]: try the pattern at each position from left
    to right; after a match, go on where it ended.  [skip] counts the
    characters of the last match still to pass.  (Every pattern of the
    tables reads at least one character, so no match is empty.) *)
Fixpoint scan (ic : bool) (r : regex) (prev : bool) (s : list ascii) (pos skip : nat)
  : list match_obj :=
  match skip with
  | S skip' =>
      match s with
      | [] => []
      | c :: s' => scan ic r (is_word c) s' (S pos) skip'
      end
  | 0 =>
      match rmatch ic r prev s (fun _ rest => Some rest) with
      | Some rest =>
          let len := List.length s - List.length rest in
          {| m_start := pos; m_group := string_of_list_ascii (firstn len s) |}
          :: match s with
             | [] => []
             | c :: s' => scan ic r (is_word c) s' (S pos) (Nat.pred len)
             end
      | None =>
          match s with
          | [] => []
          | c :: s' => scan ic r (is_word c) s' (S pos) 0
          end
      end
  end.

(** [re.finditer(pattern, text, flags)], [flags] being [re.IGNORECASE]
    or none. *)
Definition finditer (pattern text : string) (ignorecase : bool)
  : result (list match_obj) :=
  r <- compile pattern ;;
  Ok (scan ignorecase r false (list_ascii_of_string text) 0 0).

(** [re.findall(pattern, text, flags)]: one entry per match (the callers
    take the length of the list only). *)
Definition findall (pattern text : string) (ignorecase : bool)
  : result (list match_obj) :=
  finditer pattern text ignorecase.

End Re.

(* ===================================================================== *)
(** ** pramana_classifier.py                                             *)
(* ===================================================================== *)

Module PramanaClassifier.

(** [self.pramana_patterns] *)
Definition pramana_patterns : dict (list string) :=
  [ ("pratyaksha",
      [ "\bI (see|saw|witness|observe|watch|experience)\b";
        "\bI have (seen|witnessed|observed|experienced)\b";
        "\bin my experience\b";
        "\bfirsthand\b";
        "\bI was there\b";
        "\bwith my own eyes\b" ]);
    ("anumana",
      [ "\btherefore\b";
        "\bthus\b";
        "\bhence\b";
        "\bconsequently\b";
        "\bit follows that\b";
        "\bwe can infer\b";
        "\bthis implies\b";
        "\bif .+ then\b";
        "\bbecause .+ must\b" ]);
    ("sabda",
      [ "\bstudies show\b";
        "\bresearch (shows|indicates|proves)\b";
        "\bexperts say\b";
        "\baccording to\b";
        "\bdata (shows|indicates)\b";
        "\bevidence suggests\b";
        "\bscientists (agree|found)\b";
        "\bthe literature\b" ]);
    ("upamana",
      [ "\blike\b";
        "\bsimilar to\b";
        "\bjust as\b";
        "\banalogous to\b";
        "\bcompare to\b";
        "\bresembles\b";
        "\bin the same way\b" ]) ].

(** The dictionary [classify_pramana] returns. *)
Record pramana_result : Type := {
  dominant_pramana : string;
  scores : dict nat;
  confidence : float
}.

(** The counting loop of [classify_pramana]. *)
Definition count_matches (text_lower : string) (scores : dict nat) : result (dict nat) :=
  for_each
    (fun scores (entry : string * list string) =>
       let (pramana, patterns) := entry in
       for_each
         (fun scores pattern =>
            matches <- Re.findall pattern text_lower true ;;
            add_score scores pramana (List.length matches))
         patterns scores)
    pramana_patterns scores.

Definition classify_pramana (text : string) : result pramana_result :=
  let text_lower := lower text in
  let scores := map (fun entry : string * list string => (fst entry, 0)) pramana_patterns in
  scores <- count_matches text_lower scores ;;
  dominant <- (if sum_values scores =? 0 then Ok "pratyaksha" else max_key scores) ;;
  dominant_score <- getitem scores dominant ;;
  confidence <- truediv dominant_score (Nat.max (sum_values scores) 1) ;;
  Ok {| dominant_pramana := dominant; scores := scores; confidence := confidence |}.

End PramanaClassifier.

(* ===================================================================== *)
(** ** value_extractor.py                                                *)
(* ===================================================================== *)

Module ValueExtractor.

(** [self.value_keywords] *)
Definition value_keywords : dict (list string) :=
  [ ("justice_and_fairness",
      [ "justice"; "fair"; "fairness"; "equal"; "equality"; "rights";
        "deserve"; "ought"; "should"; "moral"; "ethical"; "unjust" ]);
    ("health_and_wellbeing",
      [ "health"; "wellbeing"; "wellness"; "care"; "medical"; "hospital";
        "patient"; "illness"; "disease"; "treatment"; "safety" ]);
    ("economic_security",
      [ "job"; "employment"; "economy"; "economic"; "business"; "income";
        "financial"; "money"; "wage"; "salary"; "afford"; "cost" ]);
    ("family_protection",
      [ "family"; "children"; "kids"; "parents"; "home"; "household";
        "father"; "mother"; "son"; "daughter"; "protect" ]);
    ("community_wellbeing",
      [ "community"; "society"; "neighbor"; "local"; "town"; "city";
        "people"; "citizens"; "public"; "collective" ]);
    ("progress_and_innovation",
      [ "innovation"; "progress"; "technology"; "future"; "advance";
        "develop"; "improve"; "growth"; "modern"; "new" ]);
    ("freedom_and_autonomy",
      [ "freedom"; "liberty"; "choice"; "autonomy"; "independent";
        "free"; "choose"; "decide"; "control" ]) ].

(** The dictionary [extract_values] returns. *)
Record value_result : Type := {
  top_values : list string;
  scores : dict nat
}.

Definition keyword_pattern (keyword : string) : string :=
  String.append "\b" (String.append (Re.escape keyword) "\w*\b").

(** The counting loop of [extract_values]. *)
Definition count_keywords (text_lower : string) (scores : dict nat) : result (dict nat) :=
  for_each
    (fun scores (entry : string * list string) =>
       let (value, keywords) := entry in
       for_each
         (fun scores keyword =>
            matches <- Re.findall (keyword_pattern keyword) text_lower false ;;
            add_score scores value (List.length matches))
         keywords scores)
    value_keywords scores.

(** [sorted(scores.items(), key=lambda x: x[1], reverse=True)]: the
    greater score goes first, equal scores keep the order of the items. *)
Definition by_score_desc (y x : string * nat) : bool := snd x <? snd y.

Definition extract_values (text : string) : result value_result :=
  let text_lower := lower text in
  let scores := map (fun entry : string * list string => (fst entry, 0)) value_keywords in
  scores <- count_keywords text_lower scores ;;
  let sorted_values := sorted_by by_score_desc scores in
  let top_values :=
    firstn 5 (map fst (filter (fun vs : string * nat => 0 <? snd vs) sorted_values)) in
  Ok {| top_values := top_values; scores := scores |}.

End ValueExtractor.

(* ===================================================================== *)
(** ** tarka_engine.py                                                   *)
(* ===================================================================== *)

Module TarkaEngine.

(** [self.reasoning_patterns] *)
Definition reasoning_patterns : dict (list string) :=
  [ ("premise",
      [ "\b(because|since|given that|as)\b";
        "\bthe fact (that|is)\b" ]);
    ("inference",
      [ "\b(therefore|thus|hence|consequently)\b";
        "\bit follows that\b";
        "\bthis (means|implies)\b" ]);
    ("evidence",
      [ "\b(studies|research|data|evidence) (show|suggest|indicate)\b";
        "\baccording to\b" ]);
    ("conclusion",
      [ "\b(in conclusion|ultimately|finally)\b";
        "\bwe (must|should|need to)\b" ]) ].

(** One element of the chain: the keys ['type'], ['position'], ['text']. *)
Record element : Type := {
  type : string;
  position : nat;
  text : string
}.

(** The dictionary [analyze_reasoning] returns. *)
Record reasoning_result : Type := {
  chain : list element;
  has_logical_structure : bool
}.

(** The search loop of [analyze_reasoning]. *)
Definition find_elements (text_lower : string) : result (list element) :=
  for_each
    (fun chain (entry : string * list string) =>
       let (element_type, patterns) := entry in
       for_each
         (fun chain pattern =>
            matches <- Re.finditer pattern text_lower true ;;
            Ok (chain ++
                map (fun m => {| type := element_type;
                                 position := Re.m_start m;
                                 text := Re.m_group m |}) matches))
         patterns chain)
    reasoning_patterns [].

(** [chain.sort(key=lambda x: x['position'])] *)
Definition by_position (y x : element) : bool := position y <? position x.

Definition analyze_reasoning (text : string) : result reasoning_result :=
  let text_lower := lower text in
  chain <- find_elements text_lower ;;
  let chain := sorted_by by_position chain in
  Ok {| chain := chain; has_logical_structure := 0 <? List.length chain |}.

End TarkaEngine.

(* ===================================================================== *)
(** ** The per-speaker analysis                                          *)
(* ===================================================================== *)

(** The dictionary [analyze_dialogue] stores for one speaker, with the
    keys ['pramana'], ['values'], ['reasoning'] and ['text'].  The
    detector reads it through [.get(key, default)]; every key being
    present in the record, the read is the field.  (For the values the
    detector computes with, an absent key is the same as an empty
    [dominant_pramana], an empty [top_values] or an empty [chain], all
    of which the record can hold.) *)
Record analysis : Type := {
  pramana : PramanaClassifier.pramana_result;
  values : ValueExtractor.value_result;
  reasoning : TarkaEngine.reasoning_result;
  text : string
}.

(* ===================================================================== *)
(** ** hidden_agreement_detector.py                                      *)
(* ===================================================================== *)

Module HiddenAgreementDetector.

(** One detected agreement. *)
Record agreement : Type := {
  person_a : string;
  person_b : string;
  shared_values : list string;
  agreement_strength : float;
  pramana_similarity : float;
  reasoning_compatibility : float;
  dialogue_insight : string
}.

(** [self.agreement_threshold] *)
Definition agreement_threshold : float := 0.1%float.

(** [related_values] of [_find_shared_values] *)
Definition related_values : dict (list string) :=
  [ ("health_and_wellbeing", ["family_protection"; "community_wellbeing"]);
    ("economic_security", ["family_protection"; "community_wellbeing"]);
    ("justice_and_fairness", ["human_dignity"; "equality"]);
    ("community_wellbeing", ["family_protection"; "health_and_wellbeing"]);
    ("family_protection", ["health_and_wellbeing"; "economic_security"]) ].

(** [val_a in related_values.get(val_b, []) or
     val_b in related_values.get(val_a, [])] *)
Definition related (val_a val_b : string) : bool :=
  mem val_a (get_default related_values val_b [])
  || mem val_b (get_default related_values val_a []).

(** [if v not in shared: shared.append(v)] *)
Definition append_new (shared : list string) (v : string) : list string :=
  if mem v shared then shared else shared ++ [v].

(** [compatible_pairs] of [_compare_pramana] *)
Definition compatible_pairs : list (list string) :=
  [ ["pratyaksha"; "anumana"];
    ["sabda"; "anumana"];
    ["pratyaksha"; "sabda"] ].

Definition _compare_pramana (analysis_a analysis_b : analysis) : float :=
  let pramana_a := PramanaClassifier.dominant_pramana (pramana analysis_a) in
  let pramana_b := PramanaClassifier.dominant_pramana (pramana analysis_b) in
  if String.eqb pramana_a "" || String.eqb pramana_b "" then 0.3%float
  else if String.eqb pramana_a pramana_b then 0.9%float
  else if existsb (fun pair => set_eqb [pramana_a; pramana_b] pair) compatible_pairs
  then 0.6%float
  else 0.3%float.

Definition _compare_reasoning (analysis_a analysis_b : analysis) : float :=
  let reasoning_a := reasoning analysis_a in
  let reasoning_b := reasoning analysis_b in
  let has_chain_a := 0 <? List.length (TarkaEngine.chain reasoning_a) in
  let has_chain_b := 0 <? List.length (TarkaEngine.chain reasoning_b) in
  if has_chain_a && has_chain_b then 0.7%float
  else if has_chain_a || has_chain_b then 0.4%float
  else 0.2%float.

Definition _calculate_agreement_strength
  (shared_values : list string) (pramana_similarity reasoning_compatibility : float)
  : float :=
  let value_score :=
    fmin (float_of_nat (List.length shared_values) / 3.0)%float 1.0%float in
  (value_score * 0.6 + pramana_similarity * 0.25 + reasoning_compatibility * 0.15)%float.

(** [v.replace('_', ' ')] *)
Definition spaced (v : string) : string := replace_char "_"%char " "%char v.

Definition _generate_insight
  (person_a person_b : string) (shared_values : list string)
  (analysis_a analysis_b : analysis) (pramana_similarity : float) : string :=
  let pramana_a := PramanaClassifier.dominant_pramana (pramana analysis_a) in
  let pramana_b := PramanaClassifier.dominant_pramana (pramana analysis_b) in
  match shared_values with
  | [] =>
      fstr [ "While "; person_a; " and "; person_b; " may disagree on policy, ";
             "they use similar epistemological approaches (";
             pramana_a; " and "; pramana_b; "). ";
             "This suggests potential for productive dialogue if they can identify shared goals." ]
  | first :: _ =>
      let values_str :=
        if List.length shared_values =? 1 then spaced first
        else if List.length shared_values =? 2 then join " and " (map spaced shared_values)
        else fstr [ join ", " (map spaced (removelast shared_values));
                    ", and "; spaced (last shared_values "") ] in
      let pramana_insight :=
        if (0.7 <? pramana_similarity)%float then
          fstr [ "Both primarily use "; pramana_a; " (same way of knowing), ";
                 "so disagreement likely stems from different interpretations or priorities, not fundamental epistemology." ]
        else
          fstr [ person_a; " relies on "; pramana_a; " while "; person_b; " uses ";
                 pramana_b; ". ";
                 "Bridging this gap could help them find common ground despite different reasoning approaches." ] in
      fstr [ "Both people value "; values_str; ", but reach different conclusions. ";
             pramana_insight; " ";
             "A mediator could highlight their shared concern for "; spaced first; " ";
             "to build consensus on specific action steps." ]
  end.

(** [sorted(..., key=lambda x: x['agreement_strength'], reverse=True)] *)
Definition by_strength_desc (y x : agreement) : bool :=
  (agreement_strength x <? agreement_strength y)%float.

(** The four templates of [generate_dialogue_recommendations]. *)
Definition strongest_recommendation (strongest : agreement) : string :=
  fstr [ "Strong agreement detected between "; person_a strongest; " and ";
         person_b strongest; ". ";
         "Build on their shared values: ";
         join ", " (firstn 2 (shared_values strongest)); "." ].

Definition shared_values_recommendation (listed : list string) : string :=
  fstr [ "Multiple shared values detected across speakers: ";
         join ", " (firstn 3 listed); ". ";
         "Frame discussion around these common concerns." ].

Definition pramana_recommendation (pairs : nat) : string :=
  fstr [ str_nat pairs; " speaker pair(s) use similar reasoning methods. ";
         "They may disagree on conclusions but share epistemological common ground." ].

Definition general_recommendation : string :=
  String.append
    "Multiple hidden agreements suggest this group has more common ground than apparent. "
    "Focus dialogue on shared values to find compromise solutions.".

Definition fallback_recommendations : list string :=
  [ "No clear hidden agreements detected. Focus on establishing common ground.";
    "Try identifying shared experiences or concerns as a starting point.";
    "Consider using a neutral facilitator to explore potential areas of agreement." ].

(** [a['pramana_similarity'] > 0.6] *)
Definition high_pramana (a : agreement) : bool := (0.6 <? pramana_similarity a)%float.

Section Detector.

(** The iteration order of sets in the running interpreter. *)
Variable order : set_order.

Definition _find_shared_values (analysis_a analysis_b : analysis) : list string :=
  let values_a := ValueExtractor.top_values (values analysis_a) in
  let values_b := ValueExtractor.top_values (values analysis_b) in
  let shared := set_iter order (set_and values_a values_b) in
  let shared :=
    fold_left
      (fun shared val_a =>
         fold_left
           (fun shared val_b =>
              if related val_a val_b
              then append_new (append_new shared val_a) val_b
              else shared)
           (set_iter order values_b) shared)
      (set_iter order values_a) shared in
  firstn 5 shared.

(** The body of the loop of [detect_agreements] for one pair. *)
Definition examine_pair
  (analyses : dict analysis) (agreements : list agreement) (pair : string * string)
  : result (list agreement) :=
  let (person_a, person_b) := pair in
  analysis_a <- getitem analyses person_a ;;
  analysis_b <- getitem analyses person_b ;;
  let shared_values := _find_shared_values analysis_a analysis_b in
  let pramana_similarity := _compare_pramana analysis_a analysis_b in
  let reasoning_compatibility := _compare_reasoning analysis_a analysis_b in
  let agreement_strength :=
    _calculate_agreement_strength shared_values pramana_similarity
      reasoning_compatibility in
  if (agreement_threshold <? agreement_strength)%float
     || (0 <? List.length shared_values)
  then
    Ok (agreements ++
        [ {| person_a := person_a;
             person_b := person_b;
             shared_values := shared_values;
             agreement_strength := agreement_strength;
             pramana_similarity := pramana_similarity;
             reasoning_compatibility := reasoning_compatibility;
             dialogue_insight :=
               _generate_insight person_a person_b shared_values
                 analysis_a analysis_b pramana_similarity |} ])
  else Ok agreements.

Definition detect_agreements (analyses : dict analysis) : result (list agreement) :=
  let speakers := dict_keys analyses in
  agreements <- for_each (examine_pair analyses) (combinations2 speakers) [] ;;
  Ok (sorted_by by_strength_desc agreements).

Definition generate_dialogue_recommendations (agreements : list agreement)
  : list string :=
  match agreements with
  | [] => fallback_recommendations
  | strongest :: _ =>
      let recommendations := [] in
      let recommendations :=
        if (0.6 <? agreement_strength strongest)%float
        then recommendations ++ [strongest_recommendation strongest]
        else recommendations in
      let all_shared_values := flat_map shared_values agreements in
      let recommendations :=
        if 3 <=? set_len all_shared_values
        then recommendations
             ++ [shared_values_recommendation (set_iter order all_shared_values)]
        else recommendations in
      let high_pramana_similarity := filter high_pramana agreements in
      let recommendations :=
        if 0 <? List.length high_pramana_similarity
        then recommendations
             ++ [pramana_recommendation (List.length high_pramana_similarity)]
        else recommendations in
      let recommendations :=
        if 3 <? List.length agreements
        then recommendations ++ [general_recommendation]
        else recommendations in
      recommendations
  end.

End Detector.

End HiddenAgreementDetector.

(* ===================================================================== *)
(** ** samvad_analyzer.py                                                *)
(* ===================================================================== *)

Module SAMVADAnalyzer.

Import HiddenAgreementDetector.

(** A narrative is a dictionary of strings; the analyzer reads the keys
    ['speaker'], ['text'] and ['position'].  The fields of a narrative
    are strings, as the page sends them and as the annotations [text:
    str] of the modules ask: a narrative whose fields are other values
    is outside the embedding, and so is what the modules raise on one. *)
Definition narrative : Type := dict string.

(** The dictionary [analyze_dialogue] returns. *)
Record results : Type := {
  individual_analyses : dict analysis;
  hidden_agreements : list agreement;
  narratives : list narrative
}.

(** The left-right arrow of the report, in UTF-8. *)
Definition arrow : string :=
  String (ascii_of_nat 226) (String (ascii_of_nat 134) (String (ascii_of_nat 148) "")).

(** The loop of [generate_report] that looks a speaker's position up:
    the first narrative of that speaker, ['N/A'] when there is none. *)
Fixpoint find_position (narratives : list narrative) (speaker : string)
  : result string :=
  match narratives with
  | [] => Ok "N/A"
  | narrative :: narratives' =>
      narrative_speaker <- getitem narrative "speaker" ;;
      if String.eqb narrative_speaker speaker
      then getitem narrative "position"
      else find_position narratives' speaker
  end.

(** The lines of the report for the agreements, numbered from [i]. *)
Fixpoint agreement_lines (i : nat) (agreements : list agreement) : list string :=
  match agreements with
  | [] => []
  | agreement :: agreements' =>
      [ fstr ["Agreement #"; str_nat i; ":"];
        fstr ["  Between: "; person_a agreement; " "; arrow; " "; person_b agreement];
        fstr ["  Shared Values: ";
              match shared_values agreement with
              | [] => "None explicit"
              | _ => join ", " (shared_values agreement)
              end];
        fstr ["  Agreement Strength: "; format_percent0 (agreement_strength agreement)];
        fstr ["  Insight: "; dialogue_insight agreement];
        "" ]
      ++ agreement_lines (S i) agreements'
  end.

(** The lines of the report for the recommendations, numbered from [i]. *)
Fixpoint recommendation_lines (i : nat) (recommendations : list string) : list string :=
  match recommendations with
  | [] => []
  | rec :: recommendations' =>
      fstr [str_nat i; ". "; rec] :: recommendation_lines (S i) recommendations'
  end.

Section Analyzer.

(** The iteration order of sets in the running interpreter. *)
Variable order : set_order.

(** The body of the loop of [analyze_dialogue] for one narrative. *)
Definition analyze_narrative
  (individual_analyses : dict analysis) (narrative : narrative)
  : result (dict analysis) :=
  speaker <- getitem narrative "speaker" ;;
  text <- getitem narrative "text" ;;
  pramana_result <- PramanaClassifier.classify_pramana text ;;
  value_result <- ValueExtractor.extract_values text ;;
  reasoning_result <- TarkaEngine.analyze_reasoning text ;;
  Ok (setitem individual_analyses speaker
        {| pramana := pramana_result;
           values := value_result;
           reasoning := reasoning_result;
           text := text |}).

Definition analyze_dialogue (narratives : list narrative) : result results :=
  individual_analyses <- for_each analyze_narrative narratives [] ;;
  hidden_agreements <- detect_agreements order individual_analyses ;;
  Ok {| individual_analyses := individual_analyses;
        hidden_agreements := hidden_agreements;
        narratives := narratives |}.

(** The lines of the report for one speaker. *)
Definition speaker_lines (results : results) (report : list string)
  (item : string * analysis) : result (list string) :=
  let (speaker, analysis) := item in
  position <- find_position (narratives results) speaker ;;
  let pramana := PramanaClassifier.dominant_pramana (pramana analysis) in
  let values := ValueExtractor.top_values (values analysis) in
  Ok (report ++
      [ fstr [speaker; ":"];
        fstr ["  Position: "; position];
        fstr ["  Knowledge Source: "; pramana];
        match values with
        | [] => "  Top Values: "
        | _ => fstr ["  Top Values: "; join ", " (firstn 3 values)]
        end;
        "" ]).

Definition generate_report (results : results) : result string :=
  let report :=
    [ repeat_str "=" 60; "SAMVAD DIALOGUE ANALYSIS REPORT"; repeat_str "=" 60; "" ] in
  let num_speakers := List.length (narratives results) in
  let num_agreements := List.length (hidden_agreements results) in
  let report :=
    report ++
    [ fstr ["Total Speakers: "; str_nat num_speakers];
      fstr ["Hidden Agreements Found: "; str_nat num_agreements];
      fstr ["Dialogue Connections: "; str_nat (num_speakers * (num_speakers - 1) / 2)];
      "";
      "INDIVIDUAL NARRATIVE ANALYSIS"; repeat_str "-" 60; "" ] in
  report <- for_each (speaker_lines results) (individual_analyses results) report ;;
  let report :=
    match hidden_agreements results with
    | [] => report
    | _ =>
        report ++
        [ ""; "HIDDEN AGREEMENTS DETECTED"; repeat_str "-" 60; "" ] ++
        agreement_lines 1 (hidden_agreements results)
    end in
  let report :=
    report ++ [ ""; "DIALOGUE RECOMMENDATIONS"; repeat_str "-" 60; "" ] in
  let recommendations :=
    generate_dialogue_recommendations order (hidden_agreements results) in
  let report := report ++ recommendation_lines 1 recommendations in
  let report :=
    report ++ [ ""; repeat_str "=" 60; "End of Report"; repeat_str "=" 60 ] in
  Ok (join (String (ascii_of_nat 10) "") report).

(** The two calls of the request handler, one after the other. *)
Definition run (narratives : list narrative) : result (results * string) :=
  results <- analyze_dialogue narratives ;;
  report <- generate_report results ;;
  Ok (results, report).

End Analyzer.

End SAMVADAnalyzer.

(* ===================================================================== *)
(** ** app_advanced.py: the analysis routes                              *)
(* ===================================================================== *)

Module App.

Import SAMVADAnalyzer.

(** What a route answers: the status 400 with an error text, the status
    500 with the text of the exception caught, or the status 200 with
    the report, the identifier the database gave, the two counts of the
    summary and, for the audio route, the transcript. *)
Inductive response : Type :=
| BadRequest (error : string)
| ServerError (e : exn)
| Success (report : string) (analysis_id : nat)
          (speakers hidden_agreements : nat) (transcript : option string).

(** The loop of [analyze_audio] that makes one narrative of each
    sentence, [i] being the index of [enumerate]. *)
Fixpoint sentence_narratives (i : nat) (sentences : list string) : list narrative :=
  match sentences with
  | [] => []
  | sentence :: sentences' =>
      [ ("speaker", fstr ["Speaker_"; str_nat (i + 1)]);
        ("text", sentence);
        ("position", slice sentence 0 80) ]
      :: sentence_narratives (S i) sentences'
  end.

(** The narratives that [analyze_audio] makes of a transcript. *)
Definition transcript_narratives (transcript : string) : list narrative :=
  let sentences :=
    map strip
      (filter (fun s => 50 <? String.length (strip s)) (split "."%char transcript)) in
  sentence_narratives 0 (firstn 5 sentences).

Section Routes.

(** The iteration order of sets in the running interpreter. *)
Variable order : set_order.

(** The database: its states, and [db.save_analysis], which answers
    with an identifier or raises and leaves the database in a new state. *)
Variable database : Type.
Variable save_analysis :
  database -> list narrative -> results -> string -> string -> result nat * database.

(** Analysis, report, storage and the answer, any exception being
    caught: the body of the route once the narratives are at hand. *)
Definition analyze_and_store
  (db : database) (narratives : list narrative) (source_type : string)
  (transcript : option string) : response * database :=
  match analyze_dialogue order narratives with
  | Raise e => (ServerError e, db)
  | Ok results =>
      match generate_report order results with
      | Raise e => (ServerError e, db)
      | Ok report =>
          match save_analysis db narratives results report source_type with
          | (Raise e, db') => (ServerError e, db')
          | (Ok analysis_id, db') =>
              (Success report analysis_id (List.length narratives)
                 (List.length (hidden_agreements results)) transcript, db')
          end
      end
  end.

(** The route [/analyze], from the narratives of the request on: the
    decoding of the request and [data.get('narratives', [])] are not
    embedded, and the narratives are a list of dictionaries of strings. *)
Definition analyze (db : database) (narratives : list narrative)
  : response * database :=
  if List.length narratives <? 2
  then (BadRequest "Need at least 2 speakers", db)
  else analyze_and_store db narratives "text" None.

End Routes.

End App.

(* ===================================================================== *)
(** ** Two iteration orders                                              *)
(* ===================================================================== *)

(** Two interpreters that differ in the hash salt can iterate the same
    set in two different orders.  [order_fwd] and [order_bwd] are two
    such orders, one the reverse of the other. *)
Definition order_fwd : set_order :=
  {| set_iter := nodup string_dec;
     set_iter_nodup := fun l => NoDup_nodup string_dec l;
     set_iter_in := fun l x => nodup_In string_dec l x |}.

Definition order_bwd : set_order :=
  {| set_iter := fun l => rev (nodup string_dec l);
     set_iter_nodup := fun l => NoDup_rev (NoDup_nodup string_dec l);
     set_iter_in := fun l x =>
       iff_trans (iff_sym (in_rev (nodup string_dec l) x)) (nodup_In string_dec l x) |}.

(* ===================================================================== *)
(** ** Notions used in the statements                                    *)
(* ===================================================================== *)

(** A pattern string is one that [re.compile] accepts. *)
Definition compiles (pattern : string) : bool :=
  match Re.compile pattern with
  | Ok _ => true
  | Raise _ => false
  end.

Definition table_compiles (wrap : string -> string) (table : dict (list string)) : bool :=
  forallb (fun entry : string * list string =>
             forallb (fun p => compiles (wrap p)) (snd entry)) table.


(** The place of a key in a list of keys (the length when absent). *)
Fixpoint index_of (k : string) (l : list string) : nat :=
  match l with
  | [] => 0
  | k' :: l' => if String.eqb k' k then 0 else S (index_of k l')
  end.

(** The place of a value tag in the declaration of the taxonomy. *)
Definition decl_index (v : string) : nat :=
  index_of v (dict_keys ValueExtractor.value_keywords).

(** The score of a value tag in a result of [extract_values]. *)
Definition score_of (r : ValueExtractor.value_result) (v : string) : nat :=
  get_default (ValueExtractor.scores r) v 0.

(** The order of [top_values]: the greater score first and, on equal
    scores, the tag declared first. *)
Definition ranks_before (r : ValueExtractor.value_result) (v w : string) : Prop :=
  score_of r w < score_of r v
  \/ (score_of r v = score_of r w /\ decl_index v < decl_index w).

(** The text of the scenario on studies and exercise. *)
Definition studies_text : string :=
  "Studies show exercise helps. Therefore we should act.".

(** A chain holds an evidence entry and, later in the list and further
    in the text, an inference entry whose matched text is [marker]. *)
Definition evidence_before_inference
  (chain : list TarkaEngine.element) (marker : string) : Prop :=
  exists (i j : nat) (e1 e2 : TarkaEngine.element),
    i < j
    /\ nth_error chain i = Some e1
    /\ nth_error chain j = Some e2
    /\ TarkaEngine.type e1 = "evidence"
    /\ TarkaEngine.type e2 = "inference"
    /\ TarkaEngine.text e2 = marker
    /\ TarkaEngine.position e1 < TarkaEngine.position e2.

(** The agreement that [detect_agreements] records for the pair of
    [person_a], whose analysis is [analysis_a], and [person_b], whose
    analysis is [analysis_b]. *)
Definition agreement_of (order : set_order)
  (person_a : string) (analysis_a : analysis)
  (person_b : string) (analysis_b : analysis) : HiddenAgreementDetector.agreement :=
  let shared_values :=
    HiddenAgreementDetector._find_shared_values order analysis_a analysis_b in
  let pramana_similarity :=
    HiddenAgreementDetector._compare_pramana analysis_a analysis_b in
  let reasoning_compatibility :=
    HiddenAgreementDetector._compare_reasoning analysis_a analysis_b in
  {| HiddenAgreementDetector.person_a := person_a;
     HiddenAgreementDetector.person_b := person_b;
     HiddenAgreementDetector.shared_values := shared_values;
     HiddenAgreementDetector.agreement_strength :=
       HiddenAgreementDetector._calculate_agreement_strength shared_values
         pramana_similarity reasoning_compatibility;
     HiddenAgreementDetector.pramana_similarity := pramana_similarity;
     HiddenAgreementDetector.reasoning_compatibility := reasoning_compatibility;
     HiddenAgreementDetector.dialogue_insight :=
       HiddenAgreementDetector._generate_insight person_a person_b shared_values
         analysis_a analysis_b pramana_similarity |}.

(** The same, for a pair of items of the dictionary of analyses. *)
Definition agreement_of_items (order : set_order)
  (pair : (string * analysis) * (string * analysis))
  : HiddenAgreementDetector.agreement :=
  agreement_of order (fst (fst pair)) (snd (fst pair)) (fst (snd pair)) (snd (snd pair)).

(** The least strength the weights allow: no shared value, the least
    similarity and the least compatibility. *)
Definition least_strength : float := (0.3 * 0.25 + 0.2 * 0.15)%float.

(** The number of agreements whose similarity of sources is above 0.6. *)
Definition high_pramana_count (agreements : list HiddenAgreementDetector.agreement) : nat :=
  List.length (filter HiddenAgreementDetector.high_pramana agreements).

(** A list of recommendations includes the one on sources of knowledge. *)
Definition includes_pramana_recommendation (recommendations : list string) : Prop :=
  exists pairs : nat,
    In (HiddenAgreementDetector.pramana_recommendation pairs) recommendations.

(** The profiles of two speakers who say one word each, "health" and
    "family", as [analyze_dialogue] stores them. *)
Definition no_pramana_scores : dict nat :=
  [("pratyaksha", 0); ("anumana", 0); ("sabda", 0); ("upamana", 0)].

Definition health_profile : analysis :=
  {| pramana := {| PramanaClassifier.dominant_pramana := "pratyaksha";
                   PramanaClassifier.scores := no_pramana_scores;
                   PramanaClassifier.confidence := 0%float |};
     values := {| ValueExtractor.top_values := ["health_and_wellbeing"];
                  ValueExtractor.scores :=
                    [ ("justice_and_fairness", 0); ("health_and_wellbeing", 1);
                      ("economic_security", 0); ("family_protection", 0);
                      ("community_wellbeing", 0); ("progress_and_innovation", 0);
                      ("freedom_and_autonomy", 0) ] |};
     reasoning := {| TarkaEngine.chain := [];
                     TarkaEngine.has_logical_structure := false |};
     text := "health" |}.

Definition family_profile : analysis :=
  {| pramana := {| PramanaClassifier.dominant_pramana := "pratyaksha";
                   PramanaClassifier.scores := no_pramana_scores;
                   PramanaClassifier.confidence := 0%float |};
     values := {| ValueExtractor.top_values := ["family_protection"];
                  ValueExtractor.scores :=
                    [ ("justice_and_fairness", 0); ("health_and_wellbeing", 0);
                      ("economic_security", 0); ("family_protection", 1);
                      ("community_wellbeing", 0); ("progress_and_innovation", 0);
                      ("freedom_and_autonomy", 0) ] |};
     reasoning := {| TarkaEngine.chain := [];
                     TarkaEngine.has_logical_structure := false |};
     text := "family" |}.

Definition health_narrative : SAMVADAnalyzer.narrative :=
  [("speaker", "Asha"); ("text", "health"); ("position", "health first")].

Definition family_narrative : SAMVADAnalyzer.narrative :=
  [("speaker", "Bala"); ("text", "family"); ("position", "family first")].

(** The one agreement of these two speakers. *)
Definition health_family_agreement : HiddenAgreementDetector.agreement :=
  agreement_of order_fwd "Asha" health_profile "Bala" family_profile.

(** The list [shared] of [_find_shared_values] before it is cut to five:
    the common values, then the related values as the loops meet them. *)
Definition pair_step (shared : list string) (p : string * string) : list string :=
  if HiddenAgreementDetector.related (fst p) (snd p)
  then HiddenAgreementDetector.append_new
         (HiddenAgreementDetector.append_new shared (fst p)) (snd p)
  else shared.

Definition shared_uncapped (order : set_order) (values_a values_b : list string)
  : list string :=
  fold_left pair_step
    (list_prod (set_iter order values_a) (set_iter order values_b))
    (set_iter order (set_and values_a values_b)).

(** The values that [_find_shared_values] gathers, whatever the order:
    the common ones and those of one speaker related to one of the other. *)
Definition gathered (values_a values_b : list string) (x : string) : Prop :=
  (In x values_a /\ In x values_b)
  \/ exists p : string * string,
       (In (fst p) values_a /\ In (snd p) values_b)
       /\ HiddenAgreementDetector.related (fst p) (snd p) = true
       /\ (x = fst p \/ x = snd p).

(** What two runs with different iteration orders agree on, for one
    agreement. *)
Definition stable_part (g : HiddenAgreementDetector.agreement)
  : string * string * float * float * float * nat :=
  (HiddenAgreementDetector.person_a g,
   HiddenAgreementDetector.person_b g,
   HiddenAgreementDetector.agreement_strength g,
   HiddenAgreementDetector.pramana_similarity g,
   HiddenAgreementDetector.reasoning_compatibility g,
   List.length (HiddenAgreementDetector.shared_values g)).

(** The comparison of the sort of [detect_agreements], on stable parts. *)
Definition stable_by_strength_desc
  (y x : string * string * float * float * float * nat) : bool :=
  match y, x with
  | (_, _, strength_y, _, _, _), (_, _, strength_x, _, _, _) =>
      (strength_x <? strength_y)%float
  end.

(** How the agreements that two runs record for one pair of speakers
    compare when the two runs iterate their sets in different orders:
    the same stable part, and the same shared values up to their order
    when fewer than five are listed. *)
Definition same_up_to_order (g1 g2 : HiddenAgreementDetector.agreement) : Prop :=
  stable_part g1 = stable_part g2
  /\ (List.length (HiddenAgreementDetector.shared_values g1) < 5 ->
      Permutation (HiddenAgreementDetector.shared_values g1)
        (HiddenAgreementDetector.shared_values g2)).

(** A dialogue of two speakers who both speak of health and family. *)
Definition two_values_dialogue : list SAMVADAnalyzer.narrative :=
  [ [("speaker", "Asha"); ("text", "health and family"); ("position", "health")];
    [("speaker", "Bala"); ("text", "family and health"); ("position", "family")] ].

(** The shared values of the first agreement of a run. *)
Definition first_shared_values
  (outcome : result (SAMVADAnalyzer.results * string)) : list string :=
  match outcome with
  | Ok (r, _) =>
      match SAMVADAnalyzer.hidden_agreements r with
      | g :: _ => HiddenAgreementDetector.shared_values g
      | [] => []
      end
  | Raise _ => []
  end.

(** The speaker of a narrative, and the number of distinct speakers of
    a sequence of narratives. *)
Definition speaker_of (n : SAMVADAnalyzer.narrative) : string :=
  get_default n "speaker" "".

Definition distinct_speakers (narratives : list SAMVADAnalyzer.narrative) : nat :=
  set_len (map speaker_of narratives).

(** A narrative with the keys that [analyze_dialogue] reads. *)
Definition well_formed (n : SAMVADAnalyzer.narrative) : Prop :=
  In "speaker" (dict_keys n) /\ In "text" (dict_keys n).



(** The dialogue of the self-test of [samvad_analyzer.py]. *)
Definition alice_bob_dialogue : list SAMVADAnalyzer.narrative :=
  [ [ ("speaker", "Alice");
      ("text", "Studies show healthcare improves lives. Therefore we need reform.");
      ("position", "Pro healthcare reform") ];
    [ ("speaker", "Bob");
      ("text", "I have seen how markets drive innovation. My family depends on jobs.");
      ("position", "Pro market solutions") ] ].

(** The report of that dialogue, line by line. *)
Definition alice_bob_report : list string :=
  [ repeat_str "=" 60;
    "SAMVAD DIALOGUE ANALYSIS REPORT";
    repeat_str "=" 60;
    "";
    "Total Speakers: 2";
    "Hidden Agreements Found: 1";
    "Dialogue Connections: 1";
    "";
    "INDIVIDUAL NARRATIVE ANALYSIS";
    repeat_str "-" 60;
    "";
    "Alice:";
    "  Position: Pro healthcare reform";
    "  Knowledge Source: anumana";
    "  Top Values: health_and_wellbeing, progress_and_innovation";
    "";
    "Bob:";
    "  Position: Pro market solutions";
    "  Knowledge Source: pratyaksha";
    "  Top Values: economic_security, family_protection, progress_and_innovation";
    "";
    "";
    "HIDDEN AGREEMENTS DETECTED";
    repeat_str "-" 60;
    "";
    "Agreement #1:";
    fstr ["  Between: Alice "; SAMVADAnalyzer.arrow; " Bob"];
    "  Shared Values: progress_and_innovation, health_and_wellbeing, family_protection";
    "  Agreement Strength: 81%";
    fstr [ "  Insight: Both people value progress and innovation, health and wellbeing, ";
           "and family protection, but reach different conclusions. ";
           "Alice relies on anumana while Bob uses pratyaksha. ";
           "Bridging this gap could help them find common ground despite different ";
           "reasoning approaches. A mediator could highlight their shared concern for ";
           "progress and innovation to build consensus on specific action steps." ];
    "";
    "";
    "DIALOGUE RECOMMENDATIONS";
    repeat_str "-" 60;
    "";
    fstr [ "1. Strong agreement detected between Alice and Bob. ";
           "Build on their shared values: progress_and_innovation, health_and_wellbeing." ];
    fstr [ "2. Multiple shared values detected across speakers: ";
           "progress_and_innovation, health_and_wellbeing, family_protection. ";
           "Frame discussion around these common concerns." ];
    "";
    repeat_str "=" 60;
    "End of Report";
    repeat_str "=" 60 ].

(** A match lies in a text at its start: the text is a prefix as long
    as the start, then the matched text, then a rest. *)
Definition occurs_at (full : list ascii) (start : nat) (group : string) : Prop :=
  exists pre post : list ascii,
    full = pre ++ list_ascii_of_string group ++ post
    /\ List.length pre = start.

(** The four kinds of reasoning elements. *)
Definition element_types : list string :=
  dict_keys TarkaEngine.reasoning_patterns.

(** The three sources of knowledge that [_compare_pramana] holds
    compatible with one another. *)
Definition compatible_sources : list string := ["pratyaksha"; "anumana"; "sabda"].

(** The strengths that [_calculate_agreement_strength] can give to a
    pair of [detect_agreements]: zero to five shared values, a
    similarity among 0.3, 0.6, 0.9 and a compatibility among 0.2, 0.4,
    0.7. *)
Definition possible_strengths : list float :=
  flat_map
    (fun n =>
       flat_map
         (fun p =>
            map (fun r =>
                   HiddenAgreementDetector._calculate_agreement_strength
                     (repeat "" n) p r)
              [0.2%float; 0.4%float; 0.7%float])
         [0.3%float; 0.6%float; 0.9%float])
    [0; 1; 2; 3; 4; 5].

(** The two names of an agreement. *)
Definition names_of (g : HiddenAgreementDetector.agreement) : string * string :=
  (HiddenAgreementDetector.person_a g, HiddenAgreementDetector.person_b g).

(** No agreement is followed by a stronger one. *)
Definition not_weaker (g h : HiddenAgreementDetector.agreement) : Prop :=
  (HiddenAgreementDetector.agreement_strength h
   <=? HiddenAgreementDetector.agreement_strength g)%float = true.

(** The distinct elements of a list in the order of their first
    occurrence: the order of the keys of a dictionary filled from it. *)
Fixpoint first_seen (l : list string) : list string :=
  match l with
  | [] => []
  | x :: l' => x :: filter (fun y => negb (String.eqb x y)) (first_seen l')
  end.

(** The first and the last narrative of a speaker in a dialogue. *)
Fixpoint first_of (narratives : list SAMVADAnalyzer.narrative) (speaker : string)
  : option SAMVADAnalyzer.narrative :=
  match narratives with
  | [] => None
  | n :: narratives' =>
      if String.eqb (speaker_of n) speaker then Some n
      else first_of narratives' speaker
  end.

Fixpoint last_of (narratives : list SAMVADAnalyzer.narrative) (speaker : string)
  : option SAMVADAnalyzer.narrative :=
  match narratives with
  | [] => None
  | n :: narratives' =>
      match last_of narratives' speaker with
      | Some m => Some m
      | None => if String.eqb (speaker_of n) speaker then Some n else None
      end
  end.

(** A stored analysis is derived from the text it stores. *)
Definition derived_from_text (a : analysis) : Prop :=
  PramanaClassifier.classify_pramana (text a) = Ok (pramana a)
  /\ ValueExtractor.extract_values (text a) = Ok (values a)
  /\ TarkaEngine.analyze_reasoning (text a) = Ok (reasoning a).

(** A narrative with the three keys that the analyzer reads. *)
Definition complete (n : SAMVADAnalyzer.narrative) : Prop :=
  well_formed n /\ In "position" (dict_keys n).

(** A dialogue in which one speaker speaks twice. *)
Definition repeated_speaker_dialogue : list SAMVADAnalyzer.narrative :=
  [ [("speaker", "Asha"); ("text", "health"); ("position", "first")];
    [("speaker", "Bala"); ("text", "family"); ("position", "second")];
    [("speaker", "Asha"); ("text", "freedom"); ("position", "third")] ].

(** A dialogue whose second narrative has no position. *)
Definition no_position_dialogue : list SAMVADAnalyzer.narrative :=
  [ [("speaker", "Asha"); ("text", "health"); ("position", "first")];
    [("speaker", "Bala"); ("text", "family")] ].

(** What the loop of [analyze_dialogue] keeps true of its dictionary
    once it has read the narratives [processed]: the keys are the
    speakers in the order of their first narrative, and each speaker's
    entry is derived from the text of that speaker's last narrative. *)
Definition entry_of_last
  (processed : list SAMVADAnalyzer.narrative) (d : dict analysis) (speaker : string)
  : Prop :=
  match dict_get d speaker with
  | Some a =>
      exists n, last_of processed speaker = Some n
                /\ dict_get n "text" = Some (text a)
                /\ derived_from_text a
  | None => last_of processed speaker = None
  end.

Definition analyses_of
  (processed : list SAMVADAnalyzer.narrative) (d : dict analysis) : Prop :=
  dict_keys d = first_seen (map speaker_of processed)
  /\ forall speaker, entry_of_last processed d speaker.

(** The speakers that [analyze_audio] names. *)
Definition transcript_speakers : list string :=
  ["Speaker_1"; "Speaker_2"; "Speaker_3"; "Speaker_4"; "Speaker_5"].

(** A sentence that [analyze_audio] keeps: more than 50 characters,
    no full stop, no white space at either end. *)
Definition kept_sentence (sentence : string) : Prop :=
  50 < String.length sentence
  /\ ~ In "."%char (list_ascii_of_string sentence)
  /\ strip sentence = sentence.

(** A narrative made of a sentence. *)
Definition made_of_sentence (n : SAMVADAnalyzer.narrative) : Prop :=
  exists sentence,
    n = [ ("speaker", speaker_of n); ("text", sentence);
          ("position", slice sentence 0 80) ]
    /\ kept_sentence sentence.

(** A database for the examples: the number of analyses stored, the
    identifier of an analysis being its rank. *)
Definition counting_save (db : nat) (narratives : list SAMVADAnalyzer.narrative)
  (r : SAMVADAnalyzer.results) (report source_type : string) : result nat * nat :=
  (Ok (S db), S db).

(* ===================================================================== *)
(** * Properties                                                         *)
(* ===================================================================== *)

(** ** Concrete runs *)

Example findall_studies_show :
  Re.findall "\bstudies show\b" "studies show exercise helps." true
  = Ok [ {| Re.m_start := 0; Re.m_group := "studies show" |} ].
Proof. vm_compute. reflexivity. Qed.

Example findall_is_greedy :
  Re.findall "\bif .+ then\b" "if a then b then c" true
  = Ok [ {| Re.m_start := 0; Re.m_group := "if a then b then" |} ].
Proof. vm_compute. reflexivity. Qed.

Example findall_whole_words :
  Re.findall "\b(because|since|given that|as)\b" "as fast as a task" true
  = Ok [ {| Re.m_start := 0; Re.m_group := "as" |};
         {| Re.m_start := 8; Re.m_group := "as" |} ].
Proof. vm_compute. reflexivity. Qed.

Example findall_keyword_prefix :
  Re.findall (ValueExtractor.keyword_pattern "fair") "fairness unfair fair fairly" false
  = Ok [ {| Re.m_start := 0; Re.m_group := "fairness" |};
         {| Re.m_start := 16; Re.m_group := "fair" |};
         {| Re.m_start := 21; Re.m_group := "fairly" |} ].
Proof. vm_compute. reflexivity. Qed.

Example compile_rejects_open_group : Re.compile "(a|b" = Raise (ReError "(a|b").
Proof. reflexivity. Qed.

Example sorted_by_is_stable :
  sorted_by ValueExtractor.by_score_desc [("a", 1); ("b", 2); ("c", 1); ("d", 2)]
  = [("b", 2); ("d", 2); ("a", 1); ("c", 1)].
Proof. reflexivity. Qed.

Example max_key_first_of_ties : max_key [("a", 0); ("b", 1); ("c", 1)] = Ok "b".
Proof. reflexivity. Qed.

Example percent_rounds_to_even :
  map format_percent0 [0.655%float; 0.105%float; 0.925%float; 0.015%float; 0.025%float]
  = ["66%"; "10%"; "92%"; "2%"; "2%"].
Proof. vm_compute. reflexivity. Qed.

Example alice_bob_run :
  exists r : SAMVADAnalyzer.results,
    SAMVADAnalyzer.run order_fwd alice_bob_dialogue
    = Ok (r, join (String (ascii_of_nat 10) "") alice_bob_report)
    /\ map stable_part (SAMVADAnalyzer.hidden_agreements r)
       = [("Alice", "Bob", 0.81%float, 0.6%float, 0.4%float, 3)].
Proof. eexists. split; vm_compute; reflexivity. Qed.

(** ** Loops that can raise *)

Section ForEach.

Context {A B : Type}.

(** A loop whose body keeps an invariant and does not raise under it
    runs to its end and keeps the invariant. *)
Lemma for_each_invariant (P : A -> Prop) (f : A -> B -> result A) (l : list B) :
  (forall acc x, In x l -> P acc -> exists acc', f acc x = Ok acc' /\ P acc') ->
  forall acc, P acc -> exists acc', for_each f l acc = Ok acc' /\ P acc'.
Proof.
  induction l as [|x l IH]; intros Hstep acc Hacc; simpl.
  - exists acc. split; [reflexivity | assumption].
  - destruct (Hstep acc x (or_introl eq_refl) Hacc) as [acc1 [E1 P1]].
    rewrite E1. simpl.
    apply IH; [|assumption].
    intros acc2 y Hy. apply Hstep. right. assumption.
Qed.

(** A loop whose body appends one element per round. *)
Lemma for_each_collect {C : Type} (f : list A -> B -> result (list A))
  (h : C -> B) (g : C -> A) (l : list C) :
  Forall (fun y => forall acc, f acc (h y) = Ok (acc ++ [g y])) l ->
  forall acc, for_each f (map h l) acc = Ok (acc ++ map g l).
Proof.
  induction 1 as [|y l Hy _ IH]; intros acc; simpl.
  - rewrite app_nil_r. reflexivity.
  - rewrite Hy. simpl. rewrite IH, <- app_assoc. reflexivity.
Qed.

End ForEach.

(** ** Dictionaries *)

Section DictFacts.

Context {V : Type}.

Lemma dict_get_in_keys (d : dict V) (k : string) :
  In k (dict_keys d) -> exists v, dict_get d k = Some v.
Proof.
  induction d as [|[k' v'] d IH]; simpl; [tauto|].
  intros [E | Hin].
  - subst k'. rewrite String.eqb_refl. eauto.
  - destruct (String.eqb k' k); eauto.
Qed.

Lemma dict_get_some_in (d : dict V) (k : string) (v : V) :
  dict_get d k = Some v -> In (k, v) d.
Proof.
  induction d as [|[k' v'] d IH]; simpl; [discriminate|].
  destruct (String.eqb_spec k' k) as [E | N].
  - intros H. injection H as ->. subst. left. reflexivity.
  - intros H. right. apply IH, H.
Qed.

Lemma dict_get_unique (d : dict V) (k : string) (v : V) :
  NoDup (dict_keys d) -> In (k, v) d -> dict_get d k = Some v.
Proof.
  induction d as [|[k' v'] d IH]; simpl; [tauto|].
  intros Hnd Hin. inversion Hnd as [|? ? Hk' Hnd']; subst.
  destruct Hin as [E | Hin].
  - injection E as -> ->. rewrite String.eqb_refl. reflexivity.
  - destruct (String.eqb_spec k' k) as [E | N].
    + subst k'. exfalso. apply Hk'.
      change (In (fst (k, v)) (map fst d)). apply in_map, Hin.
    + apply IH; assumption.
Qed.

Lemma setitem_keys_present (d : dict V) (k : string) (v : V) :
  In k (dict_keys d) -> dict_keys (setitem d k v) = dict_keys d.
Proof.
  induction d as [|[k' v'] d IH]; simpl; [tauto|].
  intros Hin. destruct (String.eqb_spec k' k) as [E | N]; simpl.
  - reflexivity.
  - f_equal. apply IH. destruct Hin; [contradiction | assumption].
Qed.

Lemma setitem_keys_absent (d : dict V) (k : string) (v : V) :
  ~ In k (dict_keys d) -> dict_keys (setitem d k v) = dict_keys d ++ [k].
Proof.
  induction d as [|[k' v'] d IH]; simpl; [reflexivity|].
  intros Hin. destruct (String.eqb_spec k' k) as [E | N]; simpl.
  - exfalso. apply Hin. left. assumption.
  - f_equal. apply IH. intros H. apply Hin. right. assumption.
Qed.

(** Every key of a dictionary resolves: the items, each with the value
    that [d[k]] gives. *)
Lemma dict_resolved (d : dict V) :
  exists items : list (string * V),
    map fst items = dict_keys d
    /\ Forall (fun kv => dict_get d (fst kv) = Some (snd kv)) items.
Proof.
  assert (H : forall ks, incl ks (dict_keys d) ->
            exists items : list (string * V),
              map fst items = ks
              /\ Forall (fun kv => dict_get d (fst kv) = Some (snd kv)) items).
  { induction ks as [|k ks IH]; intros Hincl.
    - exists []. split; [reflexivity | constructor].
    - destruct IH as [items [E F]].
      { intros x Hx. apply Hincl. right. assumption. }
      destruct (dict_get_in_keys d k) as [v Hv].
      { apply Hincl. left. reflexivity. }
      exists ((k, v) :: items). split.
      + simpl. f_equal. assumption.
      + constructor; assumption. }
  apply H, incl_refl.
Qed.

End DictFacts.

Lemma add_score_keys (d : dict nat) (k : string) (n : nat) :
  In k (dict_keys d) ->
  exists d', add_score d k n = Ok d' /\ dict_keys d' = dict_keys d.
Proof.
  intros Hin. unfold add_score.
  destruct (dict_get_in_keys d k Hin) as [old ->].
  eexists. split; [reflexivity|]. apply setitem_keys_present, Hin.
Qed.

(** ** The pattern tables compile *)

Lemma findall_total (pattern text : string) (ic : bool) :
  compiles pattern = true -> exists ms, Re.findall pattern text ic = Ok ms.
Proof.
  unfold compiles, Re.findall, Re.finditer.
  destruct (Re.compile pattern); [|discriminate].
  intros _. simpl. eauto.
Qed.

Lemma table_compiles_in (wrap : string -> string) (table : dict (list string))
  (key : string) (patterns : list string) (p : string) :
  table_compiles wrap table = true ->
  In (key, patterns) table -> In p patterns -> compiles (wrap p) = true.
Proof.
  unfold table_compiles. rewrite forallb_forall. intros Hc Hentry Hp.
  specialize (Hc _ Hentry). simpl in Hc. rewrite forallb_forall in Hc.
  apply Hc, Hp.
Qed.

Lemma pramana_patterns_compile :
  table_compiles (fun p => p) PramanaClassifier.pramana_patterns = true.
Proof. vm_compute. reflexivity. Qed.

Lemma value_keywords_compile :
  table_compiles ValueExtractor.keyword_pattern ValueExtractor.value_keywords = true.
Proof. vm_compute. reflexivity. Qed.

Lemma reasoning_patterns_compile :
  table_compiles (fun p => p) TarkaEngine.reasoning_patterns = true.
Proof. vm_compute. reflexivity. Qed.

(** A counting loop over a table whose patterns compile runs to its end
    and leaves the keys of the scores as they were. *)
Lemma counting_loop_total (wrap : string -> string) (table : dict (list string))
  (text : string) (ic : bool) (scores : dict nat) :
  table_compiles wrap table = true ->
  incl (dict_keys table) (dict_keys scores) ->
  exists scores',
    for_each
      (fun scores (entry : string * list string) =>
         let (key, patterns) := entry in
         for_each
           (fun scores pattern =>
              matches <- Re.findall (wrap pattern) text ic ;;
              add_score scores key (List.length matches))
           patterns scores)
      table scores = Ok scores'
    /\ dict_keys scores' = dict_keys scores.
Proof.
  intros Hc Hk.
  apply (for_each_invariant (fun s => dict_keys s = dict_keys scores));
    [|reflexivity].
  intros acc [key patterns] Hentry Hacc.
  apply (for_each_invariant (fun s => dict_keys s = dict_keys scores));
    [|assumption].
  intros acc' p Hp Hacc'.
  destruct (findall_total (wrap p) text ic
              (table_compiles_in wrap table key patterns p Hc Hentry Hp))
    as [ms ->]. simpl.
  destruct (add_score_keys acc' key (List.length ms)) as [d' [E K]].
  { rewrite Hacc'. apply Hk.
    change (In (fst (key, patterns)) (map fst table)). apply in_map, Hentry. }
  exists d'. split; [assumption | congruence].
Qed.

(** ** max and sum over a dictionary of counts *)

Lemma max_from_in (d : dict nat) (best : string) (best_v : nat) :
  In (max_from best best_v d) (best :: dict_keys d).
Proof.
  revert best best_v.
  induction d as [|[k v] d IH]; intros best best_v; simpl.
  - left. reflexivity.
  - destruct (best_v <? v).
    + right. apply IH.
    + destruct (IH best best_v) as [E | Hin]; [left | right; right]; assumption.
Qed.

Lemma sum_values_zero (d : dict nat) :
  sum_values d = 0 -> forall k v, In (k, v) d -> v = 0.
Proof.
  unfold sum_values, dict_values.
  induction d as [|[k' v'] d IH]; simpl; [tauto|].
  intros Hsum k v [E | Hin].
  - injection E as _ <-. lia.
  - apply (IH ltac:(lia) k v Hin).
Qed.

Lemma all_zero_sum (d : dict nat) :
  Forall (fun c => c = 0) (dict_values d) -> sum_values d = 0.
Proof.
  unfold sum_values. induction 1 as [|c cs Hc _ IH]; simpl; [reflexivity | lia].
Qed.

(** ** classify_pramana *)

Import PramanaClassifier.

(** What [classify_pramana] computes: it never raises, the categories of
    the scores are those of the table, and the dominant category and the
    confidence are read off the scores. *)
Lemma classify_pramana_outcome (text : string) :
  exists (r : pramana_result) (s : nat),
    classify_pramana text = Ok r
    /\ dict_keys (scores r) = dict_keys pramana_patterns
    /\ dominant_pramana r =
         (if sum_values (scores r) =? 0 then "pratyaksha"
          else match scores r with
               | [] => "pratyaksha"
               | (k, v) :: d' => max_from k v d'
               end)
    /\ dict_get (scores r) (dominant_pramana r) = Some s
    /\ truediv s (Nat.max (sum_values (scores r)) 1) = Ok (confidence r).
Proof.
  unfold classify_pramana, count_matches.
  destruct (counting_loop_total (fun p => p) pramana_patterns (lower text) true
              (map (fun entry : string * list string => (fst entry, 0)) pramana_patterns)
              pramana_patterns_compile) as [sc [E K]].
  { unfold dict_keys. rewrite map_map. simpl. apply incl_refl. }
  cbv beta in E. rewrite E. clear E. simpl bind.
  assert (K' : dict_keys sc = dict_keys pramana_patterns).
  { rewrite K. unfold dict_keys. rewrite map_map. reflexivity. }
  clear K.
  assert (Hdom : exists dom,
             (if sum_values sc =? 0 then Ok "pratyaksha" else max_key sc) = Ok dom
             /\ In dom (dict_keys sc)
             /\ dom = (if sum_values sc =? 0 then "pratyaksha"
                       else match sc with
                            | [] => "pratyaksha"
                            | (k, v) :: d' => max_from k v d'
                            end)).
  { destruct (sum_values sc =? 0).
    - exists "pratyaksha". split; [reflexivity|]. split; [|reflexivity].
      rewrite K'. simpl. left. reflexivity.
    - destruct sc as [|[k v] d']; [discriminate K'|].
      exists (max_from k v d'). split; [reflexivity|]. split; [|reflexivity].
      apply (max_from_in d' k v). }
  destruct Hdom as [dom [Edom [Hin Hval]]].
  rewrite Edom. simpl bind.
  destruct (dict_get_in_keys sc dom Hin) as [s Hs].
  unfold getitem. rewrite Hs. simpl bind.
  unfold truediv.
  destruct (Nat.eqb_spec (Nat.max (sum_values sc) 1) 0) as [Z | NZ]; [lia|].
  simpl bind.
  eexists. exists s. split; [reflexivity|]. simpl.
  repeat split; try assumption.
  destruct (Nat.eqb_spec (Nat.max (sum_values sc) 1) 0); [lia | reflexivity].
Qed.

(** C7. For every text, [classify_pramana] returns a profile whose
    confidence is [scores[dominant] / max(sum(scores.values()), 1)]; when
    all the category counts are zero (equivalently, when their sum is
    zero) the dominant source is the default [pratyaksha] and the
    confidence is 0. *)
Theorem C7_confidence_and_default (text : string) :
  exists (r : pramana_result) (s : nat),
    classify_pramana text = Ok r
    /\ dict_get (scores r) (dominant_pramana r) = Some s
    /\ truediv s (Nat.max (sum_values (scores r)) 1) = Ok (confidence r)
    /\ (Forall (fun c => c = 0) (dict_values (scores r)) <-> sum_values (scores r) = 0)
    /\ (sum_values (scores r) = 0 ->
        dominant_pramana r = "pratyaksha" /\ confidence r = 0%float).
Proof.
  destruct (classify_pramana_outcome text) as [r [s [E [K [D [G T]]]]]].
  exists r, s. repeat split; try assumption.
  - apply all_zero_sum.
  - intros Hsum. unfold dict_values. apply Forall_forall. intros c Hc.
    apply in_map_iff in Hc. destruct Hc as [[k v] [<- Hin]].
    apply (sum_values_zero _ Hsum k v Hin).
  - rewrite D, H. reflexivity.
  - assert (Hs : s = 0).
    { apply (sum_values_zero _ H (dominant_pramana r) s).
      apply dict_get_some_in. assumption. }
    subst s. rewrite H in T.
    assert (E0 : truediv 0 (Nat.max 0 1) = Ok 0%float) by (vm_compute; reflexivity).
    rewrite E0 in T. injection T as <-. reflexivity.
Qed.

(** ** Lists *)

Lemma Forall_perm {A : Type} (P : A -> Prop) (l l' : list A) :
  Permutation l l' -> Forall P l -> Forall P l'.
Proof.
  intros Hp Hl. rewrite Forall_forall in *. intros x Hx.
  apply Hl. apply (Permutation_in x (Permutation_sym Hp) Hx).
Qed.

Lemma firstn_incl {A : Type} (n : nat) (l : list A) : incl (firstn n l) l.
Proof.
  revert n. induction l as [|x l IH]; intros [|n]; simpl; intros y Hy;
    try contradiction.
  destruct Hy as [E | Hy]; [left; assumption | right; apply (IH n y Hy)].
Qed.

(** ** The stable sort *)

Section SortedBy.

Context {A : Type} (before : A -> A -> bool).

Lemma insert_by_perm (x : A) (l : list A) :
  Permutation (insert_by before x l) (x :: l).
Proof.
  induction l as [|y l IH]; simpl; [reflexivity|].
  destruct (before y x).
  - rewrite IH. apply perm_swap.
  - reflexivity.
Qed.

Lemma sorted_by_perm (l : list A) : Permutation (sorted_by before l) l.
Proof.
  induction l as [|x l IH]; simpl; [reflexivity|].
  rewrite insert_by_perm. constructor. assumption.
Qed.

Lemma sorted_by_length (l : list A) :
  List.length (sorted_by before l) = List.length l.
Proof. apply Permutation_length, sorted_by_perm. Qed.

(** [R] is the order of the output and [Q] the order of the input: an
    element that does not go strictly after another stays before it when
    it stood before it. *)
Variables R Q : A -> A -> Prop.
Hypothesis before_R : forall x y, before y x = true -> R y x.
Hypothesis tie_R : forall x y, before y x = false -> Q x y -> R x y.
Hypothesis carry_R : forall x y z, before y x = false -> R y z -> Q x z -> R x z.

Lemma insert_by_sorted (x : A) (l : list A) :
  StronglySorted R l -> Forall (Q x) l -> StronglySorted R (insert_by before x l).
Proof.
  induction l as [|y l IH]; intros Hs Hq; simpl.
  - constructor; constructor.
  - inversion Hs as [|? ? Hs' Hy]; subst.
    inversion Hq as [|? ? Hxy Hq']; subst.
    destruct (before y x) eqn:E.
    + constructor; [apply IH; assumption|].
      apply (Forall_perm _ (x :: l)).
      * symmetry. apply insert_by_perm.
      * constructor; [apply before_R; assumption | assumption].
    + constructor; [assumption|].
      constructor; [apply tie_R; assumption|].
      rewrite Forall_forall in *. intros z Hz.
      apply (carry_R x y z E); auto.
Qed.

Lemma sorted_by_sorted (l : list A) :
  StronglySorted Q l -> StronglySorted R (sorted_by before l).
Proof.
  induction l as [|x l IH]; intros Hs; simpl; [constructor|].
  inversion Hs as [|? ? Hs' Hx]; subst.
  apply insert_by_sorted; [apply IH; assumption|].
  apply (Forall_perm _ l); [|assumption].
  symmetry. apply sorted_by_perm.
Qed.

End SortedBy.

(** Sorting commutes with a projection that the comparison factors through. *)
Lemma sorted_by_map {A B : Type} (f : A -> B)
  (before : A -> A -> bool) (before' : B -> B -> bool) (l : list A) :
  (forall x y, before x y = before' (f x) (f y)) ->
  map f (sorted_by before l) = sorted_by before' (map f l).
Proof.
  intros Hf.
  assert (Hins : forall x s,
             map f (insert_by before x s) = insert_by before' (f x) (map f s)).
  { intros x s. induction s as [|y s IH]; simpl; [reflexivity|].
    rewrite <- Hf. destruct (before y x); simpl; [rewrite IH|]; reflexivity. }
  induction l as [|x l IH]; simpl; [reflexivity|].
  rewrite Hins, IH. reflexivity.
Qed.

Section StronglySortedFacts.

Context {A : Type} (R : A -> A -> Prop).

Lemma StronglySorted_any (l : list A) :
  (forall a b, R a b) -> StronglySorted R l.
Proof.
  intros H. induction l; constructor; [assumption|].
  apply Forall_forall. intros. apply H.
Qed.

Lemma StronglySorted_filter (p : A -> bool) (l : list A) :
  StronglySorted R l -> StronglySorted R (filter p l).
Proof.
  induction 1 as [|x l Hs IH Hx]; simpl; [constructor|].
  destruct (p x); [|assumption].
  constructor; [assumption|].
  rewrite Forall_forall in *. intros y Hy.
  apply Hx. apply filter_In in Hy. tauto.
Qed.

Lemma StronglySorted_firstn (n : nat) (l : list A) :
  StronglySorted R l -> StronglySorted R (firstn n l).
Proof.
  intros Hs. revert n.
  induction Hs as [|x l Hs IH Hx]; intros [|n]; simpl; try constructor.
  - apply IH.
  - rewrite Forall_forall in *. intros y Hy.
    apply Hx. apply (firstn_incl n l y Hy).
Qed.

Lemma StronglySorted_map_in {B : Type} (f : A -> B) (R' : B -> B -> Prop) (l : list A) :
  (forall a b, In a l -> In b l -> R a b -> R' (f a) (f b)) ->
  StronglySorted R l -> StronglySorted R' (map f l).
Proof.
  intros Hf Hs. induction Hs as [|x l Hs IH Hx]; simpl; [constructor|].
  constructor.
  - apply IH. intros a b Ha Hb. apply Hf; right; assumption.
  - rewrite Forall_forall in *. intros y Hy.
    apply in_map_iff in Hy. destruct Hy as [a [<- Ha]].
    apply Hf; [left; reflexivity | right; assumption | apply Hx; assumption].
Qed.

End StronglySortedFacts.

(** ** analyze_reasoning *)

Lemma finditer_total (pattern text : string) (ic : bool) :
  compiles pattern = true -> exists ms, Re.finditer pattern text ic = Ok ms.
Proof. apply findall_total. Qed.

Lemma find_elements_total (text_lower : string) :
  exists chain, TarkaEngine.find_elements text_lower = Ok chain.
Proof.
  unfold TarkaEngine.find_elements.
  destruct (for_each_invariant (fun _ : list TarkaEngine.element => True)
              (fun chain (entry : string * list string) =>
                 let (element_type, patterns) := entry in
                 for_each
                   (fun chain pattern =>
                      matches <- Re.finditer pattern text_lower true ;;
                      Ok (chain ++
                          map (fun m => {| TarkaEngine.type := element_type;
                                           TarkaEngine.position := Re.m_start m;
                                           TarkaEngine.text := Re.m_group m |})
                            matches))
                   patterns chain)
              TarkaEngine.reasoning_patterns) with (acc := @nil TarkaEngine.element)
    as [chain [E _]]; [|exact I|eauto].
  intros acc [element_type patterns] Hentry _.
  apply (for_each_invariant (fun _ => True)); [|exact I].
  intros acc' p Hp _.
  destruct (finditer_total p text_lower true
              (table_compiles_in (fun p => p) _ element_type patterns p
                 reasoning_patterns_compile Hentry Hp))
    as [ms ->].
  simpl. eauto.
Qed.

(** C8. For every text, the chain that [analyze_reasoning] returns has
    non-decreasing positions, between consecutive entries and between
    any earlier and later entry, and [has_logical_structure] is true
    exactly when the chain is not empty. *)
Theorem C8_chain_sorted_by_position (text : string) :
  exists r : TarkaEngine.reasoning_result,
    TarkaEngine.analyze_reasoning text = Ok r
    /\ Sorted (fun a b => TarkaEngine.position a <= TarkaEngine.position b)
         (TarkaEngine.chain r)
    /\ StronglySorted (fun a b => TarkaEngine.position a <= TarkaEngine.position b)
         (TarkaEngine.chain r)
    /\ (TarkaEngine.has_logical_structure r = true <-> TarkaEngine.chain r <> []).
Proof.
  unfold TarkaEngine.analyze_reasoning.
  destruct (find_elements_total (lower text)) as [chain ->]. simpl bind.
  eexists. split; [reflexivity|]. simpl.
  assert (Hs : StronglySorted
                 (fun a b => TarkaEngine.position a <= TarkaEngine.position b)
                 (sorted_by TarkaEngine.by_position chain)).
  { apply (sorted_by_sorted TarkaEngine.by_position _ (fun _ _ => True)).
    - intros x y H. unfold TarkaEngine.by_position in H.
      apply Nat.ltb_lt in H. lia.
    - intros x y H _. unfold TarkaEngine.by_position in H.
      apply Nat.ltb_ge in H. assumption.
    - intros x y z H Hyz _. unfold TarkaEngine.by_position in H.
      apply Nat.ltb_ge in H. lia.
    - apply StronglySorted_any. intros. exact I. }
  split; [apply StronglySorted_Sorted; assumption|].
  split; [assumption|].
  destruct (sorted_by TarkaEngine.by_position chain); simpl.
  - split; [discriminate | intros H; contradiction H; reflexivity].
  - split; [discriminate | reflexivity].
Qed.

(** ** extract_values *)

(** What [extract_values] computes: it never raises, the tags of the
    scores are those of the taxonomy, in its order, and [top_values] is
    read off the sorted scores. *)
Lemma extract_values_outcome (text : string) :
  exists sc : dict nat,
    dict_keys sc = dict_keys ValueExtractor.value_keywords
    /\ ValueExtractor.extract_values text =
       Ok {| ValueExtractor.top_values :=
               firstn 5
                 (map fst
                    (filter (fun vs : string * nat => 0 <? snd vs)
                       (sorted_by ValueExtractor.by_score_desc sc)));
             ValueExtractor.scores := sc |}.
Proof.
  unfold ValueExtractor.extract_values, ValueExtractor.count_keywords.
  destruct (counting_loop_total ValueExtractor.keyword_pattern
              ValueExtractor.value_keywords (lower text) false
              (map (fun entry : string * list string => (fst entry, 0))
                 ValueExtractor.value_keywords)
              value_keywords_compile) as [sc [E K]].
  { unfold dict_keys. rewrite map_map. simpl. apply incl_refl. }
  rewrite E. simpl bind. exists sc. split; [|reflexivity].
  rewrite K. unfold dict_keys. rewrite map_map. reflexivity.
Qed.

(** The scores, as [extract_values] holds them, list the tags in the
    order of the declaration. *)
Lemma scores_in_declaration_order (sc : dict nat) :
  dict_keys sc = dict_keys ValueExtractor.value_keywords ->
  NoDup (dict_keys sc)
  /\ StronglySorted (fun a b => decl_index (fst a) < decl_index (fst b)) sc.
Proof.
  intros K. split.
  - rewrite K. vm_compute.
    repeat (constructor; [simpl; intuition discriminate|]). constructor.
  - do 7 (destruct sc as [|[? ?] sc]; [discriminate K|]).
    destruct sc; [|discriminate K].
    injection K as -> -> -> -> -> -> ->.
    repeat (constructor; [|repeat (constructor; [vm_compute; lia|]); constructor]).
    constructor.
Qed.

(** C6. For every text, [extract_values] returns at most five
    [top_values]; each of them has a strictly positive score; they are
    listed by descending score, and of two tags with the same score the
    one declared first in the taxonomy comes first. *)
Theorem C6_top_values_ranked (text : string) :
  exists r : ValueExtractor.value_result,
    ValueExtractor.extract_values text = Ok r
    /\ List.length (ValueExtractor.top_values r) <= 5
    /\ Forall (fun v => 0 < score_of r v) (ValueExtractor.top_values r)
    /\ StronglySorted (ranks_before r) (ValueExtractor.top_values r).
Proof.
  destruct (extract_values_outcome text) as [sc [K E]].
  eexists. split; [exact E|]. cbn [ValueExtractor.top_values].
  destruct (scores_in_declaration_order sc K) as [Hnd Hdecl].
  set (sorted := sorted_by ValueExtractor.by_score_desc sc).
  assert (Hin : forall kv, In kv sorted -> dict_get sc (fst kv) = Some (snd kv)).
  { intros [k v] Hkv. apply dict_get_unique; [assumption|].
    apply (Permutation_in _ (sorted_by_perm _ sc) Hkv). }
  assert (Hscore : forall kv,
             In kv sorted ->
             score_of {| ValueExtractor.top_values :=
                           firstn 5
                             (map fst
                                (filter (fun vs : string * nat => 0 <? snd vs) sorted));
                         ValueExtractor.scores := sc |} (fst kv) = snd kv).
  { intros kv Hkv. unfold score_of, get_default. cbn [ValueExtractor.scores].
    rewrite (Hin kv Hkv). reflexivity. }
  split; [apply firstn_le_length|]. split.
  - apply Forall_forall. intros v Hv.
    apply firstn_incl in Hv. apply in_map_iff in Hv.
    destruct Hv as [kv [<- Hkv]]. apply filter_In in Hkv.
    destruct Hkv as [Hkv Hpos]. rewrite (Hscore kv Hkv).
    apply Nat.ltb_lt. assumption.
  - apply StronglySorted_firstn.
    apply (StronglySorted_map_in
             (fun a b => snd b < snd a
                         \/ (snd a = snd b /\ decl_index (fst a) < decl_index (fst b)))).
    + intros a b Ha Hb Hab. apply filter_In in Ha, Hb.
      unfold ranks_before.
      rewrite (Hscore a (proj1 Ha)), (Hscore b (proj1 Hb)). assumption.
    + apply StronglySorted_filter.
      apply (sorted_by_sorted ValueExtractor.by_score_desc _
               (fun a b => decl_index (fst a) < decl_index (fst b)));
        [| | |assumption]; unfold ValueExtractor.by_score_desc.
      * intros x y H. apply Nat.ltb_lt in H. left. assumption.
      * intros x y H Hq. apply Nat.ltb_ge in H.
        destruct (Nat.eq_dec (snd x) (snd y)); [right; tauto | left; lia].
      * intros x y z H Hyz Hq. apply Nat.ltb_ge in H.
        destruct Hyz as [Hlt | [Heq _]].
        -- left. lia.
        -- destruct (Nat.eq_dec (snd x) (snd z)); [right; tauto | left; lia].
Qed.

(** ** The scenario on studies and exercise *)

Lemma studies_text_classified :
  classify_pramana studies_text =
  Ok {| dominant_pramana := "anumana";
        scores := [("pratyaksha", 0); ("anumana", 1); ("sabda", 1); ("upamana", 0)];
        confidence := 0.5%float |}.
Proof. vm_compute. reflexivity. Qed.

Lemma studies_text_chain :
  TarkaEngine.analyze_reasoning studies_text =
  Ok {| TarkaEngine.chain :=
          [ {| TarkaEngine.type := "evidence";
               TarkaEngine.position := 0;
               TarkaEngine.text := "studies show" |};
            {| TarkaEngine.type := "inference";
               TarkaEngine.position := 29;
               TarkaEngine.text := "therefore" |};
            {| TarkaEngine.type := "conclusion";
               TarkaEngine.position := 39;
               TarkaEngine.text := "we should" |} ];
        TarkaEngine.has_logical_structure := true |}.
Proof. vm_compute. reflexivity. Qed.

(** C2, as stated, fails: on the text of the scenario the dominant
    source that [classify_pramana] returns is not [sabda]. *)
Lemma C2_dominant_is_not_sabda :
  ~ (exists (r : pramana_result) (c : TarkaEngine.reasoning_result),
       classify_pramana studies_text = Ok r
       /\ dominant_pramana r = "sabda"
       /\ TarkaEngine.analyze_reasoning studies_text = Ok c
       /\ evidence_before_inference (TarkaEngine.chain c) "therefore").
Proof.
  intros [r [c [E [D _]]]].
  rewrite studies_text_classified in E. injection E as <-.
  simpl in D. discriminate D.
Qed.

(** C2, amended. On the text of the scenario the pattern "studies show"
    and the pattern "therefore" match once each, so [sabda] and
    [anumana] tie with score 1; the dominant source is [anumana], the
    one of the two declared first.  The chain of [analyze_reasoning]
    holds an evidence entry before the inference entry "therefore". *)
Theorem C2_scenario_tie_goes_to_anumana :
  exists (r : pramana_result) (c : TarkaEngine.reasoning_result),
    classify_pramana studies_text = Ok r
    /\ dict_get (scores r) "sabda" = Some 1
    /\ dict_get (scores r) "anumana" = Some 1
    /\ index_of "anumana" (dict_keys pramana_patterns)
       < index_of "sabda" (dict_keys pramana_patterns)
    /\ dominant_pramana r = "anumana"
    /\ TarkaEngine.analyze_reasoning studies_text = Ok c
    /\ evidence_before_inference (TarkaEngine.chain c) "therefore".
Proof.
  eexists. eexists.
  split; [apply studies_text_classified|].
  split; [reflexivity|]. split; [reflexivity|].
  split; [vm_compute; lia|]. split; [reflexivity|].
  split; [apply studies_text_chain|].
  exists 0, 1. eexists. eexists.
  split; [lia|]. split; [reflexivity|]. split; [reflexivity|].
  simpl. repeat split; try reflexivity. lia.
Qed.

(** ** One word counted twice *)

(** C10. There is a text in which one word adds more than one count to
    one value tag: in the one-word text "fairness" the keywords "fair"
    and "fairness" of [justice_and_fairness] each match that word, and
    the score of the tag is 2. *)
Theorem C10_one_word_counted_twice :
  exists (text : string) (r : ValueExtractor.value_result) (keywords : list string),
    text = "fairness"
    /\ dict_get ValueExtractor.value_keywords "justice_and_fairness" = Some keywords
    /\ In "fair" keywords
    /\ In "fairness" keywords
    /\ Re.findall (ValueExtractor.keyword_pattern "fair") (lower text) false
       = Ok [ {| Re.m_start := 0; Re.m_group := "fairness" |} ]
    /\ Re.findall (ValueExtractor.keyword_pattern "fairness") (lower text) false
       = Ok [ {| Re.m_start := 0; Re.m_group := "fairness" |} ]
    /\ ValueExtractor.extract_values text = Ok r
    /\ dict_get (ValueExtractor.scores r) "justice_and_fairness" = Some 2.
Proof.
  exists "fairness". eexists. eexists.
  split; [reflexivity|].
  split; [reflexivity|].
  split; [simpl; tauto|].
  split; [simpl; tauto|].
  split; [vm_compute; reflexivity|].
  split; [vm_compute; reflexivity|].
  split; [vm_compute; reflexivity|].
  reflexivity.
Qed.

(** ** The detector: similarity, compatibility, strength *)

Import HiddenAgreementDetector.

Lemma compare_pramana_range (a b : analysis) :
  _compare_pramana a b = 0.3%float
  \/ _compare_pramana a b = 0.6%float
  \/ _compare_pramana a b = 0.9%float.
Proof.
  unfold _compare_pramana.
  destruct (_ || _); [tauto|].
  destruct (String.eqb _ _); [tauto|].
  destruct (existsb _ _); tauto.
Qed.

Lemma compare_reasoning_range (a b : analysis) :
  _compare_reasoning a b = 0.2%float
  \/ _compare_reasoning a b = 0.4%float
  \/ _compare_reasoning a b = 0.7%float.
Proof.
  unfold _compare_reasoning.
  destruct (_ && _); [tauto|].
  destruct (_ || _); tauto.
Qed.

Lemma mem_pair_swap (a b x : string) : mem x [a; b] = mem x [b; a].
Proof.
  unfold mem. simpl. rewrite !orb_false_r. apply orb_comm.
Qed.

Lemma set_eqb_pair_swap (a b : string) (p : list string) :
  set_eqb [a; b] p = set_eqb [b; a] p.
Proof.
  unfold set_eqb. cbn [forallb]. rewrite !andb_true_r.
  rewrite (andb_comm (mem a p) (mem b p)). f_equal.
  induction p as [|x p IH]; cbn [forallb]; [reflexivity|].
  rewrite IH, (mem_pair_swap a b x). reflexivity.
Qed.

Lemma compare_pramana_sym (a b : analysis) :
  _compare_pramana a b = _compare_pramana b a.
Proof.
  unfold _compare_pramana.
  rewrite (orb_comm (String.eqb (dominant_pramana (pramana a)) "")).
  rewrite (String.eqb_sym (dominant_pramana (pramana a))
             (dominant_pramana (pramana b))).
  replace (existsb
             (fun pair =>
                set_eqb [dominant_pramana (pramana a); dominant_pramana (pramana b)] pair)
             compatible_pairs)
    with (existsb
            (fun pair =>
               set_eqb [dominant_pramana (pramana b); dominant_pramana (pramana a)] pair)
            compatible_pairs); [reflexivity|].
  unfold compatible_pairs. cbn [existsb].
  rewrite !(set_eqb_pair_swap (dominant_pramana (pramana b))). reflexivity.
Qed.

Lemma compare_reasoning_sym (a b : analysis) :
  _compare_reasoning a b = _compare_reasoning b a.
Proof.
  unfold _compare_reasoning.
  rewrite (andb_comm (0 <? List.length (TarkaEngine.chain (reasoning a)))).
  rewrite (orb_comm (0 <? List.length (TarkaEngine.chain (reasoning a)))).
  reflexivity.
Qed.

(** The strength depends on the shared values through their number only. *)
Lemma strength_by_length (sv sv' : list string) (p r : float) :
  List.length sv = List.length sv' ->
  _calculate_agreement_strength sv p r = _calculate_agreement_strength sv' p r.
Proof.
  intros E. unfold _calculate_agreement_strength. rewrite E. reflexivity.
Qed.

(** With at most five shared values, a similarity among 0.3, 0.6, 0.9
    and a compatibility among 0.2, 0.4, 0.7, the strength is above the
    threshold, and not below the least strength. *)
Lemma strength_above_threshold (sv : list string) (p r : float) :
  List.length sv <= 5 ->
  p = 0.3%float \/ p = 0.6%float \/ p = 0.9%float ->
  r = 0.2%float \/ r = 0.4%float \/ r = 0.7%float ->
  (agreement_threshold <? _calculate_agreement_strength sv p r)%float = true
  /\ (least_strength <=? _calculate_agreement_strength sv p r)%float = true.
Proof.
  intros Hlen Hp Hr. unfold _calculate_agreement_strength.
  remember (List.length sv) as n eqn:En. clear En sv.
  do 6 (destruct n as [|n];
        [destruct Hp as [-> | [-> | ->]]; destruct Hr as [-> | [-> | ->]];
         vm_compute; split; reflexivity|]).
  lia.
Qed.

Lemma find_shared_values_length (order : set_order) (a b : analysis) :
  List.length (_find_shared_values order a b) <= 5.
Proof. unfold _find_shared_values. apply firstn_le_length. Qed.

(** ** The detector: every pair is recorded *)

Lemma examine_pair_appends (order : set_order) (analyses : dict analysis)
  (acc : list agreement) (pa pb : string) (a b : analysis) :
  dict_get analyses pa = Some a ->
  dict_get analyses pb = Some b ->
  examine_pair order analyses acc (pa, pb) = Ok (acc ++ [agreement_of order pa a pb b]).
Proof.
  intros Ha Hb. unfold examine_pair, getitem. rewrite Ha, Hb. simpl bind.
  destruct (strength_above_threshold (_find_shared_values order a b)
              (_compare_pramana a b) (_compare_reasoning a b)
              (find_shared_values_length order a b)
              (compare_pramana_range a b) (compare_reasoning_range a b))
    as [Hthr _].
  rewrite Hthr. reflexivity.
Qed.

Section Combinations.

Context {A : Type}.

Lemma combinations2_in (l : list A) (x y : A) :
  In (x, y) (combinations2 l) -> In x l /\ In y l.
Proof.
  induction l as [|z l IH]; simpl; [tauto|].
  rewrite in_app_iff, in_map_iff.
  intros [[w [E Hw]] | H].
  - injection E as -> ->. tauto.
  - destruct (IH H). tauto.
Qed.

Lemma combinations2_map {B : Type} (f : A -> B) (l : list A) :
  combinations2 (map f l)
  = map (fun p => (f (fst p), f (snd p))) (combinations2 l).
Proof.
  induction l as [|z l IH]; simpl; [reflexivity|].
  rewrite map_app, !map_map, IH. reflexivity.
Qed.

Lemma combinations2_double_length (l : list A) :
  2 * List.length (combinations2 l) = List.length l * (List.length l - 1).
Proof.
  induction l as [|z l IH]; simpl; [reflexivity|].
  rewrite length_app, length_map, Nat.sub_0_r.
  destruct l as [|w l]; [reflexivity|].
  simpl in IH. rewrite Nat.sub_0_r in IH. simpl List.length. nia.
Qed.

Lemma combinations2_length (l : list A) :
  List.length (combinations2 l) = List.length l * (List.length l - 1) / 2.
Proof.
  rewrite <- combinations2_double_length, Nat.mul_comm, Nat.div_mul; lia.
Qed.

End Combinations.

(** What [detect_agreements] computes: it never raises, and it returns
    one agreement for every pair of speakers, sorted by strength. *)
Lemma detect_agreements_resolved (order : set_order) (analyses : dict analysis)
  (items : list (string * analysis)) :
  map fst items = dict_keys analyses ->
  Forall (fun kv => dict_get analyses (fst kv) = Some (snd kv)) items ->
  detect_agreements order analyses
  = Ok (sorted_by by_strength_desc
          (map (agreement_of_items order) (combinations2 items))).
Proof.
  intros K F.
  unfold detect_agreements. rewrite <- K, combinations2_map.
  rewrite (for_each_collect (examine_pair order analyses)
             (fun p => (fst (fst p), fst (snd p))) (agreement_of_items order)).
  - reflexivity.
  - apply Forall_forall. intros [[pa a] [pb b]] Hin acc.
    apply combinations2_in in Hin. destruct Hin as [Ha Hb].
    rewrite Forall_forall in F.
    apply examine_pair_appends; [apply (F _ Ha) | apply (F _ Hb)].
Qed.

Lemma detect_agreements_outcome (order : set_order) (analyses : dict analysis) :
  exists items : list (string * analysis),
    map fst items = dict_keys analyses
    /\ detect_agreements order analyses
       = Ok (sorted_by by_strength_desc
               (map (agreement_of_items order) (combinations2 items))).
Proof.
  destruct (dict_resolved analyses) as [items [K F]].
  exists items. split; [assumption|].
  apply detect_agreements_resolved; assumption.
Qed.

Lemma agreement_of_bounds (order : set_order)
  (pa : string) (a : analysis) (pb : string) (b : analysis) :
  let g := agreement_of order pa a pb b in
  (0.3 <=? pramana_similarity g)%float = true
  /\ (0.2 <=? reasoning_compatibility g)%float = true
  /\ (least_strength <=? agreement_strength g)%float = true
  /\ (agreement_threshold <? agreement_strength g)%float = true.
Proof.
  simpl.
  destruct (strength_above_threshold (_find_shared_values order a b)
              (_compare_pramana a b) (_compare_reasoning a b)
              (find_shared_values_length order a b)
              (compare_pramana_range a b) (compare_reasoning_range a b))
    as [Hthr Hleast].
  repeat split; try assumption.
  - destruct (compare_pramana_range a b) as [-> | [-> | ->]]; reflexivity.
  - destruct (compare_reasoning_range a b) as [-> | [-> | ->]]; reflexivity.
Qed.

(** C5. For every mapping of speakers to profiles, every pair of
    speakers passes the inclusion rule: the similarity is at least 0.3,
    the compatibility at least 0.2, so the strength is at least
    0.3 * 0.25 + 0.2 * 0.15 = 0.105, which is above the threshold 0.1.  Hence
    [detect_agreements] returns exactly n * (n - 1) / 2 agreements for n
    speakers. *)
Theorem C5_every_pair_is_recorded (order : set_order) (analyses : dict analysis) :
  exists agreements : list agreement,
    detect_agreements order analyses = Ok agreements
    /\ List.length agreements
       = List.length (dict_keys analyses) * (List.length (dict_keys analyses) - 1) / 2
    /\ Forall (fun g =>
                 (0.3 <=? pramana_similarity g)%float = true
                 /\ (0.2 <=? reasoning_compatibility g)%float = true
                 /\ (least_strength <=? agreement_strength g)%float = true
                 /\ (agreement_threshold <? agreement_strength g)%float = true)
         agreements
    /\ least_strength = 0.105%float
    /\ (agreement_threshold <? least_strength)%float = true.
Proof.
  destruct (detect_agreements_outcome order analyses) as [items [K E]].
  eexists. split; [exact E|]. split; [|split; [|split]].
  - rewrite sorted_by_length, length_map, combinations2_length, <- K, length_map.
    reflexivity.
  - apply (Forall_perm _ (map (agreement_of_items order) (combinations2 items))).
    + symmetry. apply sorted_by_perm.
    + apply Forall_forall. intros g Hg. apply in_map_iff in Hg.
      destruct Hg as [[[pa a] [pb b]] [<- _]].
      apply (agreement_of_bounds order pa a pb b).
  - vm_compute. reflexivity.
  - vm_compute. reflexivity.
Qed.

(** ** The recommendations *)

(** The first character of a string. *)
Lemma str_nat_starts_with_digit (n : nat) :
  exists c rest, str_nat n = String c rest /\ is_digit c = true.
Proof.
  unfold str_nat, NilZero.string_of_uint.
  destruct (Nat.to_uint n); simpl; eauto.
Qed.

Lemma pramana_recommendation_starts_with_digit (pairs : nat) :
  exists c rest, pramana_recommendation pairs = String c rest /\ is_digit c = true.
Proof.
  unfold pramana_recommendation, fstr.
  destruct (str_nat_starts_with_digit pairs) as [c [rest [E D]]].
  cbn [String.concat]. rewrite E. simpl. eauto.
Qed.

Lemma pramana_recommendation_not_strongest (pairs : nat) (g : agreement) :
  pramana_recommendation pairs <> strongest_recommendation g.
Proof.
  destruct (pramana_recommendation_starts_with_digit pairs) as [c [rest [E D]]].
  rewrite E. unfold strongest_recommendation, fstr. cbn [String.concat].
  simpl. intros H. injection H as -> _. discriminate D.
Qed.

Lemma pramana_recommendation_not_shared (pairs : nat) (listed : list string) :
  pramana_recommendation pairs <> shared_values_recommendation listed.
Proof.
  destruct (pramana_recommendation_starts_with_digit pairs) as [c [rest [E D]]].
  rewrite E. unfold shared_values_recommendation, fstr. cbn [String.concat].
  simpl. intros H. injection H as -> _. discriminate D.
Qed.

Lemma pramana_recommendation_not_general (pairs : nat) :
  pramana_recommendation pairs <> general_recommendation.
Proof.
  destruct (pramana_recommendation_starts_with_digit pairs) as [c [rest [E D]]].
  rewrite E. unfold general_recommendation.
  simpl. intros H. injection H as -> _. discriminate D.
Qed.

(** C3, as stated, fails: for the one agreement of the speakers of
    "health" and "family", whose similarity is 0.9, the recommendation
    on sources of knowledge is given although no more than one pair has
    a similarity above 0.6. *)
Lemma C3_one_similar_pair_is_enough :
  ~ (includes_pramana_recommendation
       (generate_dialogue_recommendations order_fwd [health_family_agreement])
     <-> 1 < high_pramana_count [health_family_agreement]).
Proof.
  intros [H _].
  assert (Hinc : includes_pramana_recommendation
                   (generate_dialogue_recommendations order_fwd
                      [health_family_agreement])).
  { exists 1. vm_compute. right. left. reflexivity. }
  apply H in Hinc. vm_compute in Hinc. lia.
Qed.

(** C3, amended. For every non-empty list of agreements,
    [generate_dialogue_recommendations] includes the recommendation on
    sources of knowledge if and only if at least one pair of the list
    has a similarity above 0.6, and the recommendation then counts
    these pairs; there are at most four recommendations. *)
Theorem C3_pramana_recommendation (order : set_order) (agreements : list agreement) :
  agreements <> [] ->
  let recommendations := generate_dialogue_recommendations order agreements in
  (includes_pramana_recommendation recommendations
   <-> 1 <= high_pramana_count agreements)
  /\ (1 <= high_pramana_count agreements ->
      In (pramana_recommendation (high_pramana_count agreements)) recommendations)
  /\ List.length recommendations <= 4.
Proof.
  intros Hne. destruct agreements as [|strongest rest]; [contradiction|].
  unfold generate_dialogue_recommendations, includes_pramana_recommendation.
  fold (high_pramana_count (strongest :: rest)).
  set (agreements := strongest :: rest).
  set (n := high_pramana_count agreements).
  cbv zeta.
  assert (Hn : (0 <? n) = true <-> 1 <= n) by (rewrite Nat.ltb_lt; lia).
  destruct (0.6 <? agreement_strength strongest)%float;
    destruct (3 <=? set_len (flat_map shared_values agreements));
    destruct (0 <? n) eqn:En;
    destruct (3 <? List.length agreements);
    cbn [app List.length In];
    (split; [split|split; [|lia]]);
    try (intros _; apply Hn; reflexivity);
    try (intros _; exists n; tauto);
    try (intros _; tauto);
    try (intros Hc; apply Hn in Hc; discriminate Hc);
    try (intros [k Hk]; exfalso;
         repeat (destruct Hk as [Hk | Hk];
                 [ symmetry in Hk;
                   first [ exact (pramana_recommendation_not_strongest _ _ Hk)
                         | exact (pramana_recommendation_not_shared _ _ Hk)
                         | exact (pramana_recommendation_not_general _ Hk) ] |]);
         exact Hk).
Qed.

(** C3 at the agreement of the speakers of "health" and "family". *)
Lemma C3_pramana_recommendation_witness :
  let recommendations :=
    generate_dialogue_recommendations order_fwd [health_family_agreement] in
  (includes_pramana_recommendation recommendations
   <-> 1 <= high_pramana_count [health_family_agreement])
  /\ (1 <= high_pramana_count [health_family_agreement] ->
      In (pramana_recommendation (high_pramana_count [health_family_agreement]))
        recommendations)
  /\ List.length recommendations <= 4.
Proof.
  apply (C3_pramana_recommendation order_fwd [health_family_agreement]).
  discriminate.
Defined.

(** ** The shared values *)

Lemma mem_In (x : string) (l : list string) : mem x l = true <-> In x l.
Proof.
  unfold mem. rewrite existsb_exists. split.
  - intros [y [Hy E]]. apply String.eqb_eq in E. subst. assumption.
  - intros H. exists x. split; [assumption | apply String.eqb_refl].
Qed.

Lemma append_new_In (l : list string) (v x : string) :
  In x (append_new l v) <-> In x l \/ x = v.
Proof.
  unfold append_new. destruct (mem v l) eqn:E.
  - apply mem_In in E. split; [tauto|]. intros [H | ->]; assumption.
  - rewrite in_app_iff. simpl. intuition.
Qed.

Lemma append_new_NoDup (l : list string) (v : string) :
  NoDup l -> NoDup (append_new l v).
Proof.
  intros Hl. unfold append_new. destruct (mem v l) eqn:E; [assumption|].
  apply NoDup_app; [assumption | repeat constructor; simpl; tauto |].
  intros x Hx [<- | []]. apply mem_In in Hx. congruence.
Qed.

Lemma related_sym (x y : string) : related x y = related y x.
Proof. unfold related. apply orb_comm. Qed.

(** The two nested loops of [_find_shared_values] visit the pairs of
    the product of the two sets. *)
Lemma nested_loops_are_pairs (la lb shared : list string) :
  fold_left
    (fun shared val_a =>
       fold_left
         (fun shared val_b =>
            if related val_a val_b
            then append_new (append_new shared val_a) val_b
            else shared)
         lb shared)
    la shared
  = fold_left pair_step (list_prod la lb) shared.
Proof.
  revert shared. induction la as [|a la IH]; intros shared; simpl; [reflexivity|].
  rewrite fold_left_app, <- IH. f_equal.
  clear IH. revert shared. induction lb as [|b lb IH]; intros shared; simpl;
    [reflexivity|].
  rewrite <- IH. reflexivity.
Qed.

Lemma find_shared_values_cap (order : set_order) (a b : analysis) :
  _find_shared_values order a b
  = firstn 5 (shared_uncapped order
                (ValueExtractor.top_values (values a))
                (ValueExtractor.top_values (values b))).
Proof.
  unfold _find_shared_values, shared_uncapped.
  rewrite nested_loops_are_pairs. reflexivity.
Qed.

Lemma fold_pair_step_In (pairs : list (string * string)) (shared : list string)
  (x : string) :
  In x (fold_left pair_step pairs shared)
  <-> In x shared
      \/ exists p, In p pairs /\ related (fst p) (snd p) = true
                   /\ (x = fst p \/ x = snd p).
Proof.
  revert shared. induction pairs as [|q pairs IH]; intros shared; simpl.
  - split; [tauto|]. intros [H | [p [[] _]]]. assumption.
  - rewrite IH. unfold pair_step at 1. destruct (related (fst q) (snd q)) eqn:E.
    + rewrite !append_new_In. split.
      * intros [[[H | ->] | ->] | [p [Hp Hr]]]; eauto 8.
      * intros [H | [p [[-> | Hp] [Hr [-> | ->]]]]]; eauto 8.
    + split.
      * intros [H | [p [Hp Hr]]]; eauto 8.
      * intros [H | [p [[-> | Hp] [Hr Hx]]]]; [tauto | congruence | eauto 8].
Qed.

Lemma fold_pair_step_NoDup (pairs : list (string * string)) (shared : list string) :
  NoDup shared -> NoDup (fold_left pair_step pairs shared).
Proof.
  revert shared. induction pairs as [|q pairs IH]; intros shared Hs; simpl;
    [assumption|].
  apply IH. unfold pair_step. destruct (related (fst q) (snd q)); [|assumption].
  apply append_new_NoDup, append_new_NoDup, Hs.
Qed.

Lemma set_and_In (a b : list string) (x : string) :
  In x (set_and a b) <-> In x a /\ In x b.
Proof.
  unfold set_and. rewrite filter_In, mem_In. reflexivity.
Qed.

(** Whatever the iteration order, the shared values before the cut are
    the gathered values, each once. *)
Lemma shared_uncapped_In (order : set_order) (va vb : list string) (x : string) :
  In x (shared_uncapped order va vb) <-> gathered va vb x.
Proof.
  unfold shared_uncapped, gathered.
  rewrite fold_pair_step_In, set_iter_in, set_and_In.
  split; (intros [H | [p [Hp Hr]]]; [left; assumption | right; exists p]).
  - destruct p as [pa pb]. apply in_prod_iff in Hp.
    rewrite !set_iter_in in Hp. tauto.
  - destruct p as [pa pb]. split; [|assumption].
    apply in_prod_iff. rewrite !set_iter_in. assumption.
Qed.

Lemma shared_uncapped_NoDup (order : set_order) (va vb : list string) :
  NoDup (shared_uncapped order va vb).
Proof. apply fold_pair_step_NoDup, set_iter_nodup. Qed.

Lemma gathered_sym (va vb : list string) (x : string) :
  gathered va vb x <-> gathered vb va x.
Proof.
  assert (H : forall va vb, gathered va vb x -> gathered vb va x).
  { clear. intros va vb [H | [[pa pb] [Hp [Hr Hx]]]]; [left; tauto|].
    right. exists (pb, pa). simpl in *. rewrite related_sym. tauto. }
  split; apply H.
Qed.

(** Two iteration orders give the same shared values up to their order
    before the cut, and so as many of them after the cut. *)
Lemma shared_uncapped_orders (o1 o2 : set_order) (va vb : list string) :
  Permutation (shared_uncapped o1 va vb) (shared_uncapped o2 va vb).
Proof.
  apply NoDup_Permutation; try apply shared_uncapped_NoDup.
  intros x. rewrite !shared_uncapped_In. reflexivity.
Qed.

Lemma shared_uncapped_swap (order : set_order) (va vb : list string) :
  Permutation (shared_uncapped order va vb) (shared_uncapped order vb va).
Proof.
  apply NoDup_Permutation; try apply shared_uncapped_NoDup.
  intros x. rewrite !shared_uncapped_In. apply gathered_sym.
Qed.

Lemma capped_length {A : Type} (l l' : list A) (n : nat) :
  Permutation l l' -> List.length (firstn n l) = List.length (firstn n l').
Proof.
  intros H. rewrite !length_firstn, (Permutation_length H). reflexivity.
Qed.

Lemma capped_perm {A : Type} (l l' : list A) (n : nat) :
  Permutation l l' -> List.length (firstn n l) < n ->
  Permutation (firstn n l) (firstn n l').
Proof.
  intros H Hlt. rewrite length_firstn in Hlt.
  assert (Hl : List.length l <= n) by lia.
  rewrite (firstn_all2 l Hl), (firstn_all2 l'); [assumption|].
  rewrite <- (Permutation_length H). assumption.
Qed.

(** ** Two speakers, the roles swapped *)

Lemma detect_agreements_two (order : set_order) (pa pb : string) (a b : analysis) :
  pa <> pb ->
  detect_agreements order [(pa, a); (pb, b)] = Ok [agreement_of order pa a pb b].
Proof.
  intros Hne. unfold detect_agreements. cbn [dict_keys map fst combinations2 app for_each].
  rewrite (examine_pair_appends order _ [] pa pb a b).
  - reflexivity.
  - simpl. rewrite String.eqb_refl. reflexivity.
  - simpl. destruct (String.eqb_spec pa pb); [contradiction|].
    rewrite String.eqb_refl. reflexivity.
Qed.

Lemma health_family_profiles :
  for_each SAMVADAnalyzer.analyze_narrative [health_narrative; family_narrative] []
  = Ok [("Asha", health_profile); ("Bala", family_profile)].
Proof. vm_compute. reflexivity. Qed.

(** C4, as stated, fails: for the speakers of "health" and "family" the
    shared values come in the order of the roles, health first when the
    speaker of "health" is [person_a] and family first when the roles
    are swapped. *)
Lemma C4_shared_values_follow_the_roles :
  ~ (forall x y : agreement,
       detect_agreements order_fwd [("Asha", health_profile); ("Bala", family_profile)]
       = Ok [x] ->
       detect_agreements order_fwd [("Bala", family_profile); ("Asha", health_profile)]
       = Ok [y] ->
       shared_values x = shared_values y
       /\ pramana_similarity x = pramana_similarity y
       /\ reasoning_compatibility x = reasoning_compatibility y).
Proof.
  intros H.
  destruct (H (agreement_of order_fwd "Asha" health_profile "Bala" family_profile)
              (agreement_of order_fwd "Bala" family_profile "Asha" health_profile))
    as [Hsv _].
  - apply detect_agreements_two. discriminate.
  - apply detect_agreements_two. discriminate.
  - vm_compute in Hsv. discriminate Hsv.
Qed.

(** C4, amended. For two profiles under two distinct names,
    [detect_agreements] with the roles swapped records one agreement
    with the two names swapped, the same similarity of sources, the same
    compatibility of reasoning, the same strength and as many shared
    values; when fewer than five values are listed, the two lists hold
    the same values, in an order that may differ. *)
Theorem C4_swapped_roles (order : set_order) (pa pb : string) (a b : analysis) :
  pa <> pb ->
  exists x y : agreement,
    detect_agreements order [(pa, a); (pb, b)] = Ok [x]
    /\ detect_agreements order [(pb, b); (pa, a)] = Ok [y]
    /\ person_a x = person_b y
    /\ person_b x = person_a y
    /\ pramana_similarity x = pramana_similarity y
    /\ reasoning_compatibility x = reasoning_compatibility y
    /\ agreement_strength x = agreement_strength y
    /\ List.length (shared_values x) = List.length (shared_values y)
    /\ (List.length (shared_values x) < 5 ->
        Permutation (shared_values x) (shared_values y)).
Proof.
  intros Hne.
  exists (agreement_of order pa a pb b), (agreement_of order pb b pa a).
  split; [apply detect_agreements_two; assumption|].
  split; [apply detect_agreements_two; congruence|].
  assert (Hlen : List.length (_find_shared_values order a b)
                 = List.length (_find_shared_values order b a)).
  { rewrite !find_shared_values_cap. apply capped_length, shared_uncapped_swap. }
  cbn [agreement_of person_a person_b pramana_similarity reasoning_compatibility
       agreement_strength shared_values].
  repeat split.
  - apply compare_pramana_sym.
  - apply compare_reasoning_sym.
  - rewrite (compare_pramana_sym a b), (compare_reasoning_sym a b).
    apply strength_by_length. assumption.
  - assumption.
  - rewrite !find_shared_values_cap. apply capped_perm, shared_uncapped_swap.
Qed.

(** C4 at the speakers of "health" and "family". *)
Lemma C4_swapped_roles_witness :
  exists x y : agreement,
    detect_agreements order_fwd [("Asha", health_profile); ("Bala", family_profile)]
    = Ok [x]
    /\ detect_agreements order_fwd [("Bala", family_profile); ("Asha", health_profile)]
       = Ok [y]
    /\ person_a x = person_b y
    /\ person_b x = person_a y
    /\ pramana_similarity x = pramana_similarity y
    /\ reasoning_compatibility x = reasoning_compatibility y
    /\ agreement_strength x = agreement_strength y
    /\ List.length (shared_values x) = List.length (shared_values y)
    /\ (List.length (shared_values x) < 5 ->
        Permutation (shared_values x) (shared_values y)).
Proof.
  apply (C4_swapped_roles order_fwd "Asha" "Bala" health_profile family_profile).
  discriminate.
Defined.

(** ** Two runs *)

(** C9, as stated, fails: two runs on the dialogue of the two speakers
    of health and family, one in an interpreter that iterates sets in
    one order and one in an interpreter that iterates them in the
    reverse order, list the shared values in two different orders, so
    the results are not identical and the reports are not identical. *)
Lemma C9_runs_differ_with_the_set_order :
  exists (r1 r2 : SAMVADAnalyzer.results) (report1 report2 : string),
    SAMVADAnalyzer.run order_fwd two_values_dialogue = Ok (r1, report1)
    /\ SAMVADAnalyzer.run order_bwd two_values_dialogue = Ok (r2, report2)
    /\ r1 <> r2
    /\ report1 <> report2.
Proof.
  do 4 eexists.
  split; [vm_compute; reflexivity|].
  split; [vm_compute; reflexivity|].
  split.
  - intros H. apply (f_equal (fun r => first_shared_values (Ok (r, "")))) in H.
    vm_compute in H. discriminate H.
  - intros H. discriminate H.
Qed.

(** What two runs agree on whatever the two iteration orders: for each
    pair, the names, the strength, the similarity, the compatibility
    and the number of shared values. *)
Lemma agreement_of_stable (o1 o2 : set_order)
  (pa : string) (a : analysis) (pb : string) (b : analysis) :
  stable_part (agreement_of o1 pa a pb b) = stable_part (agreement_of o2 pa a pb b).
Proof.
  assert (Hlen : List.length (_find_shared_values o1 a b)
                 = List.length (_find_shared_values o2 a b)).
  { rewrite !find_shared_values_cap. apply capped_length, shared_uncapped_orders. }
  unfold stable_part, agreement_of.
  cbn [person_a person_b pramana_similarity reasoning_compatibility
       agreement_strength shared_values].
  rewrite Hlen.
  rewrite (strength_by_length (_find_shared_values o1 a b)
             (_find_shared_values o2 a b) _ _ Hlen).
  reflexivity.
Qed.

Lemma detect_agreements_stable (o1 o2 : set_order) (analyses : dict analysis) :
  exists g1 g2 : list agreement,
    detect_agreements o1 analyses = Ok g1
    /\ detect_agreements o2 analyses = Ok g2
    /\ map stable_part g1 = map stable_part g2.
Proof.
  destruct (dict_resolved analyses) as [items [K F]].
  eexists. eexists.
  split; [apply (detect_agreements_resolved o1 analyses items K F)|].
  split; [apply (detect_agreements_resolved o2 analyses items K F)|].
  rewrite !(sorted_by_map stable_part by_strength_desc stable_by_strength_desc);
    try (intros x y; reflexivity).
  f_equal. rewrite !map_map. apply map_ext.
  intros [[pa a] [pb b]]. apply agreement_of_stable.
Qed.

(** Two runs with any two iteration orders raise the same exception or
    return the same per-speaker analyses and, pair by pair in the same
    sequence, agreements with the same stable part. *)
Lemma runs_agree_on_stable_part (o1 o2 : set_order)
  (narratives : list SAMVADAnalyzer.narrative) :
  match SAMVADAnalyzer.analyze_dialogue o1 narratives,
        SAMVADAnalyzer.analyze_dialogue o2 narratives with
  | Ok r1, Ok r2 =>
      SAMVADAnalyzer.individual_analyses r1 = SAMVADAnalyzer.individual_analyses r2
      /\ SAMVADAnalyzer.narratives r1 = SAMVADAnalyzer.narratives r2
      /\ map stable_part (SAMVADAnalyzer.hidden_agreements r1)
         = map stable_part (SAMVADAnalyzer.hidden_agreements r2)
  | Raise e1, Raise e2 => e1 = e2
  | _, _ => False
  end.
Proof.
  unfold SAMVADAnalyzer.analyze_dialogue.
  destruct (for_each SAMVADAnalyzer.analyze_narrative narratives []) as [d|e];
    simpl bind; [|reflexivity].
  destruct (detect_agreements_stable o1 o2 d) as [g1 [g2 [E1 [E2 Hs]]]].
  rewrite E1, E2. simpl. auto.
Qed.

(** Sorting two lists whose elements are related one by one, by a
    comparison that the relation preserves, gives two lists whose
    elements are related one by one. *)
Lemma sorted_by_Forall2 {A : Type} (R : A -> A -> Prop) (before : A -> A -> bool)
  (l l' : list A) :
  (forall x x' y y', R x x' -> R y y' -> before x y = before x' y') ->
  Forall2 R l l' ->
  Forall2 R (sorted_by before l) (sorted_by before l').
Proof.
  intros Hbefore.
  assert (Hins : forall x x' s s',
             R x x' -> Forall2 R s s' ->
             Forall2 R (insert_by before x s) (insert_by before x' s')).
  { intros x x' s s' Hx Hs. induction Hs as [|y y' s s' Hy Hs IH]; simpl.
    - constructor; [assumption | constructor].
    - rewrite (Hbefore y y' x x' Hy Hx). destruct (before y' x').
      + constructor; assumption.
      + constructor; [assumption|]. constructor; assumption. }
  intros Hl. induction Hl as [|x x' l l' Hx Hl IH]; simpl; [constructor|].
  apply Hins; assumption.
Qed.

Lemma agreement_of_same_up_to_order (o1 o2 : set_order)
  (pa : string) (a : analysis) (pb : string) (b : analysis) :
  same_up_to_order (agreement_of o1 pa a pb b) (agreement_of o2 pa a pb b).
Proof.
  split; [apply agreement_of_stable|].
  unfold agreement_of. cbn [shared_values].
  rewrite !find_shared_values_cap. apply capped_perm, shared_uncapped_orders.
Qed.

Lemma same_up_to_order_strength (g1 g2 : agreement) :
  same_up_to_order g1 g2 -> agreement_strength g1 = agreement_strength g2.
Proof.
  intros [H _]. unfold stable_part in H. injection H. intros. assumption.
Qed.

Lemma detect_agreements_pair_by_pair (o1 o2 : set_order) (analyses : dict analysis) :
  exists g1 g2 : list agreement,
    detect_agreements o1 analyses = Ok g1
    /\ detect_agreements o2 analyses = Ok g2
    /\ Forall2
         (fun x y =>
            exists pa a pb b,
              x = agreement_of o1 pa a pb b /\ y = agreement_of o2 pa a pb b)
         g1 g2.
Proof.
  destruct (dict_resolved analyses) as [items [K F]].
  eexists. eexists.
  split; [apply (detect_agreements_resolved o1 analyses items K F)|].
  split; [apply (detect_agreements_resolved o2 analyses items K F)|].
  apply sorted_by_Forall2.
  - intros x x' y y' [pa [a [pb [b [-> ->]]]]] [qa [c [qb [d [-> ->]]]]].
    unfold by_strength_desc.
    rewrite (same_up_to_order_strength _ _
               (agreement_of_same_up_to_order o1 o2 pa a pb b)).
    rewrite (same_up_to_order_strength _ _
               (agreement_of_same_up_to_order o1 o2 qa c qb d)).
    reflexivity.
  - induction (combinations2 items) as [|[[pa a] [pb b]] pairs IH]; simpl;
      constructor; [|assumption].
    exists pa, a, pb, b. split; reflexivity.
Qed.

Lemma detect_agreements_same_up_to_order (o1 o2 : set_order)
  (analyses : dict analysis) :
  exists g1 g2 : list agreement,
    detect_agreements o1 analyses = Ok g1
    /\ detect_agreements o2 analyses = Ok g2
    /\ Forall2 same_up_to_order g1 g2.
Proof.
  destruct (detect_agreements_pair_by_pair o1 o2 analyses) as [g1 [g2 [E1 [E2 H]]]].
  exists g1, g2. split; [assumption|]. split; [assumption|].
  clear E1 E2.
  induction H as [|x y l l' [pa [a [pb [b [-> ->]]]]] H IH]; constructor;
    [apply agreement_of_same_up_to_order | assumption].
Qed.

(** Whether the report is rendered depends on the narratives and on the
    per-speaker analyses only: the one lookup that can fail is that of
    a speaker's position. *)
Lemma speaker_loop_outcome (r1 r2 : SAMVADAnalyzer.results)
  (items : list (string * analysis)) (acc1 acc2 : list string) :
  SAMVADAnalyzer.narratives r1 = SAMVADAnalyzer.narratives r2 ->
  match for_each (SAMVADAnalyzer.speaker_lines r1) items acc1,
        for_each (SAMVADAnalyzer.speaker_lines r2) items acc2 with
  | Ok _, Ok _ => True
  | Raise e1, Raise e2 => e1 = e2
  | _, _ => False
  end.
Proof.
  intros Hn. revert acc1 acc2.
  induction items as [|[speaker a] items IH]; intros acc1 acc2; simpl; [exact I|].
  rewrite <- Hn.
  destruct (SAMVADAnalyzer.find_position (SAMVADAnalyzer.narratives r1) speaker)
    as [position|e]; cbn [bind]; [apply IH | reflexivity].
Qed.

Lemma generate_report_outcome (o1 o2 : set_order) (r1 r2 : SAMVADAnalyzer.results) :
  SAMVADAnalyzer.individual_analyses r1 = SAMVADAnalyzer.individual_analyses r2 ->
  SAMVADAnalyzer.narratives r1 = SAMVADAnalyzer.narratives r2 ->
  match SAMVADAnalyzer.generate_report o1 r1,
        SAMVADAnalyzer.generate_report o2 r2 with
  | Ok _, Ok _ => True
  | Raise e1, Raise e2 => e1 = e2
  | _, _ => False
  end.
Proof.
  intros Ha Hn. unfold SAMVADAnalyzer.generate_report. rewrite <- Ha.
  match goal with
  | |- context [for_each (SAMVADAnalyzer.speaker_lines r1) ?l ?acc1] =>
      match goal with
      | |- context [for_each (SAMVADAnalyzer.speaker_lines r2) l ?acc2] =>
          pose proof (speaker_loop_outcome r1 r2 l acc1 acc2 Hn) as H;
          revert H;
          destruct (for_each (SAMVADAnalyzer.speaker_lines r1) l acc1);
          destruct (for_each (SAMVADAnalyzer.speaker_lines r2) l acc2)
      end
  end; cbn [bind]; intros H; exact H.
Qed.

(** C9, amended. For every sequence of narratives, two runs of the full
    analysis, whatever the order in which each of them iterates its sets
    of strings, raise the same exception or both return a result and a
    report.  The two results hold the same per-speaker analyses and the
    same narratives, and their agreements come in the same sequence,
    one by one with the same names, strength, similarity of sources,
    compatibility of reasoning and number of shared values, and with
    the same shared values up to their order when fewer than five are
    listed. *)
Theorem C9_runs_agree_up_to_the_order_of_shared_values (o1 o2 : set_order)
  (narratives : list SAMVADAnalyzer.narrative) :
  match SAMVADAnalyzer.run o1 narratives, SAMVADAnalyzer.run o2 narratives with
  | Ok (r1, _), Ok (r2, _) =>
      SAMVADAnalyzer.individual_analyses r1 = SAMVADAnalyzer.individual_analyses r2
      /\ SAMVADAnalyzer.narratives r1 = SAMVADAnalyzer.narratives r2
      /\ Forall2 same_up_to_order
           (SAMVADAnalyzer.hidden_agreements r1) (SAMVADAnalyzer.hidden_agreements r2)
  | Raise e1, Raise e2 => e1 = e2
  | _, _ => False
  end.
Proof.
  unfold SAMVADAnalyzer.run, SAMVADAnalyzer.analyze_dialogue.
  destruct (for_each SAMVADAnalyzer.analyze_narrative narratives []) as [d|e];
    cbn [bind]; [|reflexivity].
  destruct (detect_agreements_same_up_to_order o1 o2 d) as [g1 [g2 [E1 [E2 Hg]]]].
  rewrite E1, E2. cbn [bind].
  match goal with
  | |- context [SAMVADAnalyzer.generate_report o1 ?r1] =>
      match goal with
      | |- context [SAMVADAnalyzer.generate_report o2 ?r2] =>
          pose proof (generate_report_outcome o1 o2 r1 r2 eq_refl eq_refl) as H;
          revert H;
          destruct (SAMVADAnalyzer.generate_report o1 r1);
          destruct (SAMVADAnalyzer.generate_report o2 r2)
      end
  end; cbn [bind]; intros H; try exact H.
  cbn [SAMVADAnalyzer.individual_analyses SAMVADAnalyzer.narratives
       SAMVADAnalyzer.hidden_agreements].
  split; [reflexivity|]. split; [reflexivity | exact Hg].
Qed.

(** When the two runs can be told apart, and when not: an agreement of
    at most one shared value is the same in both runs, and the
    recommendations read the iteration order only to list three shared
    values or more.  So two runs of a dialogue in which no pair shares
    more than one value, and fewer than three values are shared in all,
    are identical whatever the two iteration orders. *)
Lemma agreement_of_one_shared_value (o1 o2 : set_order)
  (pa : string) (a : analysis) (pb : string) (b : analysis) :
  List.length (shared_values (agreement_of o1 pa a pb b)) <= 1 ->
  agreement_of o1 pa a pb b = agreement_of o2 pa a pb b.
Proof.
  intros Hlen.
  assert (E : _find_shared_values o1 a b = _find_shared_values o2 a b).
  { destruct (agreement_of_same_up_to_order o1 o2 pa a pb b) as [_ Hperm].
    unfold agreement_of in Hlen, Hperm. cbn [shared_values] in Hlen, Hperm.
    specialize (Hperm ltac:(lia)).
    destruct (_find_shared_values o1 a b) as [|x [|y l]].
    - apply Permutation_nil in Hperm. congruence.
    - apply Permutation_length_1_inv in Hperm. congruence.
    - simpl in Hlen. lia. }
  unfold agreement_of. rewrite E. reflexivity.
Qed.

Lemma recommendations_of_few_shared_values (o1 o2 : set_order)
  (agreements : list agreement) :
  set_len (flat_map shared_values agreements) < 3 ->
  generate_dialogue_recommendations o1 agreements
  = generate_dialogue_recommendations o2 agreements.
Proof.
  intros Hfew. unfold generate_dialogue_recommendations.
  destruct agreements as [|strongest agreements]; [reflexivity|].
  destruct (Nat.leb_spec 3 (set_len (flat_map shared_values (strongest :: agreements))))
    as [Hge | _]; [lia | reflexivity].
Qed.

Lemma runs_identical_when_little_is_shared (o1 o2 : set_order)
  (narratives : list SAMVADAnalyzer.narrative)
  (r : SAMVADAnalyzer.results) (report : string) :
  SAMVADAnalyzer.run o1 narratives = Ok (r, report) ->
  Forall (fun g => List.length (shared_values g) <= 1)
    (SAMVADAnalyzer.hidden_agreements r) ->
  set_len (flat_map shared_values (SAMVADAnalyzer.hidden_agreements r)) < 3 ->
  SAMVADAnalyzer.run o2 narratives = Ok (r, report).
Proof.
  unfold SAMVADAnalyzer.run, SAMVADAnalyzer.analyze_dialogue.
  destruct (for_each SAMVADAnalyzer.analyze_narrative narratives []) as [d|e];
    cbn [bind]; [|discriminate].
  destruct (detect_agreements_pair_by_pair o1 o2 d) as [g1 [g2 [E1 [E2 Hg]]]].
  rewrite E1, E2. cbn [bind].
  destruct (SAMVADAnalyzer.generate_report o1 _) as [report1|e] eqn:Er;
    cbn [bind]; [|discriminate].
  intros Hrun Hone Hfew. injection Hrun as <- <-.
  cbn [SAMVADAnalyzer.hidden_agreements] in Hone, Hfew.
  assert (Eg : g1 = g2).
  { clear -Hg Hone. induction Hg as [|x y l l' [pa [a [pb [b [-> ->]]]]] Hg IH].
    - reflexivity.
    - inversion Hone as [|? ? Hx Hl]; subst. f_equal.
      + apply agreement_of_one_shared_value. assumption.
      + apply IH. assumption. }
  subst g2.
  assert (Erep : forall r',
             set_len (flat_map shared_values (SAMVADAnalyzer.hidden_agreements r')) < 3 ->
             SAMVADAnalyzer.generate_report o2 r' = SAMVADAnalyzer.generate_report o1 r').
  { intros r' H. unfold SAMVADAnalyzer.generate_report.
    rewrite (recommendations_of_few_shared_values o1 o2 _ H). reflexivity. }
  rewrite Erep by exact Hfew. rewrite Er. reflexivity.
Qed.

(** The cut at five can keep different values when the roles are
    swapped: with three common values and two related pairs, the first
    related pair met fills the list. *)
Lemma cut_depends_on_the_roles :
  let va := ["justice_and_fairness"; "health_and_wellbeing"; "family_protection";
             "progress_and_innovation"; "freedom_and_autonomy"] in
  let vb := ["justice_and_fairness"; "economic_security"; "community_wellbeing";
             "progress_and_innovation"; "freedom_and_autonomy"] in
  In "health_and_wellbeing" (firstn 5 (shared_uncapped order_fwd va vb))
  /\ ~ In "health_and_wellbeing" (firstn 5 (shared_uncapped order_fwd vb va)).
Proof.
  vm_compute. split; [tauto|].
  intros H. repeat (destruct H as [H | H]; [discriminate H|]). exact H.
Qed.

(** ** Fewer than two speakers *)

Lemma analyze_reasoning_total (text : string) :
  exists r, TarkaEngine.analyze_reasoning text = Ok r.
Proof.
  unfold TarkaEngine.analyze_reasoning.
  destruct (find_elements_total (lower text)) as [chain ->]. simpl. eauto.
Qed.

Lemma analyze_narrative_total (d : dict analysis) (n : SAMVADAnalyzer.narrative)
  (speaker text : string) :
  dict_get n "speaker" = Some speaker ->
  dict_get n "text" = Some text ->
  exists a, SAMVADAnalyzer.analyze_narrative d n = Ok (setitem d speaker a).
Proof.
  intros Hs Ht. unfold SAMVADAnalyzer.analyze_narrative, getitem.
  rewrite Hs, Ht. cbn [bind].
  destruct (classify_pramana_outcome text) as [p [_ [-> _]]]. cbn [bind].
  destruct (extract_values_outcome text) as [sc [_ ->]]. cbn [bind].
  destruct (analyze_reasoning_total text) as [r ->]. cbn [bind].
  eauto.
Qed.

(** The only exception of the loop of [analyze_dialogue] is the
    [KeyError] of a narrative without a speaker or without a text. *)
Lemma analyze_narrative_raises (d : dict analysis) (n : SAMVADAnalyzer.narrative)
  (e : exn) :
  SAMVADAnalyzer.analyze_narrative d n = Raise e -> exists k, e = KeyError k.
Proof.
  destruct (dict_get n "speaker") as [speaker|] eqn:Hs.
  - destruct (dict_get n "text") as [text|] eqn:Ht.
    + destruct (analyze_narrative_total d n speaker text Hs Ht) as [a ->].
      discriminate.
    + unfold SAMVADAnalyzer.analyze_narrative, getitem. rewrite Hs, Ht. simpl.
      intros H. injection H as <-. eauto.
  - unfold SAMVADAnalyzer.analyze_narrative, getitem. rewrite Hs. simpl.
    intros H. injection H as <-. eauto.
Qed.

Lemma analyze_loop_raises (narratives : list SAMVADAnalyzer.narrative)
  (d : dict analysis) (e : exn) :
  for_each SAMVADAnalyzer.analyze_narrative narratives d = Raise e ->
  exists k, e = KeyError k.
Proof.
  revert d. induction narratives as [|n ns IH]; intros d; simpl; [discriminate|].
  destruct (SAMVADAnalyzer.analyze_narrative d n) as [d'|e'] eqn:E; simpl.
  - apply IH.
  - intros H. injection H as <-. apply (analyze_narrative_raises d n e' E).
Qed.

(** No run of [analyze_dialogue] raises [ValidationError]. *)
Lemma analyze_dialogue_never_validation_error (order : set_order)
  (narratives : list SAMVADAnalyzer.narrative) :
  SAMVADAnalyzer.analyze_dialogue order narratives <> Raise ValidationError.
Proof.
  unfold SAMVADAnalyzer.analyze_dialogue.
  destruct (for_each SAMVADAnalyzer.analyze_narrative narratives []) as [d|e] eqn:E;
    simpl bind.
  - destruct (detect_agreements_outcome order d) as [items [_ ->]]. discriminate.
  - destruct (analyze_loop_raises narratives [] e E) as [k ->]. discriminate.
Qed.

Lemma setitem_keys_In {V : Type} (d : dict V) (k : string) (v : V) (x : string) :
  In x (dict_keys (setitem d k v)) <-> In x (dict_keys d) \/ x = k.
Proof.
  destruct (in_dec string_dec k (dict_keys d)) as [Hin | Hout].
  - rewrite (setitem_keys_present d k v Hin). split; [tauto|].
    intros [H | ->]; assumption.
  - rewrite (setitem_keys_absent d k v Hout), in_app_iff. simpl. intuition.
Qed.

Lemma setitem_keys_NoDup {V : Type} (d : dict V) (k : string) (v : V) :
  NoDup (dict_keys d) -> NoDup (dict_keys (setitem d k v)).
Proof.
  intros Hd. destruct (in_dec string_dec k (dict_keys d)) as [Hin | Hout].
  - rewrite (setitem_keys_present d k v Hin). assumption.
  - rewrite (setitem_keys_absent d k v Hout).
    apply NoDup_app; [assumption | repeat constructor; simpl; tauto |].
    intros x Hx [<- | []]. contradiction.
Qed.

(** On narratives that have a speaker and a text, the loop of
    [analyze_dialogue] runs to its end and keeps one entry for each
    distinct speaker at most. *)
Lemma analyze_loop_total (narratives : list SAMVADAnalyzer.narrative) :
  Forall well_formed narratives ->
  exists d : dict analysis,
    for_each SAMVADAnalyzer.analyze_narrative narratives [] = Ok d
    /\ List.length (dict_keys d) <= distinct_speakers narratives.
Proof.
  intros Hwf.
  destruct (for_each_invariant
              (fun d : dict analysis =>
                 NoDup (dict_keys d)
                 /\ incl (dict_keys d) (map speaker_of narratives))
              SAMVADAnalyzer.analyze_narrative narratives) with (acc := @nil (string * analysis))
    as [d [E [Hnd Hincl]]].
  - intros acc n Hn [Hnd Hincl].
    rewrite Forall_forall in Hwf. destruct (Hwf n Hn) as [Hs Ht].
    destruct (dict_get_in_keys n "speaker" Hs) as [speaker Es].
    destruct (dict_get_in_keys n "text" Ht) as [text Et].
    destruct (analyze_narrative_total acc n speaker text Es Et) as [a ->].
    eexists. split; [reflexivity|]. split.
    + apply setitem_keys_NoDup. assumption.
    + intros x Hx. apply setitem_keys_In in Hx. destruct Hx as [Hx | ->].
      * apply Hincl. assumption.
      * apply in_map_iff. exists n. split; [|assumption].
        unfold speaker_of, get_default. rewrite Es. reflexivity.
  - split; [constructor | intros x []].
  - exists d. split; [assumption|].
    unfold distinct_speakers, set_len.
    apply NoDup_incl_length; [assumption|].
    intros x Hx. apply nodup_In. apply Hincl. assumption.
Qed.

Lemma combinations2_short {A : Type} (l : list A) :
  List.length l < 2 -> combinations2 l = [].
Proof.
  destruct l as [|x [|y l]]; simpl; try reflexivity. lia.
Qed.

(** C1, as stated, fails: on the one narrative of the speaker of
    "health", [analyze_dialogue] returns a result and raises nothing. *)
Lemma C1_single_narrative_is_analyzed :
  distinct_speakers [health_narrative] < 2
  /\ SAMVADAnalyzer.analyze_dialogue order_fwd [health_narrative]
     = Ok {| SAMVADAnalyzer.individual_analyses := [("Asha", health_profile)];
             SAMVADAnalyzer.hidden_agreements := [];
             SAMVADAnalyzer.narratives := [health_narrative] |}
  /\ SAMVADAnalyzer.analyze_dialogue order_fwd [health_narrative]
     <> Raise ValidationError.
Proof.
  split; [vm_compute; lia|].
  assert (E : SAMVADAnalyzer.analyze_dialogue order_fwd [health_narrative]
              = Ok {| SAMVADAnalyzer.individual_analyses := [("Asha", health_profile)];
                      SAMVADAnalyzer.hidden_agreements := [];
                      SAMVADAnalyzer.narratives := [health_narrative] |})
    by (vm_compute; reflexivity).
  split; [exact E|]. rewrite E. discriminate.
Qed.

(** C1, amended. For every sequence of narratives that have a speaker
    and a text and hold fewer than two distinct speakers,
    [analyze_dialogue] raises nothing, [ValidationError] included: it
    returns a result with the narratives and no agreement. *)
Theorem C1_fewer_than_two_speakers (order : set_order)
  (narratives : list SAMVADAnalyzer.narrative) :
  Forall well_formed narratives ->
  distinct_speakers narratives < 2 ->
  SAMVADAnalyzer.analyze_dialogue order narratives <> Raise ValidationError
  /\ exists r : SAMVADAnalyzer.results,
       SAMVADAnalyzer.analyze_dialogue order narratives = Ok r
       /\ SAMVADAnalyzer.hidden_agreements r = []
       /\ SAMVADAnalyzer.narratives r = narratives.
Proof.
  intros Hwf Hfew.
  split; [apply analyze_dialogue_never_validation_error|].
  unfold SAMVADAnalyzer.analyze_dialogue.
  destruct (analyze_loop_total narratives Hwf) as [d [-> Hlen]]. simpl bind.
  destruct (detect_agreements_outcome order d) as [items [K ->]]. simpl bind.
  eexists. split; [reflexivity|].
  cbn [SAMVADAnalyzer.hidden_agreements SAMVADAnalyzer.narratives].
  split; [|reflexivity].
  rewrite combinations2_short; [reflexivity|].
  rewrite <- (length_map fst), K. lia.
Qed.

(** C1 at the one narrative of the speaker of "health". *)
Lemma C1_fewer_than_two_speakers_witness :
  SAMVADAnalyzer.analyze_dialogue order_fwd [health_narrative] <> Raise ValidationError
  /\ exists r : SAMVADAnalyzer.results,
       SAMVADAnalyzer.analyze_dialogue order_fwd [health_narrative] = Ok r
       /\ SAMVADAnalyzer.hidden_agreements r = []
       /\ SAMVADAnalyzer.narratives r = [health_narrative].
Proof.
  apply (C1_fewer_than_two_speakers order_fwd [health_narrative]).
  - repeat constructor; simpl; tauto.
  - vm_compute. lia.
Defined.

(* ===================================================================== *)
(** * Further properties of the modules                                  *)
(* ===================================================================== *)

(** ** classify_pramana: the dominant source *)

(** X1. For every text, the scores of [classify_pramana] list the four
    sources in the order of their declaration, and the dominant source is
    the first of them that carries the greatest count: no source has a
    greater count, and every source declared before it has a smaller
    one.  (With no match at all this is the default, [pratyaksha].) *)
Theorem X1_dominant_is_first_maximum (text : string) :
  exists (r : pramana_result) (s : nat),
    classify_pramana text = Ok r
    /\ dict_keys (scores r) = ["pratyaksha"; "anumana"; "sabda"; "upamana"]
    /\ dict_get (scores r) (dominant_pramana r) = Some s
    /\ (forall k v, In (k, v) (scores r) -> v <= s)
    /\ (forall k v, In (k, v) (scores r) ->
        index_of k (dict_keys (scores r))
        < index_of (dominant_pramana r) (dict_keys (scores r)) ->
        v < s).
Proof.
  destruct (classify_pramana_outcome text) as [r [s [E [K [D [G _]]]]]].
  exists r, s. split; [assumption|]. split; [exact K|].
  split; [assumption|].
  destruct (scores r) as [|[k1 v1] [|[k2 v2] [|[k3 v3] [|[k4 v4] [|? ?]]]]];
    try discriminate K.
  injection K as -> -> -> ->.
  rewrite D in G |- *. clear D.
  unfold sum_values, dict_values in G |- *. simpl in G |- *.
  destruct (Nat.eqb_spec (v1 + (v2 + (v3 + (v4 + 0)))) 0) as [Z | NZ].
  - simpl in G. injection G as <-.
    split; intros k v Hin; simpl in Hin;
      repeat (destruct Hin as [Hin | Hin]; [injection Hin as <- <-|]);
      try contradiction; simpl; try lia.
  - clear NZ.
    destruct (Nat.ltb_spec v1 v2); simpl in G |- *;
      [destruct (Nat.ltb_spec v2 v3) | destruct (Nat.ltb_spec v1 v3)];
      simpl in G |- *;
      [ destruct (Nat.ltb_spec v3 v4) | destruct (Nat.ltb_spec v2 v4)
      | destruct (Nat.ltb_spec v3 v4) | destruct (Nat.ltb_spec v1 v4) ];
      simpl in G |- *; injection G as <-;
      (split; intros k v Hin; simpl in Hin;
       repeat (destruct Hin as [Hin | Hin]; [injection Hin as <- <-|]);
       try contradiction; simpl; lia).
Qed.

(** ** extract_values: the five best tags *)

Lemma StronglySorted_app_cross {A : Type} (R : A -> A -> Prop) (l1 l2 : list A) :
  StronglySorted R (l1 ++ l2) -> forall x y, In x l1 -> In y l2 -> R x y.
Proof.
  induction l1 as [|a l1 IH]; simpl; intros Hs x y Hx Hy; [contradiction|].
  inversion Hs as [|? ? Hs' Ha]; subst.
  destruct Hx as [<- | Hx].
  - rewrite Forall_forall in Ha. apply Ha. apply in_or_app. right. assumption.
  - apply IH; assumption.
Qed.

(** Dropping items of a dictionary leaves its keys distinct. *)
Lemma filter_keeps_keys_distinct {V : Type} (keep : string * V -> bool)
  (d : dict V) :
  NoDup (dict_keys d) -> NoDup (dict_keys (filter keep d)).
Proof.
  unfold dict_keys. intros Hkeys.
  induction d as [|[k v] d IH]; cbn [filter map fst]; [constructor|].
  cbn [map fst] in Hkeys. apply NoDup_cons_iff in Hkeys.
  destruct Hkeys as [Hfresh Hrest].
  destruct (keep (k, v)); cbn [map fst]; [|exact (IH Hrest)].
  apply NoDup_cons; [|exact (IH Hrest)].
  intros Hk. apply Hfresh.
  apply in_map_iff in Hk. destruct Hk as [[k' v'] [Ek Hitem]].
  apply filter_In in Hitem. apply in_map_iff. exists (k', v').
  split; [exact Ek | exact (proj1 Hitem)].
Qed.

(** The tags with a positive score, in the order of the sort: ranked,
    each once, and all of them. *)
Lemma positive_tags_ranked (sc : dict nat) (listed : list string) :
  dict_keys sc = dict_keys ValueExtractor.value_keywords ->
  let r := {| ValueExtractor.top_values := listed; ValueExtractor.scores := sc |} in
  let tags :=
    map fst (filter (fun vs : string * nat => 0 <? snd vs)
               (sorted_by ValueExtractor.by_score_desc sc)) in
  StronglySorted (ranks_before r) tags
  /\ NoDup tags
  /\ (forall v, In v tags <-> 0 < score_of r v).
Proof.
  intros K r tags.
  destruct (scores_in_declaration_order sc K) as [Hnd Hdecl].
  set (sorted := sorted_by ValueExtractor.by_score_desc sc) in *.
  assert (Hperm : Permutation sorted sc) by apply sorted_by_perm.
  assert (Hscore : forall kv, In kv sorted -> score_of r (fst kv) = snd kv).
  { intros [k v] Hkv. unfold score_of, get_default, r.
    cbn [ValueExtractor.scores fst snd].
    rewrite (dict_get_unique sc k v Hnd (Permutation_in _ Hperm Hkv)). reflexivity. }
  split; [|split].
  - apply (StronglySorted_map_in
             (fun a b => snd b < snd a
                         \/ (snd a = snd b /\ decl_index (fst a) < decl_index (fst b)))).
    + intros a b Ha Hb Hab. apply filter_In in Ha, Hb. unfold ranks_before.
      rewrite (Hscore a (proj1 Ha)), (Hscore b (proj1 Hb)). assumption.
    + apply StronglySorted_filter.
      apply (sorted_by_sorted ValueExtractor.by_score_desc _
               (fun a b => decl_index (fst a) < decl_index (fst b)));
        [| | |assumption]; unfold ValueExtractor.by_score_desc.
      * intros x y H. apply Nat.ltb_lt in H. left. assumption.
      * intros x y H Hq. apply Nat.ltb_ge in H.
        destruct (Nat.eq_dec (snd x) (snd y)); [right; tauto | left; lia].
      * intros x y z H Hyz Hq. apply Nat.ltb_ge in H.
        destruct Hyz as [Hlt | [Heq _]]; [left; lia|].
        destruct (Nat.eq_dec (snd x) (snd z)); [right; tauto | left; lia].
  - apply filter_keeps_keys_distinct.
    apply (Permutation_NoDup (l := map fst sc)); [|exact Hnd].
    apply Permutation_map. symmetry. assumption.
  - intros v. unfold tags. rewrite in_map_iff. split.
    + intros [kv [<- Hkv]]. apply filter_In in Hkv. destruct Hkv as [Hkv Hpos].
      rewrite (Hscore kv Hkv). apply Nat.ltb_lt. assumption.
    + intros Hpos. unfold score_of, get_default, r in Hpos.
      cbn [ValueExtractor.scores] in Hpos.
      destruct (dict_get sc v) as [s|] eqn:G; [|lia].
      exists (v, s). split; [reflexivity|]. apply filter_In. split.
      * apply (Permutation_in _ (Permutation_sym Hperm)).
        apply dict_get_some_in. assumption.
      * apply Nat.ltb_lt. assumption.
Qed.

(** X2. For every text, [top_values] lists tags of the taxonomy, each at
    most once, and it lists the best ones: a tag with a positive score is
    left out only when five tags are listed, all of them ranked before
    it (a greater score, or the same score and declared earlier). *)
Theorem X2_top_values_are_the_best (text : string) :
  exists r : ValueExtractor.value_result,
    ValueExtractor.extract_values text = Ok r
    /\ dict_keys (ValueExtractor.scores r) = dict_keys ValueExtractor.value_keywords
    /\ NoDup (ValueExtractor.top_values r)
    /\ incl (ValueExtractor.top_values r) (dict_keys ValueExtractor.value_keywords)
    /\ (forall v,
          0 < score_of r v -> ~ In v (ValueExtractor.top_values r) ->
          List.length (ValueExtractor.top_values r) = 5
          /\ Forall (fun w => ranks_before r w v) (ValueExtractor.top_values r)).
Proof.
  destruct (extract_values_outcome text) as [sc [K E]].
  eexists. split; [exact E|]. cbn [ValueExtractor.top_values ValueExtractor.scores].
  split; [exact K|].
  destruct (positive_tags_ranked sc
              (firstn 5
                 (map fst
                    (filter (fun vs : string * nat => 0 <? snd vs)
                       (sorted_by ValueExtractor.by_score_desc sc)))) K)
    as [Hsorted [Hnd Hin]].
  set (tags := map fst (filter (fun vs : string * nat => 0 <? snd vs)
                          (sorted_by ValueExtractor.by_score_desc sc))) in *.
  set (r := {| ValueExtractor.top_values := firstn 5 tags;
               ValueExtractor.scores := sc |}) in *.
  assert (Hsplit : tags = firstn 5 tags ++ skipn 5 tags)
    by (symmetry; apply firstn_skipn).
  split; [|split].
  - rewrite Hsplit in Hnd. apply NoDup_app_remove_r in Hnd. assumption.
  - intros v Hv. apply firstn_incl in Hv. rewrite <- K.
    unfold tags in Hv. apply in_map_iff in Hv. destruct Hv as [kv [<- Hkv]].
    apply filter_In in Hkv. destruct Hkv as [Hkv _].
    apply in_map. apply (Permutation_in _ (sorted_by_perm _ sc) Hkv).
  - intros v Hpos Hout.
    assert (Hv : In v tags) by (apply Hin; assumption).
    rewrite Hsplit in Hv. apply in_app_or in Hv.
    destruct Hv as [Hv | Hv]; [contradiction|].
    split.
    + rewrite length_firstn.
      assert (Hlen : 5 < List.length tags).
      { destruct (Nat.lt_ge_cases 5 (List.length tags)) as [Hlt | Hge];
          [assumption|].
        rewrite skipn_all2 in Hv by assumption. contradiction. }
      lia.
    + apply Forall_forall. intros w Hw.
      rewrite Hsplit in Hsorted.
      apply (StronglySorted_app_cross _ _ _ Hsorted w v Hw Hv).
Qed.

(** ** Matches lie in the text *)

Lemma string_length_list (s : string) :
  List.length (list_ascii_of_string s) = String.length s.
Proof. induction s as [|c s IH]; simpl; [reflexivity | f_equal; assumption]. Qed.

(** What a match leaves is an end of what it was given, as soon as the
    continuation keeps to that. *)
Lemma rmatch_leaves_suffix (ic : bool) (r : Re.regex) :
  forall k : Re.kont,
    (forall p s rest, k p s = Some rest -> exists pre, s = pre ++ rest) ->
    forall prev s rest,
      Re.rmatch ic r prev s k = Some rest -> exists pre, s = pre ++ rest.
Proof.
  induction r as [c | | | | r1 IH1 r2 IH2 | r1 IH1 r2 IH2 | r1 IH1 |];
    intros k Hk prev s rest; simpl.
  - destruct s as [|x s']; [discriminate|].
    destruct (Re.chr_eqb ic c x); [|discriminate].
    intros H. destruct (Hk _ _ _ H) as [pre ->]. exists (x :: pre). reflexivity.
  - destruct s as [|x s']; [discriminate|].
    destruct (Re.is_newline x); [discriminate|].
    intros H. destruct (Hk _ _ _ H) as [pre ->]. exists (x :: pre). reflexivity.
  - destruct s as [|x s']; [discriminate|].
    destruct (Re.is_word x); [|discriminate].
    intros H. destruct (Hk _ _ _ H) as [pre ->]. exists (x :: pre). reflexivity.
  - destruct (xorb prev (Re.next_is_word s)); [apply Hk | discriminate].
  - apply IH1. intros p s' rest'. apply IH2. assumption.
  - destruct (Re.rmatch ic r1 prev s k) eqn:E.
    + intros H. injection H as <-. apply (IH1 k Hk prev s _ E).
    + apply IH2. assumption.
  - generalize (List.length s) at 1. intros n. revert prev s rest.
    induction n as [|n IHn]; intros prev s rest; [apply Hk|].
    match goal with
    | |- match ?m with _ => _ end = _ -> _ => destruct m eqn:E
    end.
    + intros H. injection H as <-. revert E. apply IH1.
      intros p s' rest'. destruct (List.length s' <? List.length s); [|discriminate].
      apply IHn.
    + apply Hk.
  - apply Hk.
Qed.

Lemma rmatch_top_leaves_suffix (ic : bool) (r : Re.regex) (prev : bool)
  (s rest : list ascii) :
  Re.rmatch ic r prev s (fun _ rest => Some rest) = Some rest ->
  exists pre, s = pre ++ rest.
Proof.
  apply rmatch_leaves_suffix. intros p s' rest' H. injection H as <-.
  exists []. reflexivity.
Qed.

(** Every match of the scan lies in the text at its start. *)
Lemma scan_occurs (ic : bool) (r : Re.regex) (full : list ascii) :
  forall (s : list ascii) (prev : bool) (pos skip : nat) (pre : list ascii),
    full = pre ++ s ->
    List.length pre = pos ->
    Forall (fun m => occurs_at full (Re.m_start m) (Re.m_group m))
      (Re.scan ic r prev s pos skip).
Proof.
  induction s as [|c s IH]; intros prev pos skip pre Hfull Hpos.
  - destruct skip as [|skip]; simpl; [|constructor].
    destruct (Re.rmatch ic r prev [] (fun _ rest => Some rest)) as [rest|] eqn:E;
      [|constructor].
    constructor; [|constructor].
    destruct (rmatch_top_leaves_suffix ic r prev [] rest E) as [pm Hpm].
    symmetry in Hpm. apply app_eq_nil in Hpm. destruct Hpm as [-> ->].
    simpl. exists pre, []. simpl. split; [assumption|assumption].
  - assert (Hnext : forall prev' skip',
               Forall (fun m => occurs_at full (Re.m_start m) (Re.m_group m))
                 (Re.scan ic r prev' s (S pos) skip')).
    { intros prev' skip'. apply (IH prev' (S pos) skip' (pre ++ [c])).
      - rewrite <- app_assoc. assumption.
      - rewrite length_app. simpl. lia. }
    destruct skip as [|skip]; cbn [Re.scan]; [|apply Hnext].
    destruct (Re.rmatch ic r prev (c :: s) (fun _ rest => Some rest))
      as [rest|] eqn:E; [|apply Hnext].
    constructor; [|apply Hnext].
    destruct (rmatch_top_leaves_suffix ic r prev (c :: s) rest E) as [pm Hpm].
    cbn [Re.m_start Re.m_group].
    exists pre, rest. split; [|assumption].
    rewrite list_ascii_of_string_of_list_ascii, Hfull, Hpm.
    rewrite length_app, Nat.add_sub, firstn_app, Nat.sub_diag, firstn_all.
    simpl. rewrite app_nil_r. reflexivity.
Qed.

Lemma finditer_occurs (pattern text : string) (ic : bool) (ms : list Re.match_obj) :
  Re.finditer pattern text ic = Ok ms ->
  Forall (fun m => occurs_at (list_ascii_of_string text) (Re.m_start m) (Re.m_group m))
    ms.
Proof.
  unfold Re.finditer. destruct (Re.compile pattern) as [r|]; [|discriminate].
  simpl. intros H. injection H as <-.
  apply (scan_occurs ic r _ _ false 0 0 []); reflexivity.
Qed.

Lemma occurs_at_slice (text : string) (start : nat) (group : string) :
  occurs_at (list_ascii_of_string text) start group ->
  slice text start (start + String.length group) = group
  /\ start + String.length group <= String.length text.
Proof.
  intros [pre [post [Hfull Hpre]]]. unfold slice. rewrite Hfull. split.
  - rewrite Nat.add_comm, Nat.add_sub, <- Hpre.
    rewrite skipn_app, skipn_all, Nat.sub_diag. simpl.
    rewrite <- string_length_list, firstn_app, Nat.sub_diag, firstn_all.
    simpl. rewrite app_nil_r. apply string_of_list_ascii_of_string.
  - rewrite <- (string_length_list text), Hfull, !length_app, string_length_list.
    lia.
Qed.

(** ** analyze_reasoning: the elements of the chain *)

(** X3. For every text, each element of the chain of
    [analyze_reasoning] has one of the four types, and its text is the
    piece of [text.lower()] that begins at its position and ends within
    it: the positions are offsets into the lower-cased text, the one the
    patterns are matched against, and the matched texts are pieces of
    that text, not of the input as it was written. *)
Theorem X3_chain_elements_lie_in_the_text (text : string) :
  exists r : TarkaEngine.reasoning_result,
    TarkaEngine.analyze_reasoning text = Ok r
    /\ Forall
         (fun e =>
            In (TarkaEngine.type e) ["premise"; "inference"; "evidence"; "conclusion"]
            /\ slice (lower text) (TarkaEngine.position e)
                 (TarkaEngine.position e + String.length (TarkaEngine.text e))
               = TarkaEngine.text e
            /\ TarkaEngine.position e + String.length (TarkaEngine.text e)
               <= String.length (lower text))
         (TarkaEngine.chain r).
Proof.
  unfold TarkaEngine.analyze_reasoning.
  set (ok := fun e =>
               In (TarkaEngine.type e) element_types
               /\ occurs_at (list_ascii_of_string (lower text))
                    (TarkaEngine.position e) (TarkaEngine.text e)).
  assert (Hfind : exists chain,
             TarkaEngine.find_elements (lower text) = Ok chain /\ Forall ok chain).
  { unfold TarkaEngine.find_elements.
    apply (for_each_invariant (Forall ok)); [|constructor].
    intros acc [element_type patterns] Hentry Hacc.
    apply (for_each_invariant (Forall ok)); [|assumption].
    intros acc' p Hp Hacc'.
    destruct (finditer_total p (lower text) true
                (table_compiles_in (fun p => p) _ element_type patterns p
                   reasoning_patterns_compile Hentry Hp))
      as [ms E].
    rewrite E. cbn [bind]. eexists. split; [reflexivity|].
    apply Forall_app. split; [assumption|].
    apply Forall_forall. intros e He. apply in_map_iff in He.
    destruct He as [m [<- Hm]]. split.
    - cbn [TarkaEngine.type]. unfold element_types.
      change (In (fst (element_type, patterns))
                (map fst TarkaEngine.reasoning_patterns)).
      apply in_map. assumption.
    - cbn [TarkaEngine.position TarkaEngine.text].
      pose proof (finditer_occurs p (lower text) true ms E) as Hall.
      rewrite Forall_forall in Hall. apply Hall. assumption. }
  destruct Hfind as [chain [-> Hchain]]. cbn [bind].
  eexists. split; [reflexivity|]. cbn [TarkaEngine.chain].
  apply (Forall_perm _ chain); [symmetry; apply sorted_by_perm|].
  apply Forall_forall. intros e He. rewrite Forall_forall in Hchain.
  destruct (Hchain e He) as [Htype Hocc].
  split; [exact Htype|].
  destruct (occurs_at_slice (lower text) _ _ Hocc) as [Hslice Hlen].
  split; [exact Hslice | exact Hlen].
Qed.

(** ** _find_shared_values: what the list holds *)

Lemma NoDup_app_disjoint {A : Type} (l1 l2 : list A) (x : A) :
  NoDup (l1 ++ l2) -> In x l1 -> In x l2 -> False.
Proof.
  induction l1 as [|a l1 IH]; simpl; intros Hnd H1 H2; [contradiction|].
  inversion Hnd as [|? ? Hnotin Hnd']; subst.
  destruct H1 as [-> | H1].
  - apply Hnotin. apply in_or_app. right. assumption.
  - apply IH; assumption.
Qed.

Lemma append_new_extends (l : list string) (v : string) :
  exists extras, append_new l v = l ++ extras.
Proof.
  unfold append_new. destruct (mem v l).
  - exists []. rewrite app_nil_r. reflexivity.
  - exists [v]. reflexivity.
Qed.

Lemma fold_pair_step_extends (pairs : list (string * string)) (shared : list string) :
  exists extras, fold_left pair_step pairs shared = shared ++ extras.
Proof.
  revert shared. induction pairs as [|q pairs IH]; intros shared; simpl.
  - exists []. rewrite app_nil_r. reflexivity.
  - destruct (IH (pair_step shared q)) as [extras ->].
    unfold pair_step. destruct (related (fst q) (snd q)).
    + destruct (append_new_extends shared (fst q)) as [e1 ->].
      destruct (append_new_extends (shared ++ e1) (snd q)) as [e2 ->].
      exists (e1 ++ e2 ++ extras). rewrite <- !app_assoc. reflexivity.
    + exists extras. reflexivity.
Qed.

(** X4. Whatever the profiles and the iteration order, the shared values
    of [_find_shared_values] are at most five, each listed once; each is
    a value that both speakers hold or a value of one speaker related to
    a value of the other; the values that both hold come first; and when
    fewer than five values are listed, none of these values is missing. *)
Theorem X4_shared_values_content (order : set_order) (a b : analysis) :
  let va := ValueExtractor.top_values (values a) in
  let vb := ValueExtractor.top_values (values b) in
  let shared := _find_shared_values order a b in
  List.length shared <= 5
  /\ NoDup shared
  /\ (forall x, In x shared -> gathered va vb x)
  /\ (exists extras,
        shared = firstn 5 (set_iter order (set_and va vb) ++ extras)
        /\ forall x, In x extras -> ~ (In x va /\ In x vb))
  /\ (List.length shared < 5 -> forall x, gathered va vb x -> In x shared).
Proof.
  intros va vb shared. unfold shared. rewrite find_shared_values_cap.
  fold va vb.
  pose proof (shared_uncapped_NoDup order va vb) as Hnd.
  pose proof (firstn_skipn 5 (shared_uncapped order va vb)) as Hsplit.
  split; [apply firstn_le_length|]. split; [|split; [|split]].
  - rewrite <- Hsplit in Hnd. apply NoDup_app_remove_r in Hnd. assumption.
  - intros x Hx. apply (proj1 (shared_uncapped_In order va vb x)).
    apply (firstn_incl _ _ _ Hx).
  - unfold shared_uncapped in *.
    destruct (fold_pair_step_extends
                (list_prod (set_iter order va) (set_iter order vb))
                (set_iter order (set_and va vb))) as [extras E].
    exists extras. split; [rewrite E; reflexivity|].
    intros x Hx Hboth. rewrite E in Hnd.
    apply (NoDup_app_disjoint _ _ x Hnd); [|assumption].
    apply set_iter_in, set_and_In. assumption.
  - intros Hlt x Hx. rewrite length_firstn in Hlt.
    rewrite firstn_all2 by lia.
    apply (proj2 (shared_uncapped_In order va vb x)). assumption.
Qed.

(** ** _compare_pramana: which sources are compatible *)

Lemma set_eqb_spec (l1 l2 : list string) :
  set_eqb l1 l2 = true <-> (forall x, In x l1 <-> In x l2).
Proof.
  unfold set_eqb. rewrite andb_true_iff, !forallb_forall. split.
  - intros [H1 H2] x. split; intros Hx.
    + apply mem_In, H1, Hx.
    + apply mem_In, H2, Hx.
  - intros H. split; intros x Hx; apply mem_In, H, Hx.
Qed.

Lemma compatible_pairs_spec (pa pb : string) :
  pa <> pb ->
  existsb (fun pair => set_eqb [pa; pb] pair) compatible_pairs = true
  <-> In pa compatible_sources /\ In pb compatible_sources.
Proof.
  intros Hne. rewrite existsb_exists. split.
  - intros [pair [Hpair Heq]]. rewrite set_eqb_spec in Heq.
    assert (Ha : In pa pair) by (apply Heq; left; reflexivity).
    assert (Hb : In pb pair) by (apply Heq; right; left; reflexivity).
    assert (Hsub : incl pair compatible_sources).
    { unfold compatible_pairs in Hpair. simpl in Hpair.
      destruct Hpair as [<- | [<- | [<- | []]]]; intros x Hx; simpl in *; tauto. }
    split; apply Hsub; assumption.
  - intros [Ha Hb]. unfold compatible_sources in Ha, Hb. simpl in Ha, Hb.
    destruct Ha as [<- | [<- | [<- | []]]];
      destruct Hb as [<- | [<- | [<- | []]]];
      try (exfalso; apply Hne; reflexivity).
    + exists ["pratyaksha"; "anumana"]. split; [simpl; tauto | reflexivity].
    + exists ["pratyaksha"; "sabda"]. split; [simpl; tauto | reflexivity].
    + exists ["pratyaksha"; "anumana"]. split; [simpl; tauto | reflexivity].
    + exists ["sabda"; "anumana"]. split; [simpl; tauto | reflexivity].
    + exists ["pratyaksha"; "sabda"]. split; [simpl; tauto | reflexivity].
    + exists ["sabda"; "anumana"]. split; [simpl; tauto | reflexivity].
Qed.

Lemma similarity_levels_differ :
  0.9%float <> 0.6%float /\ 0.9%float <> 0.3%float /\ 0.6%float <> 0.3%float.
Proof.
  split; [|split]; intros H.
  - apply (f_equal (fun x => PrimFloat.ltb x 0.7%float)) in H.
    vm_compute in H. discriminate H.
  - apply (f_equal (fun x => PrimFloat.ltb x 0.7%float)) in H.
    vm_compute in H. discriminate H.
  - apply (f_equal (fun x => PrimFloat.ltb x 0.5%float)) in H.
    vm_compute in H. discriminate H.
Qed.

Lemma levels_three_way (v : float) (C1 C2 : Prop) :
  (v = 0.9%float /\ C1 /\ ~ C2)
  \/ (v = 0.6%float /\ ~ C1 /\ C2)
  \/ (v = 0.3%float /\ ~ C1 /\ ~ C2) ->
  (v = 0.9%float <-> C1)
  /\ (v = 0.6%float <-> C2)
  /\ (v = 0.3%float <-> ~ C1 /\ ~ C2).
Proof.
  destruct similarity_levels_differ as [H96 [H93 H63]].
  intros [[-> [H1 H2]] | [[-> [H1 H2]] | [-> [H1 H2]]]].
  - split; [tauto|]. split; split; try tauto; intros H; exfalso; auto.
  - split; [|split]; split; try tauto; intros H; exfalso; auto.
  - split; [|split]; split; try tauto; intros H; exfalso; auto.
Qed.

(** X5. The similarity of sources is 0.9 exactly when the two dominant
    sources are the same non-empty source; it is 0.6 exactly when they
    are two different sources among [pratyaksha], [anumana] and [sabda];
    it is 0.3 in every other case, so [upamana] is similar to itself
    only. *)
Theorem X5_similarity_of_sources (a b : analysis) :
  let pa := dominant_pramana (pramana a) in
  let pb := dominant_pramana (pramana b) in
  (_compare_pramana a b = 0.9%float <-> pa <> "" /\ pa = pb)
  /\ (_compare_pramana a b = 0.6%float
      <-> pa <> pb /\ In pa compatible_sources /\ In pb compatible_sources)
  /\ (_compare_pramana a b = 0.3%float
      <-> ~ (pa <> "" /\ pa = pb)
          /\ ~ (pa <> pb /\ In pa compatible_sources /\ In pb compatible_sources)).
Proof.
  intros pa pb. apply levels_three_way.
  unfold _compare_pramana. fold pa pb.
  assert (Hcore : forall p, In p compatible_sources -> p <> "").
  { intros p Hp ->. simpl in Hp. intuition discriminate. }
  destruct (String.eqb_spec pa "") as [Ea | Na]; simpl orb.
  { right. right. split; [reflexivity|]. split; [tauto|].
    intros [_ [Hin _]]. apply (Hcore pa Hin Ea). }
  destruct (String.eqb_spec pb "") as [Eb | Nb]; simpl orb.
  { right. right. split; [reflexivity|]. split; [intros [_ Heq]; congruence|].
    intros [_ [_ Hin]]. apply (Hcore pb Hin Eb). }
  destruct (String.eqb_spec pa pb) as [E | N].
  { left. split; [reflexivity|]. tauto. }
  pose proof (compatible_pairs_spec pa pb N) as Hc.
  destruct (existsb (fun pair => set_eqb [pa; pb] pair) compatible_pairs).
  - right. left. split; [reflexivity|]. split; [tauto|].
    split; [assumption|]. apply Hc. reflexivity.
  - right. right. split; [reflexivity|]. split; [tauto|].
    intros [_ Hin]. apply Hc in Hin. discriminate Hin.
Qed.

(** ** detect_agreements: the order of the agreements *)

(** The stable sort on a list whose elements all satisfy [P], the
    comparison being an order on these elements only. *)
Section SortedByOn.

Context {A : Type} (before : A -> A -> bool) (P : A -> Prop).
Variables R : A -> A -> Prop.
Hypothesis before_R : forall x y, P x -> P y -> before y x = true -> R y x.
Hypothesis tie_R : forall x y, P x -> P y -> before y x = false -> R x y.
Hypothesis carry_R :
  forall x y z, P x -> P y -> P z -> before y x = false -> R y z -> R x z.

Lemma insert_by_sorted_on (x : A) (l : list A) :
  P x -> Forall P l -> StronglySorted R l ->
  StronglySorted R (insert_by before x l).
Proof.
  intros Px. induction l as [|y l IH]; intros Pl Hs; simpl.
  - constructor; constructor.
  - inversion Hs as [|? ? Hs' Hy]; subst.
    inversion Pl as [|? ? Py Pl']; subst.
    destruct (before y x) eqn:E.
    + constructor; [apply IH; assumption|].
      apply (Forall_perm _ (x :: l)).
      * symmetry. apply insert_by_perm.
      * constructor; [apply before_R; assumption | assumption].
    + constructor; [assumption|].
      constructor; [apply tie_R; assumption|].
      rewrite Forall_forall in *. intros z Hz.
      apply (carry_R x y z); auto.
Qed.

Lemma sorted_by_sorted_on (l : list A) :
  Forall P l -> StronglySorted R (sorted_by before l).
Proof.
  induction l as [|x l IH]; intros Pl; simpl; [constructor|].
  inversion Pl as [|? ? Px Pl']; subst.
  apply insert_by_sorted_on; [assumption | | apply IH; assumption].
  apply (Forall_perm _ l); [|assumption].
  symmetry. apply sorted_by_perm.
Qed.

End SortedByOn.

(** On the possible strengths the comparisons of floats are those of an
    order, and no strength is above 1. *)
Lemma possible_strengths_ordered :
  forall x y z,
    In x possible_strengths -> In y possible_strengths -> In z possible_strengths ->
    ((x <? y)%float = true -> (x <=? y)%float = true)
    /\ ((x <? y)%float = false -> (y <=? x)%float = true)
    /\ ((x <? y)%float = false -> (z <=? y)%float = true -> (z <=? x)%float = true)
    /\ (x <=? 1)%float = true.
Proof.
  assert (H : forallb
                (fun x =>
                   forallb
                     (fun y =>
                        forallb
                          (fun z =>
                             implb (x <? y)%float (x <=? y)%float
                             && implb (negb (x <? y)%float) (y <=? x)%float
                             && implb (negb (x <? y)%float && (z <=? y)%float)
                                  (z <=? x)%float
                             && (x <=? 1)%float)
                          possible_strengths)
                     possible_strengths)
                possible_strengths = true) by (vm_compute; reflexivity).
  intros x y z Hx Hy Hz.
  rewrite forallb_forall in H. specialize (H x Hx).
  rewrite forallb_forall in H. specialize (H y Hy).
  rewrite forallb_forall in H. specialize (H z Hz).
  destruct (x <? y)%float, (x <=? y)%float, (y <=? x)%float, (z <=? y)%float,
    (z <=? x)%float, (x <=? 1)%float; simpl in H; try discriminate H;
    repeat split; intros; try reflexivity; discriminate.
Qed.

Lemma agreement_of_strength_possible (order : set_order)
  (pa : string) (a : analysis) (pb : string) (b : analysis) :
  In (agreement_strength (agreement_of order pa a pb b)) possible_strengths.
Proof.
  cbn [agreement_of agreement_strength].
  pose proof (find_shared_values_length order a b) as Hlen.
  rewrite (strength_by_length (_find_shared_values order a b)
             (repeat "" (List.length (_find_shared_values order a b))))
    by (symmetry; apply repeat_length).
  remember (List.length (_find_shared_values order a b)) as n eqn:En. clear En.
  destruct (compare_pramana_range a b) as [-> | [-> | ->]];
    destruct (compare_reasoning_range a b) as [-> | [-> | ->]];
    do 6 (destruct n as [|n];
          [vm_compute; repeat (first [left; reflexivity | right])|]);
    lia.
Qed.

(** X6. The agreements that [detect_agreements] returns come by
    non-increasing strength: no agreement is followed, anywhere later in
    the list, by a stronger one; and no strength is above 1. *)
Theorem X6_agreements_by_strength (order : set_order) (analyses : dict analysis) :
  exists agreements : list agreement,
    detect_agreements order analyses = Ok agreements
    /\ StronglySorted not_weaker agreements
    /\ Forall (fun g => (agreement_strength g <=? 1)%float = true) agreements.
Proof.
  destruct (detect_agreements_outcome order analyses) as [items [_ E]].
  eexists. split; [exact E|].
  set (built := map (agreement_of_items order) (combinations2 items)).
  assert (Hposs : Forall (fun g => In (agreement_strength g) possible_strengths)
                    built).
  { apply Forall_forall. intros g Hg. apply in_map_iff in Hg.
    destruct Hg as [[[pa a] [pb b]] [<- _]].
    apply agreement_of_strength_possible. }
  split.
  - apply (sorted_by_sorted_on by_strength_desc
             (fun g => In (agreement_strength g) possible_strengths));
      [| | |assumption]; unfold by_strength_desc, not_weaker.
    + intros x y Hx Hy H.
      apply (possible_strengths_ordered _ _ _ Hx Hy Hx). assumption.
    + intros x y Hx Hy H.
      apply (possible_strengths_ordered _ _ _ Hx Hy Hx). assumption.
    + intros x y z Hx Hy Hz H Hyz.
      apply (possible_strengths_ordered _ _ _ Hx Hy Hz); assumption.
  - apply (Forall_perm _ built); [symmetry; apply sorted_by_perm|].
    apply Forall_forall. intros g Hg. rewrite Forall_forall in Hposs.
    pose proof (Hposs g Hg) as Hin.
    apply (possible_strengths_ordered _ _ _ Hin Hin Hin).
Qed.

(** ** detect_agreements: the pairs *)

Lemma agreement_of_items_names (order : set_order)
  (pairs : list ((string * analysis) * (string * analysis))) :
  map names_of (map (agreement_of_items order) pairs)
  = map (fun p => (fst (fst p), fst (snd p))) pairs.
Proof. rewrite map_map. apply map_ext. intros [[pa a] [pb b]]. reflexivity. Qed.

(** X7. The pairs of names of the agreements that [detect_agreements]
    returns are the pairs of [combinations(speakers, 2)], in another
    order, and every agreement is computed from the profiles that the
    mapping holds under its two names. *)
Theorem X7_agreements_cover_the_pairs (order : set_order) (analyses : dict analysis) :
  exists agreements : list agreement,
    detect_agreements order analyses = Ok agreements
    /\ Permutation (map names_of agreements) (combinations2 (dict_keys analyses))
    /\ Forall
         (fun g =>
            exists a b : analysis,
              dict_get analyses (person_a g) = Some a
              /\ dict_get analyses (person_b g) = Some b
              /\ g = agreement_of order (person_a g) a (person_b g) b)
         agreements.
Proof.
  destruct (dict_resolved analyses) as [items [K F]].
  eexists. split; [apply (detect_agreements_resolved order analyses items K F)|].
  split.
  - rewrite (Permutation_map names_of (sorted_by_perm by_strength_desc _)).
    rewrite agreement_of_items_names, <- K, combinations2_map. reflexivity.
  - apply (Forall_perm _ (map (agreement_of_items order) (combinations2 items)));
      [symmetry; apply sorted_by_perm|].
    apply Forall_forall. intros g Hg. apply in_map_iff in Hg.
    destruct Hg as [[[pa a] [pb b]] [<- Hin]].
    apply combinations2_in in Hin. destruct Hin as [Ha Hb].
    rewrite Forall_forall in F.
    exists a, b. split; [apply (F _ Ha)|]. split; [apply (F _ Hb) | reflexivity].
Qed.




(** ** The recommendation on many agreements *)

Lemma general_recommendation_not_strongest (g : agreement) :
  general_recommendation <> strongest_recommendation g.
Proof.
  unfold general_recommendation, strongest_recommendation, fstr.
  cbn [String.concat]. simpl. discriminate.
Qed.

Lemma general_recommendation_not_shared (listed : list string) :
  general_recommendation <> shared_values_recommendation listed.
Proof.
  unfold general_recommendation, shared_values_recommendation, fstr.
  cbn [String.concat]. simpl. discriminate.
Qed.

Lemma general_recommendation_iff (order : set_order) (agreements : list agreement) :
  In general_recommendation (generate_dialogue_recommendations order agreements)
  <-> 3 < List.length agreements.
Proof.
  destruct agreements as [|strongest rest].
  - cbn [generate_dialogue_recommendations List.length]. split; [|lia].
    unfold fallback_recommendations, general_recommendation. simpl.
    intros [H | [H | [H | []]]]; discriminate H.
  - unfold generate_dialogue_recommendations.
    set (agreements := strongest :: rest). cbv zeta.
    destruct (0.6 <? agreement_strength strongest)%float;
      destruct (3 <=? set_len (flat_map shared_values agreements));
      destruct (0 <? List.length (filter high_pramana agreements));
      destruct (Nat.ltb_spec 3 (List.length agreements));
      cbn [app In];
      (split; [|intros; tauto || lia]);
      try (intros _; assumption);
      intros Hin;
      repeat (destruct Hin as [Hin | Hin];
              [ first [ exfalso; symmetry in Hin;
                        first [ exact (general_recommendation_not_strongest _ Hin)
                              | exact (general_recommendation_not_shared _ Hin) ]
                      | exfalso;
                        exact (pramana_recommendation_not_general _ Hin) ] |]);
      try contradiction; try lia.
Qed.

(** X9. The recommendation on multiple hidden agreements is given exactly
    when the dialogue has four speakers or more: with two or three
    speakers [detect_agreements] returns at most three agreements, with
    four at least six. *)
Theorem X9_general_recommendation_needs_four_speakers
  (order : set_order) (analyses : dict analysis) :
  exists agreements : list agreement,
    detect_agreements order analyses = Ok agreements
    /\ (In general_recommendation (generate_dialogue_recommendations order agreements)
        <-> 4 <= List.length (dict_keys analyses)).
Proof.
  destruct (detect_agreements_outcome order analyses) as [items [K E]].
  eexists. split; [exact E|].
  rewrite general_recommendation_iff, sorted_by_length, length_map.
  pose proof (combinations2_double_length items) as Hd.
  rewrite <- K, length_map.
  remember (List.length items) as n. remember (List.length (combinations2 items)) as m.
  clear -Hd. split; intros H.
  - destruct n as [|[|[|[|n]]]]; simpl in Hd; lia.
  - destruct n as [|[|[|[|n]]]]; simpl in Hd; first [lia | nia].
Qed.

(** ** analyze_dialogue: narratives without a speaker or a text *)

Lemma dict_get_none_not_in {V : Type} (d : dict V) (k : string) :
  dict_get d k = None -> ~ In k (dict_keys d).
Proof.
  intros Hnone Hin. destruct (dict_get_in_keys d k Hin) as [v Hv]. congruence.
Qed.






(** ** analyze_dialogue: one entry for each speaker *)

Lemma dict_get_setitem {V : Type} (d : dict V) (k : string) (v : V) (s : string) :
  dict_get (setitem d k v) s = if String.eqb k s then Some v else dict_get d s.
Proof.
  induction d as [|[k' v'] d IH]; simpl.
  - reflexivity.
  - destruct (String.eqb_spec k' k) as [-> | N]; simpl.
    + destruct (String.eqb k s); reflexivity.
    + destruct (String.eqb_spec k' s) as [-> | N'].
      * destruct (String.eqb_spec k s); [congruence | reflexivity].
      * apply IH.
Qed.

Lemma first_seen_In (l : list string) (x : string) :
  In x (first_seen l) <-> In x l.
Proof.
  induction l as [|y l IH]; simpl; [tauto|].
  rewrite filter_In, IH, negb_true_iff, String.eqb_neq.
  destruct (string_dec y x); intuition.
Qed.

Lemma first_seen_snoc (l : list string) (x : string) :
  first_seen (l ++ [x]) = if mem x l then first_seen l else first_seen l ++ [x].
Proof.
  induction l as [|y l IH]; simpl; [reflexivity|].
  rewrite IH. unfold mem. simpl. fold (mem x l).
  rewrite (String.eqb_sym x y).
  destruct (mem x l); simpl.
  - rewrite orb_true_r. reflexivity.
  - rewrite orb_false_r, filter_app. simpl.
    destruct (String.eqb y x); simpl; [rewrite app_nil_r|]; reflexivity.
Qed.

Lemma first_seen_NoDup (l : list string) : NoDup (first_seen l).
Proof.
  induction l as [|y l IH]; simpl; constructor.
  - rewrite filter_In, negb_true_iff, String.eqb_neq. tauto.
  - apply NoDup_filter. assumption.
Qed.

Lemma first_seen_length (l : list string) :
  List.length (first_seen l) = set_len l.
Proof.
  unfold set_len. apply Permutation_length.
  apply NoDup_Permutation; [apply first_seen_NoDup | apply NoDup_nodup|].
  intros x. rewrite first_seen_In, nodup_In. reflexivity.
Qed.

Lemma last_of_snoc (l : list SAMVADAnalyzer.narrative) (n : SAMVADAnalyzer.narrative)
  (s : string) :
  last_of (l ++ [n]) s = if String.eqb (speaker_of n) s then Some n else last_of l s.
Proof.
  induction l as [|m l IH]; simpl.
  - reflexivity.
  - rewrite IH. destruct (String.eqb (speaker_of n) s); [reflexivity|].
    reflexivity.
Qed.

Lemma analyze_narrative_entry (d : dict analysis) (n : SAMVADAnalyzer.narrative)
  (speaker text0 : string) :
  dict_get n "speaker" = Some speaker ->
  dict_get n "text" = Some text0 ->
  exists a,
    SAMVADAnalyzer.analyze_narrative d n = Ok (setitem d speaker a)
    /\ text a = text0
    /\ derived_from_text a.
Proof.
  intros Hs Ht. unfold SAMVADAnalyzer.analyze_narrative, getitem.
  rewrite Hs, Ht. cbn [bind].
  destruct (classify_pramana_outcome text0) as [p [_ [Ep _]]].
  destruct (extract_values_outcome text0) as [sc [_ Ev]].
  destruct (analyze_reasoning_total text0) as [r Er].
  rewrite Ep, Ev, Er. cbn [bind].
  eexists. split; [reflexivity|]. split; [reflexivity|].
  unfold derived_from_text. cbn [text pramana values reasoning]. auto.
Qed.

Lemma analyze_loop_analyses (narratives : list SAMVADAnalyzer.narrative) :
  forall (processed : list SAMVADAnalyzer.narrative) (d : dict analysis),
    Forall well_formed narratives ->
    analyses_of processed d ->
    exists d',
      for_each SAMVADAnalyzer.analyze_narrative narratives d = Ok d'
      /\ analyses_of (processed ++ narratives) d'.
Proof.
  induction narratives as [|n ns IH]; intros processed d Hwf Hinv.
  - exists d. rewrite app_nil_r. split; [reflexivity | assumption].
  - inversion Hwf as [|? ? [Hs Ht] Hwf']; subst.
    destruct (dict_get_in_keys n "speaker" Hs) as [speaker Es].
    destruct (dict_get_in_keys n "text" Ht) as [text0 Et].
    destruct (analyze_narrative_entry d n speaker text0 Es Et)
      as [a [E [Htext Hder]]].
    assert (Hspeaker : speaker_of n = speaker)
      by (unfold speaker_of, get_default; rewrite Es; reflexivity).
    cbn [for_each]. rewrite E. cbn [bind].
    replace (processed ++ n :: ns) with ((processed ++ [n]) ++ ns)
      by (rewrite <- app_assoc; reflexivity).
    apply IH; [assumption|].
    destruct Hinv as [Hkeys Hentries]. split.
    + rewrite map_app. simpl. rewrite first_seen_snoc, Hspeaker.
      destruct (mem speaker (map speaker_of processed)) eqn:Hmem.
      * rewrite setitem_keys_present; [assumption|].
        rewrite Hkeys. apply first_seen_In, mem_In. assumption.
      * rewrite setitem_keys_absent; [rewrite Hkeys; reflexivity|].
        rewrite Hkeys, first_seen_In. intros Hin. apply mem_In in Hin. congruence.
    + intros s. unfold entry_of_last.
      rewrite dict_get_setitem, last_of_snoc, Hspeaker.
      destruct (String.eqb speaker s).
      * exists n. rewrite Htext. auto.
      * apply Hentries.
Qed.

(** X11. On narratives that have a speaker and a text,
    [analyze_dialogue] keeps one entry for each speaker, in the order in
    which the speakers first appear; the entry of a speaker is derived
    from the text of that speaker's last narrative (a later narrative of
    the same speaker replaces the earlier one), and its three profiles
    are those of the three analyses of the text it stores. *)
Theorem X11_one_entry_for_each_speaker (order : set_order)
  (narratives : list SAMVADAnalyzer.narrative) :
  Forall well_formed narratives ->
  exists r : SAMVADAnalyzer.results,
    SAMVADAnalyzer.analyze_dialogue order narratives = Ok r
    /\ dict_keys (SAMVADAnalyzer.individual_analyses r)
       = first_seen (map speaker_of narratives)
    /\ (forall speaker a,
          dict_get (SAMVADAnalyzer.individual_analyses r) speaker = Some a ->
          exists n,
            last_of narratives speaker = Some n
            /\ dict_get n "text" = Some (text a)
            /\ derived_from_text a)
    /\ SAMVADAnalyzer.narratives r = narratives.
Proof.
  intros Hwf. unfold SAMVADAnalyzer.analyze_dialogue.
  destruct (analyze_loop_analyses narratives [] [] Hwf) as [d [E [Hkeys Hentries]]].
  { split; [reflexivity | intros s; reflexivity]. }
  rewrite E. cbn [bind].
  destruct (detect_agreements_outcome order d) as [items [_ ->]]. cbn [bind].
  eexists. split; [reflexivity|].
  cbn [SAMVADAnalyzer.individual_analyses SAMVADAnalyzer.narratives].
  split; [assumption|]. split; [|reflexivity].
  intros speaker a Hget. specialize (Hentries speaker).
  unfold entry_of_last in Hentries. simpl app in Hentries.
  rewrite Hget in Hentries. assumption.
Qed.

(** X11 at the dialogue in which one speaker speaks twice. *)
Lemma X11_one_entry_for_each_speaker_witness :
  exists r : SAMVADAnalyzer.results,
    SAMVADAnalyzer.analyze_dialogue order_fwd repeated_speaker_dialogue = Ok r
    /\ dict_keys (SAMVADAnalyzer.individual_analyses r)
       = first_seen (map speaker_of repeated_speaker_dialogue)
    /\ (forall speaker a,
          dict_get (SAMVADAnalyzer.individual_analyses r) speaker = Some a ->
          exists n,
            last_of repeated_speaker_dialogue speaker = Some n
            /\ dict_get n "text" = Some (text a)
            /\ derived_from_text a)
    /\ SAMVADAnalyzer.narratives r = repeated_speaker_dialogue.
Proof.
  apply (X11_one_entry_for_each_speaker order_fwd repeated_speaker_dialogue).
  repeat constructor; simpl; tauto.
Defined.

Lemma analyze_dialogue_counts (order : set_order)
  (narratives : list SAMVADAnalyzer.narrative) :
  Forall well_formed narratives ->
  exists r : SAMVADAnalyzer.results,
    SAMVADAnalyzer.analyze_dialogue order narratives = Ok r
    /\ List.length (SAMVADAnalyzer.individual_analyses r)
       = distinct_speakers narratives
    /\ List.length (SAMVADAnalyzer.hidden_agreements r)
       = distinct_speakers narratives * (distinct_speakers narratives - 1) / 2.
Proof.
  intros Hwf. unfold SAMVADAnalyzer.analyze_dialogue.
  destruct (analyze_loop_analyses narratives [] [] Hwf) as [d [E [Hkeys _]]].
  { split; [reflexivity | intros s; reflexivity]. }
  rewrite E. cbn [bind].
  destruct (detect_agreements_outcome order d) as [items [K ->]]. cbn [bind].
  eexists. split; [reflexivity|].
  cbn [SAMVADAnalyzer.individual_analyses SAMVADAnalyzer.hidden_agreements].
  assert (Hd : List.length d = distinct_speakers narratives).
  { rewrite <- (length_map fst d). fold (dict_keys d). rewrite Hkeys.
    simpl app. apply first_seen_length. }
  split; [assumption|].
  rewrite sorted_by_length, length_map, combinations2_length.
  rewrite <- (length_map fst items), K. unfold dict_keys.
  rewrite length_map, Hd. reflexivity.
Qed.

(** X12. On narratives that have a speaker and a text, the result holds
    one analysis for each distinct speaker and one agreement for each
    pair of distinct speakers: d * (d - 1) / 2 agreements for d distinct
    speakers, d being at most the number of narratives. *)
Theorem X12_agreements_of_distinct_speakers (order : set_order)
  (narratives : list SAMVADAnalyzer.narrative) :
  Forall well_formed narratives ->
  exists r : SAMVADAnalyzer.results,
    SAMVADAnalyzer.analyze_dialogue order narratives = Ok r
    /\ List.length (SAMVADAnalyzer.individual_analyses r)
       = distinct_speakers narratives
    /\ List.length (SAMVADAnalyzer.hidden_agreements r)
       = distinct_speakers narratives * (distinct_speakers narratives - 1) / 2
    /\ distinct_speakers narratives <= List.length narratives.
Proof.
  intros Hwf.
  destruct (analyze_dialogue_counts order narratives Hwf) as [r [E [Ha Hh]]].
  exists r. split; [assumption|]. split; [assumption|]. split; [assumption|].
  unfold distinct_speakers, set_len.
  rewrite <- (length_map speaker_of narratives).
  apply NoDup_incl_length; [apply NoDup_nodup|].
  intros x Hx. apply nodup_In in Hx. assumption.
Qed.

(** X12 at the dialogue in which one speaker speaks twice. *)
Lemma X12_agreements_of_distinct_speakers_witness :
  exists r : SAMVADAnalyzer.results,
    SAMVADAnalyzer.analyze_dialogue order_fwd repeated_speaker_dialogue = Ok r
    /\ List.length (SAMVADAnalyzer.individual_analyses r)
       = distinct_speakers repeated_speaker_dialogue
    /\ List.length (SAMVADAnalyzer.hidden_agreements r)
       = distinct_speakers repeated_speaker_dialogue
         * (distinct_speakers repeated_speaker_dialogue - 1) / 2
    /\ distinct_speakers repeated_speaker_dialogue
       <= List.length repeated_speaker_dialogue.
Proof.
  apply (X12_agreements_of_distinct_speakers order_fwd repeated_speaker_dialogue).
  repeat constructor; simpl; tauto.
Defined.

(** ** generate_report: the positions *)

(** A loop whose body, at each element, either goes on whatever the
    accumulator or raises one given exception whatever the accumulator. *)
Lemma for_each_cases {A B : Type} (f : A -> B -> result A)
  (good bad : B -> Prop) (e0 : exn) (l : list B) :
  (forall x, In x l ->
     (good x /\ forall acc, exists acc', f acc x = Ok acc')
     \/ (bad x /\ forall acc, f acc x = Raise e0)) ->
  forall acc,
    match for_each f l acc with
    | Ok _ => Forall good l
    | Raise e => e = e0 /\ Exists bad l
    end.
Proof.
  induction l as [|x l IH]; intros Hstep acc; simpl; [constructor|].
  destruct (Hstep x (or_introl eq_refl)) as [[Hg Hok] | [Hb Hraise]].
  - destruct (Hok acc) as [acc' ->]. simpl.
    assert (Hstep' : forall y, In y l ->
               (good y /\ forall acc, exists acc', f acc y = Ok acc')
               \/ (bad y /\ forall acc, f acc y = Raise e0))
      by (intros y Hy; apply Hstep; right; assumption).
    specialize (IH Hstep' acc').
    destruct (for_each f l acc') as [r|e].
    + constructor; assumption.
    + destruct IH as [-> Hex]. split; [reflexivity|]. apply Exists_cons_tl, Hex.
  - rewrite Hraise. simpl. split; [reflexivity|]. apply Exists_cons_hd, Hb.
Qed.

Lemma speaker_of_well_formed (n : SAMVADAnalyzer.narrative) :
  well_formed n -> getitem n "speaker" = Ok (speaker_of n).
Proof.
  intros [Hs _]. destruct (dict_get_in_keys n "speaker" Hs) as [s Es].
  unfold getitem, speaker_of, get_default. rewrite Es. reflexivity.
Qed.

(** The position that the report shows for a speaker is that of the
    speaker's first narrative. *)
Lemma find_position_first (narratives : list SAMVADAnalyzer.narrative)
  (speaker : string) :
  Forall well_formed narratives ->
  SAMVADAnalyzer.find_position narratives speaker
  = match first_of narratives speaker with
    | Some n => getitem n "position"
    | None => Ok "N/A"
    end.
Proof.
  induction 1 as [|n ns Hn _ IH]; simpl; [reflexivity|].
  rewrite (speaker_of_well_formed n Hn). cbn [bind].
  destruct (String.eqb (speaker_of n) speaker); [reflexivity | assumption].
Qed.

Lemma speaker_lines_cases (r : SAMVADAnalyzer.results) (item : string * analysis) :
  Forall well_formed (SAMVADAnalyzer.narratives r) ->
  ((forall n, first_of (SAMVADAnalyzer.narratives r) (fst item) = Some n ->
              In "position" (dict_keys n))
   /\ forall report, exists report',
        SAMVADAnalyzer.speaker_lines r report item = Ok report')
  \/ ((exists n, first_of (SAMVADAnalyzer.narratives r) (fst item) = Some n
                 /\ ~ In "position" (dict_keys n))
      /\ forall report,
           SAMVADAnalyzer.speaker_lines r report item = Raise (KeyError "position")).
Proof.
  intros Hwf. destruct item as [s a]. unfold SAMVADAnalyzer.speaker_lines.
  rewrite (find_position_first _ s Hwf). cbn [fst].
  destruct (first_of (SAMVADAnalyzer.narratives r) s) as [m|] eqn:Ef.
  - unfold getitem. destruct (dict_get m "position") as [p|] eqn:Ep.
    + left. split.
      * intros n' Hn'. injection Hn' as <-.
        apply (dict_get_some_in m) in Ep.
        change (In (fst ("position", p)) (map fst m)). apply in_map, Ep.
      * intros acc. cbn [bind]. eauto.
    + right. split.
      * exists m. split; [reflexivity|].
        apply (dict_get_none_not_in m "position" Ep).
      * intros acc. reflexivity.
  - left. split; [discriminate|]. intros acc. cbn [bind]. eauto.
Qed.

Lemma generate_report_cases (order : set_order) (r : SAMVADAnalyzer.results) :
  Forall well_formed (SAMVADAnalyzer.narratives r) ->
  match SAMVADAnalyzer.generate_report order r with
  | Ok _ =>
      forall speaker n,
        In speaker (dict_keys (SAMVADAnalyzer.individual_analyses r)) ->
        first_of (SAMVADAnalyzer.narratives r) speaker = Some n ->
        In "position" (dict_keys n)
  | Raise e =>
      e = KeyError "position"
      /\ exists speaker n,
           In speaker (dict_keys (SAMVADAnalyzer.individual_analyses r))
           /\ first_of (SAMVADAnalyzer.narratives r) speaker = Some n
           /\ ~ In "position" (dict_keys n)
  end.
Proof.
  intros Hwf. unfold SAMVADAnalyzer.generate_report.
  match goal with
  | |- context [for_each ?f ?l ?acc] =>
      pose proof (for_each_cases f _ _ (KeyError "position") l
                    (fun item _ => speaker_lines_cases r item Hwf) acc) as Hcases;
      revert Hcases; destruct (for_each f l acc) as [report|e]; intros Hcases
  end; cbn [bind].
  - intros speaker n Hin Hfirst. rewrite Forall_forall in Hcases.
    unfold dict_keys in Hin. apply in_map_iff in Hin.
    destruct Hin as [[s a] [<- Hitem]]. apply (Hcases (s, a) Hitem n Hfirst).
  - destruct Hcases as [-> Hex]. split; [reflexivity|].
    apply Exists_exists in Hex. destruct Hex as [[s a] [Hitem [n [Hfirst Hno]]]].
    exists s, n. split; [|split; assumption].
    change (In (fst (s, a)) (map fst (SAMVADAnalyzer.individual_analyses r))).
    apply in_map. assumption.
Qed.

Lemma first_of_some (narratives : list SAMVADAnalyzer.narrative) (speaker : string)
  (n : SAMVADAnalyzer.narrative) :
  first_of narratives speaker = Some n -> In n narratives /\ speaker_of n = speaker.
Proof.
  induction narratives as [|m ns IH]; simpl; [discriminate|].
  destruct (String.eqb_spec (speaker_of m) speaker) as [E | N].
  - intros H. injection H as <-. tauto.
  - intros H. destruct (IH H). tauto.
Qed.

(** The two calls, on narratives that have a speaker and a text: the
    analysis succeeds, and the report fails exactly on a speaker whose
    first narrative has no position. *)
Lemma run_cases (order : set_order) (narratives : list SAMVADAnalyzer.narrative) :
  Forall well_formed narratives ->
  match SAMVADAnalyzer.run order narratives with
  | Ok (r, _) =>
      SAMVADAnalyzer.analyze_dialogue order narratives = Ok r
      /\ forall speaker n,
           first_of narratives speaker = Some n -> In "position" (dict_keys n)
  | Raise e =>
      e = KeyError "position"
      /\ exists speaker n,
           first_of narratives speaker = Some n /\ ~ In "position" (dict_keys n)
  end.
Proof.
  intros Hwf. unfold SAMVADAnalyzer.run, SAMVADAnalyzer.analyze_dialogue.
  destruct (analyze_loop_analyses narratives [] [] Hwf) as [d [E [Hkeys _]]].
  { split; [reflexivity | intros s; reflexivity]. }
  rewrite E. cbn [bind].
  destruct (detect_agreements_outcome order d) as [items [_ ->]]. cbn [bind].
  match goal with
  | |- context [SAMVADAnalyzer.generate_report order ?r] =>
      pose proof (generate_report_cases order r Hwf) as Hcases;
      revert Hcases;
      destruct (SAMVADAnalyzer.generate_report order r) as [report|e];
      intros Hcases
  end; cbn [bind SAMVADAnalyzer.individual_analyses SAMVADAnalyzer.narratives]
         in Hcases |- *.
  - split; [reflexivity|]. intros speaker n Hfirst.
    apply (Hcases speaker n); [|assumption].
    rewrite Hkeys. simpl app. apply first_seen_In.
    destruct (first_of_some _ _ _ Hfirst) as [Hin <-].
    apply in_map. assumption.
  - destruct Hcases as [-> [speaker [n [_ [Hfirst Hno]]]]].
    split; [reflexivity|]. eauto.
Qed.

(** X13. On narratives that have a speaker and a text, the analysis
    followed by the report returns exactly when the first narrative of
    every speaker has a position, the position that the report shows;
    otherwise the report raises the [KeyError] of ['position'], and
    nothing else. *)
Theorem X13_report_reads_first_positions (order : set_order)
  (narratives : list SAMVADAnalyzer.narrative) :
  Forall well_formed narratives ->
  match SAMVADAnalyzer.run order narratives with
  | Ok _ =>
      forall speaker n,
        first_of narratives speaker = Some n -> In "position" (dict_keys n)
  | Raise e =>
      e = KeyError "position"
      /\ exists speaker n,
           first_of narratives speaker = Some n /\ ~ In "position" (dict_keys n)
  end.
Proof.
  intros Hwf. pose proof (run_cases order narratives Hwf) as H.
  destruct (SAMVADAnalyzer.run order narratives) as [[r report]|e];
    [apply H | exact H].
Qed.

(** X13 at the dialogue whose second narrative has no position. *)
Lemma X13_report_reads_first_positions_witness :
  match SAMVADAnalyzer.run order_fwd no_position_dialogue with
  | Ok _ =>
      forall speaker n,
        first_of no_position_dialogue speaker = Some n -> In "position" (dict_keys n)
  | Raise e =>
      e = KeyError "position"
      /\ exists speaker n,
           first_of no_position_dialogue speaker = Some n
           /\ ~ In "position" (dict_keys n)
  end.
Proof.
  apply (X13_report_reads_first_positions order_fwd no_position_dialogue).
  repeat constructor; simpl; tauto.
Defined.

Lemma complete_run (order : set_order) (narratives : list SAMVADAnalyzer.narrative) :
  Forall complete narratives ->
  exists (r : SAMVADAnalyzer.results) (report : string),
    SAMVADAnalyzer.run order narratives = Ok (r, report)
    /\ SAMVADAnalyzer.analyze_dialogue order narratives = Ok r
    /\ SAMVADAnalyzer.generate_report order r = Ok report.
Proof.
  intros Hc.
  assert (Hwf : Forall well_formed narratives).
  { apply Forall_forall. intros n Hn. rewrite Forall_forall in Hc.
    apply (Hc n Hn). }
  pose proof (run_cases order narratives Hwf) as H.
  destruct (SAMVADAnalyzer.run order narratives) as [[r report]|e] eqn:E.
  - exists r, report. destruct H as [Ha _]. split; [reflexivity|].
    split; [assumption|].
    unfold SAMVADAnalyzer.run in E. rewrite Ha in E. cbn [bind] in E.
    destruct (SAMVADAnalyzer.generate_report order r); [|discriminate E].
    cbn [bind] in E. injection E as ->. reflexivity.
  - exfalso. destruct H as [_ [speaker [n [Hfirst Hno]]]].
    apply Hno. destruct (first_of_some _ _ _ Hfirst) as [Hin _].
    rewrite Forall_forall in Hc. apply (Hc n Hin).
Qed.

(** X14. On narratives that have a speaker, a text and a position, as
    the page sends them, neither the analysis nor the report raises:
    the two calls return a result and a report. *)
Theorem X14_complete_narratives_never_raise (order : set_order)
  (narratives : list SAMVADAnalyzer.narrative) :
  Forall complete narratives ->
  exists (r : SAMVADAnalyzer.results) (report : string),
    SAMVADAnalyzer.run order narratives = Ok (r, report)
    /\ SAMVADAnalyzer.analyze_dialogue order narratives = Ok r
    /\ SAMVADAnalyzer.generate_report order r = Ok report.
Proof.
  intros Hc. destruct (complete_run order narratives Hc) as [r [report H]].
  exists r, report. exact H.
Qed.

(** X14 at the dialogue in which one speaker speaks twice. *)
Lemma X14_complete_narratives_never_raise_witness :
  exists (r : SAMVADAnalyzer.results) (report : string),
    SAMVADAnalyzer.run order_fwd repeated_speaker_dialogue = Ok (r, report)
    /\ SAMVADAnalyzer.analyze_dialogue order_fwd repeated_speaker_dialogue = Ok r
    /\ SAMVADAnalyzer.generate_report order_fwd r = Ok report.
Proof.
  apply (X14_complete_narratives_never_raise order_fwd repeated_speaker_dialogue).
  repeat constructor; simpl; tauto.
Defined.

(** ** The narratives of a transcript *)

Lemma split_list_no_separator (sep : ascii) (s : list ascii) :
  Forall (fun piece => ~ In sep piece) (split_list sep s).
Proof.
  induction s as [|c s IH]; simpl.
  - constructor; [intros [] | constructor].
  - destruct (Ascii.eqb_spec c sep) as [E | N].
    + constructor; [intros [] | assumption].
    + destruct (split_list sep s) as [|piece pieces].
      * constructor; [|constructor]. intros [H | []]. contradiction.
      * inversion IH as [|? ? Hpiece Hpieces]; subst.
        constructor; [|assumption].
        intros [H | H]; [contradiction | apply Hpiece; assumption].
Qed.

Lemma lstrip_list_suffix (l : list ascii) :
  exists pre, l = pre ++ lstrip_list l.
Proof.
  induction l as [|c l [pre IH]]; simpl.
  - exists []. reflexivity.
  - destruct (is_space c).
    + exists (c :: pre). simpl. f_equal. assumption.
    + exists []. reflexivity.
Qed.

Lemma lstrip_list_head (l : list ascii) (c : ascii) (l' : list ascii) :
  lstrip_list l = c :: l' -> is_space c = false.
Proof.
  induction l as [|x l IH]; simpl; [discriminate|].
  destruct (is_space x) eqn:E; [assumption|].
  intros H. injection H as <- _. assumption.
Qed.

Lemma lstrip_list_fixed (l : list ascii) :
  (forall c l', l = c :: l' -> is_space c = false) -> lstrip_list l = l.
Proof.
  destruct l as [|c l]; simpl; [reflexivity|].
  intros H. rewrite (H c l eq_refl). reflexivity.
Qed.

(** The characters of a stripped string, and what stripping keeps. *)
Lemma strip_list (s : string) :
  list_ascii_of_string (strip s)
  = rev (lstrip_list (rev (lstrip_list (list_ascii_of_string s)))).
Proof. unfold strip. apply list_ascii_of_string_of_list_ascii. Qed.

Lemma strip_keeps (s : string) (c : ascii) :
  In c (list_ascii_of_string (strip s)) -> In c (list_ascii_of_string s).
Proof.
  rewrite strip_list, <- in_rev. intros H.
  destruct (lstrip_list_suffix (rev (lstrip_list (list_ascii_of_string s))))
    as [pre1 E1].
  assert (H1 : In c (rev (lstrip_list (list_ascii_of_string s))))
    by (rewrite E1; apply in_or_app; right; assumption).
  apply in_rev in H1.
  destruct (lstrip_list_suffix (list_ascii_of_string s)) as [pre2 E2].
  rewrite E2. apply in_or_app. right. assumption.
Qed.

Lemma strip_idempotent (s : string) : strip (strip s) = strip s.
Proof.
  unfold strip at 1. rewrite strip_list.
  set (inner := lstrip_list (list_ascii_of_string s)).
  set (kept := lstrip_list (rev inner)).
  assert (Hhead : lstrip_list (rev kept) = rev kept).
  { apply lstrip_list_fixed. intros c l' Hc.
    destruct (lstrip_list_suffix (rev inner)) as [pre E]. fold kept in E.
    assert (Hinner : inner = rev kept ++ rev pre).
    { rewrite <- (rev_involutive inner), E, rev_app_distr. reflexivity. }
    rewrite Hc in Hinner. simpl in Hinner.
    apply (lstrip_list_head (list_ascii_of_string s) c (l' ++ rev pre)).
    exact Hinner. }
  rewrite Hhead, rev_involutive.
  assert (Hkept : lstrip_list kept = kept).
  { apply lstrip_list_fixed. intros c l' Hc.
    apply (lstrip_list_head (rev inner) c l'). exact Hc. }
  rewrite Hkept. unfold strip. reflexivity.
Qed.

Lemma sentence_narratives_length (i : nat) (sentences : list string) :
  List.length (App.sentence_narratives i sentences) = List.length sentences.
Proof.
  revert i. induction sentences as [|s ss IH]; intros i; simpl;
    [reflexivity | f_equal; apply IH].
Qed.

Lemma kept_sentences (transcript : string) :
  Forall kept_sentence
    (firstn 5
       (map strip
          (filter (fun s => 50 <? String.length (strip s))
             (split "."%char transcript)))).
Proof.
  apply Forall_forall. intros sentence Hs. apply firstn_incl in Hs.
  apply in_map_iff in Hs. destruct Hs as [piece [<- Hpiece]].
  apply filter_In in Hpiece. destruct Hpiece as [Hpiece Hlen].
  split; [apply Nat.ltb_lt; assumption|]. split; [|apply strip_idempotent].
  intros Hdot. apply strip_keeps in Hdot.
  unfold split in Hpiece. apply in_map_iff in Hpiece.
  destruct Hpiece as [chars [<- Hchars]].
  rewrite list_ascii_of_string_of_list_ascii in Hdot.
  pose proof (split_list_no_separator "."%char (list_ascii_of_string transcript))
    as Hno.
  rewrite Forall_forall in Hno. apply (Hno chars Hchars Hdot).
Qed.

(** The narratives of a transcript, by the number of sentences kept. *)
Lemma sentence_narratives_shape (sentences : list string) :
  List.length sentences <= 5 ->
  Forall kept_sentence sentences ->
  map speaker_of (App.sentence_narratives 0 sentences)
  = firstn (List.length sentences) transcript_speakers
  /\ Forall made_of_sentence (App.sentence_narratives 0 sentences)
  /\ Forall complete (App.sentence_narratives 0 sentences).
Proof.
  intros Hlen Hkept.
  destruct sentences as [|s1 [|s2 [|s3 [|s4 [|s5 [|s6 rest]]]]]];
    try (simpl in Hlen; lia);
    (split; [reflexivity|]);
    (split;
     [ repeat (apply Forall_cons_iff in Hkept; destruct Hkept as [? Hkept]);
       repeat (constructor; [eexists; split; [reflexivity | assumption]|]);
       constructor
     | repeat (constructor; [split; [split|]; simpl; tauto|]); constructor ]).
Qed.

Lemma transcript_narratives_shape (transcript : string) :
  let narratives := App.transcript_narratives transcript in
  List.length narratives <= 5
  /\ map speaker_of narratives = firstn (List.length narratives) transcript_speakers
  /\ Forall made_of_sentence narratives
  /\ Forall complete narratives.
Proof.
  unfold App.transcript_narratives.
  set (sentences := firstn 5 _).
  assert (Hlen : List.length sentences <= 5) by apply firstn_le_length.
  destruct (sentence_narratives_shape sentences Hlen (kept_sentences transcript))
    as [Hs [Hm Hc]].
  cbv zeta. rewrite sentence_narratives_length.
  split; [assumption|]. split; [assumption|]. split; assumption.
Qed.

Lemma transcript_speakers_distinct (k : nat) : NoDup (firstn k transcript_speakers).
Proof.
  assert (H : NoDup transcript_speakers).
  { unfold transcript_speakers.
    repeat (constructor; [simpl; intuition discriminate|]). constructor. }
  rewrite <- (firstn_skipn k transcript_speakers) in H.
  apply NoDup_app_remove_r in H. assumption.
Qed.

(** X15. Whatever the transcript, [analyze_audio] makes at most five
    narratives of it; their speakers are [Speaker_1], [Speaker_2], ... in
    this order, all distinct; each narrative has a speaker, a text and a
    position; its text is a sentence of more than 50 characters without
    a full stop and without white space at either end, and its position
    is the first 80 characters of the text. *)
Theorem X15_narratives_of_a_transcript (transcript : string) :
  let narratives := App.transcript_narratives transcript in
  List.length narratives <= 5
  /\ map speaker_of narratives = firstn (List.length narratives) transcript_speakers
  /\ NoDup (map speaker_of narratives)
  /\ Forall made_of_sentence narratives.
Proof.
  destruct (transcript_narratives_shape transcript) as [Hlen [Hs [Hm _]]].
  cbv zeta. split; [assumption|]. split; [assumption|]. split; [|assumption].
  rewrite Hs. apply transcript_speakers_distinct.
Qed.

(** X16. Whatever the transcript, the analysis and the report of its
    narratives never raise, and the result holds one agreement for each
    pair of narratives: k * (k - 1) / 2 agreements for k narratives,
    ten at most. *)
Theorem X16_transcripts_are_always_analyzed (order : set_order) (transcript : string) :
  let narratives := App.transcript_narratives transcript in
  exists (r : SAMVADAnalyzer.results) (report : string),
    SAMVADAnalyzer.run order narratives = Ok (r, report)
    /\ List.length (SAMVADAnalyzer.hidden_agreements r)
       = List.length narratives * (List.length narratives - 1) / 2
    /\ List.length (SAMVADAnalyzer.hidden_agreements r) <= 10.
Proof.
  destruct (transcript_narratives_shape transcript) as [Hlen [Hs [_ Hc]]].
  cbv zeta. set (narratives := App.transcript_narratives transcript) in *.
  destruct (complete_run order narratives Hc) as [r [report [Hrun [Ha _]]]].
  exists r, report. split; [assumption|].
  assert (Hwf : Forall well_formed narratives).
  { apply Forall_forall. intros n Hn. rewrite Forall_forall in Hc.
    apply (Hc n Hn). }
  destruct (analyze_dialogue_counts order narratives Hwf) as [r' [Ha' [_ Hh]]].
  rewrite Ha in Ha'. injection Ha' as <-.
  assert (Hd : distinct_speakers narratives = List.length narratives).
  { unfold distinct_speakers, set_len.
    rewrite nodup_fixed_point, length_map; [reflexivity|].
    rewrite Hs. apply transcript_speakers_distinct. }
  rewrite Hd in Hh. split; [assumption|]. rewrite Hh.
  destruct (List.length narratives) as [|[|[|[|[|[|k]]]]]]; simpl; lia.
Qed.

(** ** The route /analyze *)

Section RouteFacts.

Variable order : set_order.
Variable database : Type.
Variable save_analysis :
  database -> list SAMVADAnalyzer.narrative -> SAMVADAnalyzer.results ->
  string -> string -> result nat * database.

Lemma analyze_route_success (db : database)
  (narratives : list SAMVADAnalyzer.narrative) :
  2 <= List.length narratives ->
  Forall complete narratives ->
  exists (r : SAMVADAnalyzer.results) (report : string),
    SAMVADAnalyzer.run order narratives = Ok (r, report)
    /\ forall analysis_id db',
         save_analysis db narratives r report "text" = (Ok analysis_id, db') ->
         App.analyze order database save_analysis db narratives
         = (App.Success report analysis_id (List.length narratives)
              (distinct_speakers narratives * (distinct_speakers narratives - 1) / 2)
              None,
            db').
Proof.
  intros Hge Hc.
  destruct (complete_run order narratives Hc) as [r [report [Hrun [Ha Hr]]]].
  exists r, report. split; [assumption|].
  intros analysis_id db' Hsave.
  assert (Hwf : Forall well_formed narratives).
  { apply Forall_forall. intros n Hn. rewrite Forall_forall in Hc.
    apply (Hc n Hn). }
  destruct (analyze_dialogue_counts order narratives Hwf) as [r' [Ha' [_ Hh]]].
  rewrite Ha in Ha'. injection Ha' as <-.
  unfold App.analyze.
  destruct (Nat.ltb_spec (List.length narratives) 2) as [Hlt | _]; [lia|].
  unfold App.analyze_and_store. rewrite Ha, Hr, Hsave, Hh. reflexivity.
Qed.

End RouteFacts.



(** X18. On a request of two narratives or more that all have a
    speaker, a text and a position, the route [/analyze] reaches the
    database, and when the database stores the analysis the answer is a
    success whose summary counts the narratives as speakers and one
    hidden agreement for each pair of distinct speakers: a speaker who
    comes twice is counted twice as a speaker and once in the pairs. *)
Theorem X18_summary_of_a_stored_analysis (order : set_order) (database : Type)
  (save_analysis :
     database -> list SAMVADAnalyzer.narrative -> SAMVADAnalyzer.results ->
     string -> string -> result nat * database)
  (db : database) (narratives : list SAMVADAnalyzer.narrative) :
  2 <= List.length narratives ->
  Forall complete narratives ->
  exists (r : SAMVADAnalyzer.results) (report : string),
    SAMVADAnalyzer.run order narratives = Ok (r, report)
    /\ forall analysis_id db',
         save_analysis db narratives r report "text" = (Ok analysis_id, db') ->
         App.analyze order database save_analysis db narratives
         = (App.Success report analysis_id (List.length narratives)
              (distinct_speakers narratives * (distinct_speakers narratives - 1) / 2)
              None,
            db').
Proof.
  intros Hge Hc.
  destruct (analyze_route_success order database save_analysis db narratives Hge Hc)
    as [r [report H]].
  exists r, report. exact H.
Qed.

(** X18 at the dialogue in which one speaker speaks twice. *)
Lemma X18_summary_of_a_stored_analysis_witness :
  exists (r : SAMVADAnalyzer.results) (report : string),
    SAMVADAnalyzer.run order_fwd repeated_speaker_dialogue = Ok (r, report)
    /\ forall analysis_id db',
         counting_save 0 repeated_speaker_dialogue r report "text"
         = (Ok analysis_id, db') ->
         App.analyze order_fwd nat counting_save 0 repeated_speaker_dialogue
         = (App.Success report analysis_id (List.length repeated_speaker_dialogue)
              (distinct_speakers repeated_speaker_dialogue
               * (distinct_speakers repeated_speaker_dialogue - 1) / 2)
              None,
            db').
Proof.
  apply (X18_summary_of_a_stored_analysis order_fwd nat counting_save 0
           repeated_speaker_dialogue).
  - simpl. lia.
  - repeat constructor; simpl; tauto.
Defined.

(** ** The strength of an agreement, computed and printed *)

Lemma strength_by_shared_values (sv : list string) (p r : float) :
  List.length sv <= 5 ->
  p = 0.3%float \/ p = 0.6%float \/ p = 0.9%float ->
  r = 0.2%float \/ r = 0.4%float \/ r = 0.7%float ->
  (3 <= List.length sv ->
   (0.6 <? _calculate_agreement_strength sv p r)%float = true)
  /\ (List.length sv <= 1 ->
      (0.6 <? _calculate_agreement_strength sv p r)%float = false).
Proof.
  intros Hlen Hp Hr. unfold _calculate_agreement_strength.
  remember (List.length sv) as n eqn:En. clear En sv.
  do 6 (destruct n as [|n];
        [destruct Hp as [-> | [-> | ->]]; destruct Hr as [-> | [-> | ->]];
         split; intros Hn; try lia; vm_compute; reflexivity|]).
  lia.
Qed.

(** X19. Among the agreements that [detect_agreements] returns, one
    with three shared values or more has a strength above 0.6, the bar
    of the recommendation on a strong agreement, and one with one shared
    value or none has not: the shared values alone decide, whatever the
    similarity of sources and the compatibility of reasoning. *)
Theorem X19_strong_agreements_share_values (order : set_order)
  (analyses : dict analysis) :
  exists agreements : list agreement,
    detect_agreements order analyses = Ok agreements
    /\ Forall
         (fun g =>
            (3 <= List.length (shared_values g) ->
             (0.6 <? agreement_strength g)%float = true)
            /\ (List.length (shared_values g) <= 1 ->
                (0.6 <? agreement_strength g)%float = false))
         agreements.
Proof.
  destruct (detect_agreements_outcome order analyses) as [items [_ E]].
  eexists. split; [exact E|].
  apply (Forall_perm _ (map (agreement_of_items order) (combinations2 items)));
    [symmetry; apply sorted_by_perm|].
  apply Forall_forall. intros g Hg. apply in_map_iff in Hg.
  destruct Hg as [[[pa a] [pb b]] [<- _]].
  unfold agreement_of_items, agreement_of.
  cbn [fst snd shared_values agreement_strength].
  apply strength_by_shared_values.
  - apply find_shared_values_length.
  - apply compare_pramana_range.
  - apply compare_reasoning_range.
Qed.

Lemma possible_strengths_printed :
  forall x, In x possible_strengths ->
    exists k, 10 <= k <= 93 /\ format_percent0 x = fstr [str_nat k; "%"].
Proof.
  assert (H : forallb
                (fun x =>
                   existsb
                     (fun k => String.eqb (format_percent0 x) (fstr [str_nat k; "%"]))
                     (seq 10 84))
                possible_strengths = true) by (vm_compute; reflexivity).
  intros x Hx. rewrite forallb_forall in H. specialize (H x Hx).
  apply existsb_exists in H. destruct H as [k [Hk E]].
  apply in_seq in Hk. apply String.eqb_eq in E.
  exists k. split; [lia | assumption].
Qed.

(** X20. The strength that the report prints for an agreement of
    [detect_agreements] is a whole percentage between 10% and 93%. *)
Theorem X20_printed_strengths (order : set_order) (analyses : dict analysis) :
  exists agreements : list agreement,
    detect_agreements order analyses = Ok agreements
    /\ Forall
         (fun g =>
            exists k,
              10 <= k <= 93
              /\ format_percent0 (agreement_strength g) = fstr [str_nat k; "%"])
         agreements.
Proof.
  destruct (detect_agreements_outcome order analyses) as [items [_ E]].
  eexists. split; [exact E|].
  apply (Forall_perm _ (map (agreement_of_items order) (combinations2 items)));
    [symmetry; apply sorted_by_perm|].
  apply Forall_forall. intros g Hg. apply in_map_iff in Hg.
  destruct Hg as [[[pa a] [pb b]] [<- _]].
  apply possible_strengths_printed, agreement_of_strength_possible.
Qed.
